(** * PowerToys Measure Tool: the session orchestrator ([Core])

    A shallow embedding of
    [src/modules/MeasureTool/MeasureToolCore/PowerToys.MeasureToolCore.cpp]
    together with the state records of [ToolState.h].

    The member functions of [Core] become computations of a small monad [M]
    over the members of the object: they read and write the [Core] record,
    append to a log of the effects they have on the operating system
    (threads joined and spawned, overlay windows created and destroyed,
    tracing calls), and may end in a C++ fault ([std::terminate] when a
    joinable [std::thread] is destroyed, [std::system_error] when a thread
    that is not joinable is joined).  What the functions read from their
    collaborators (the settings file, the list of monitors, the result of
    creating an overlay window, the DPI query) is an explicit [Env].

    The second part, [Module CustomAction], embeds the custom actions of
    [installer/PowerToysSetupCustomActions/CustomAction.cpp] in the same
    way: oracles for what they ask of the system, a log for what they do
    to it. *)

From Stdlib Require Import ZArith List Bool Lia.
From Stdlib Require Import Floats.SpecFloat.
From stdpp Require Import base option list gmap strings.

Local Open Scope Z_scope.

(** ** Machine numbers *)

(** [FLOAT] / [float]: IEEE 754 binary32, as the instance of the Standard
    Library's executable specification of floats with a 24 bit significand. *)
Module Float32.
Definition prec : Z := 24.
Definition emax : Z := 128.
Definition float : Type := spec_float.

(** [static_cast<float>(n)] of an integer: round to nearest, ties to even. *)
Definition of_Z (n : Z) : float := binary_normalize prec emax n 0 false.
Definition div (a b : float) : float := SFdiv prec emax a b.
Definition one : float := of_Z 1.
End Float32.
Abbreviation float := Float32.float.

(** Windows is LLP64: [long] and [LONG] are 32 bit two's complement,
    [uint32_t] and [UINT] are 32 bit unsigned. *)
Definition is_uint32 (n : Z) : Prop := 0 <= n < 2 ^ 32.
Definition is_long (n : Z) : Prop := - 2 ^ 31 <= n < 2 ^ 31.

(** [static_cast<long>(u)] for an unsigned 32 bit [u]: the unique value of
    [long] congruent to [u] modulo 2^32. *)
Definition static_cast_long (u : Z) : Z :=
  let w := u mod 2 ^ 32 in
  if w <? 2 ^ 31 then w else w - 2 ^ 32.

(** ** Windows and Direct2D plain data *)

Definition HWND : Type := Z.
Definition UINT : Type := Z.
Definition HRESULT : Type := Z.
Definition wchar_t : Type := Z.

Module POINT.
Record t : Type := { x : Z; y : Z }.
End POINT.
Module RECT.
Record t : Type := { left : Z; top : Z; right : Z; bottom : Z }.
End RECT.
Module D2D_POINT_2F.
Record t : Type := { x : float; y : float }.
End D2D_POINT_2F.
Module D2D1_RECT_F.
Record t : Type := { left : float; top : float; right : float; bottom : float }.
End D2D1_RECT_F.
Module ColorF.
Record t : Type := { r : float; g : float; b : float; a : float }.
End ColorF.

(** [winrt::com_ptr<T>]: null, or the address of the COM object. *)
Definition com_ptr : Type := option Z.

(** Value initialisation [T{}] / [= {}] of a default constructible type. *)
Class ValueInit (T : Type) : Type := value_init : T.
Arguments value_init T {_}.

#[export] Instance POINT_init : ValueInit POINT.t :=
  {| POINT.x := 0; POINT.y := 0 |}.
#[export] Instance RECT_init : ValueInit RECT.t :=
  {| RECT.left := 0; RECT.top := 0; RECT.right := 0; RECT.bottom := 0 |}.

(** [D2D1::ColorF(UINT32 rgb, FLOAT a = 1.0)] of d2d1helper.h: each channel
    is its byte of [rgb] divided by [255.f]. *)
Definition ColorF_of_rgb (rgb : Z) : ColorF.t :=
  {| ColorF.r := Float32.div (Float32.of_Z (Z.shiftr (Z.land rgb 16711680) 16)) (Float32.of_Z 255);
     ColorF.g := Float32.div (Float32.of_Z (Z.shiftr (Z.land rgb 65280) 8)) (Float32.of_Z 255);
     ColorF.b := Float32.div (Float32.of_Z (Z.land rgb 255)) (Float32.of_Z 255);
     ColorF.a := Float32.one |}.

(** [D2D1::ColorF::OrangeRed = 0xFF4500]. *)
Definition OrangeRed : ColorF.t := ColorF_of_rgb 16729344.

(** Modelled from the spec: [Box] and [MonitorInfo] are declared in
    common/Display/monitors.h, which is not among the sources.  A [Box] is
    the rectangle it is built from ([Box{ RECT{...} }]), and is the zero
    rectangle when default constructed; a [MonitorInfo] is the identity of
    an enumerated monitor. *)
Record Box : Type := { rect : RECT.t }.
#[export] Instance Box_init : ValueInit Box := {| rect := value_init RECT.t |}.
Definition MonitorInfo : Type := Z.

(** Modelled from the spec: [Serialized<T>] is declared in
    common/utils/serialized.h, which is not among the sources.  It is "a
    value behind a critical section exposing only a scoped-access
    operation": [Access] runs a function on the value under the lock,
    [Reset] clears the value to its default constructed state. *)
Record Serialized (T : Type) : Type := { guarded : T }.
Arguments guarded {T} _.
Definition Access {T : Type} (f : T -> T) (v : Serialized T) : Serialized T :=
  {| guarded := f (guarded v) |}.
Definition Reset {T : Type} `{ValueInit T} (v : Serialized T) : Serialized T :=
  {| guarded := value_init T |}.
#[export] Instance Serialized_init (T : Type) `{ValueInit T} : ValueInit (Serialized T) :=
  {| guarded := value_init T |}.

(** ** ToolState.h *)

Record OverlayBoxText : Type := { buffer : list wchar_t }.
#[export] Instance OverlayBoxText_init : ValueInit OverlayBoxText :=
  {| buffer := repeat 0 32 |}.

(** [std::function<void()>]: empty, or the closure made by
    [SetToolCompletionEvent] around the host's trigger. *)
Definition ToolSessionCompleted : Type := Z.
Definition callback : Type := option ToolSessionCompleted.

Record CommonState : Type :=
  { sessionCompletedCallback : callback;
    lineColor : ColorF.t;
    toolbarBoundingBox : Box;
    overlayBoxText : Serialized OverlayBoxText;
    cursorPosSystemSpace : POINT.t;
    closeOnOtherMonitors : bool }.

#[export] Instance CommonState_init : ValueInit CommonState :=
  {| sessionCompletedCallback := None;
     lineColor := OrangeRed;
     toolbarBoundingBox := value_init Box;
     overlayBoxText := value_init (Serialized OverlayBoxText);
     cursorPosSystemSpace := value_init POINT.t;
     closeOnOtherMonitors := false |}.

(** [CommonState*]: the tool states point at the orchestrator's own
    [_commonState] member (they alias it, they hold no copy), or are null. *)
Inductive CommonStatePtr : Type :=
| nullptr : CommonStatePtr
| addr_commonState : CommonStatePtr.

Module BoundsToolState.
Record PerScreen : Type :=
  { currentRegionStart : option D2D_POINT_2F.t;
    measurements : list D2D1_RECT_F.t }.
Record t : Type :=
  { perScreen : gmap HWND PerScreen;
    commonState : CommonStatePtr }.
End BoundsToolState.

#[export] Instance BoundsToolState_init : ValueInit BoundsToolState.t :=
  {| BoundsToolState.perScreen := ∅; BoundsToolState.commonState := nullptr |}.

Module MeasureToolState.
Inductive Mode : Type := Horizontal | Vertical | Cross.

Record Global : Type :=
  { pixelTolerance : Z;
    continuousCapture : bool;
    drawFeetOnCross : bool;
    perColorChannelEdgeDetection : bool;
    mode : Mode }.

Record PerScreen : Type :=
  { cursorInLeftScreenHalf : bool;
    cursorInTopScreenHalf : bool;
    measuredEdges : RECT.t;
    capturedScreenTexture : com_ptr;
    capturedScreenBitmap : com_ptr }.

Record t : Type :=
  { global : Global;
    perScreen : gmap HWND PerScreen;
    commonState : CommonStatePtr }.

Definition set_global (gl : Global) (s : t) : t :=
  {| global := gl; perScreen := perScreen s; commonState := commonState s |}.
Definition set_commonState (p : CommonStatePtr) (s : t) : t :=
  {| global := global s; perScreen := perScreen s; commonState := p |}.
End MeasureToolState.

#[export] Instance Global_init : ValueInit MeasureToolState.Global :=
  {| MeasureToolState.pixelTolerance := 30;
     MeasureToolState.continuousCapture := true;
     MeasureToolState.drawFeetOnCross := true;
     MeasureToolState.perColorChannelEdgeDetection := false;
     MeasureToolState.mode := MeasureToolState.Cross |}.

#[export] Instance MeasureToolState_init : ValueInit MeasureToolState.t :=
  {| MeasureToolState.global := value_init MeasureToolState.Global;
     MeasureToolState.perScreen := ∅;
     MeasureToolState.commonState := nullptr |}.

(** ** Collaborators of the orchestrator *)

(** Modelled from the spec: [Settings] is declared in Settings.h, which is
    not among the sources.  It is the "immutable settings snapshot (stroke
    color components, capture tolerance, continuous-capture flag,
    per-channel detection flag, cross-mode foot-marks flag)"; the stroke
    color is a [std::array<uint8_t, 3>], indexed 0, 1, 2 by the code. *)
Module Settings.
Record t : Type :=
  { lineColor : Z * Z * Z;
    continuousCapture : bool;
    drawFeetOnCross : bool;
    pixelTolerance : Z;
    perColorChannelEdgeDetection : bool }.
Definition lineColor_at (i : nat) (s : t) : Z :=
  match lineColor s, i with
  | (c0, _, _), O => c0
  | (_, c1, _), S O => c1
  | (_, _, c2), _ => c2
  end.
End Settings.

(** What a [std::thread] runs: the cursor poll loop of the orchestrator, or
    the capture loop [StartCapturingThread] binds to an overlay window and
    its monitor. *)
Inductive Task : Type :=
| MouseCapture : Task
| ScreenCapture (window : HWND) (monitor : MonitorInfo) : Task.

(** [std::thread]: [joinable] holds from the start of the thread until it
    has been joined. *)
Record thread : Type := { joinable : bool; task : Task }.

(** Modelled from the spec: [OverlayUIState] is declared in OverlayUI.h,
    which is not among the sources.  An overlay surface "wraps a window
    handle and its GPU drawing context"; the orchestrator only reads the
    window handle. *)
Record OverlayUIState : Type := { overlayWindowHandle : HWND }.

Inductive Tool : Type := BoundsTool | MeasureTool.

(** The members of [Core], in the order of PowerToys.MeasureToolCore.h. *)
Record Core : Type :=
  { _mouseCaptureThread : thread;
    _screenCaptureThreads : list thread;
    _stopMouseCaptureThreadSignal : bool;
    _overlayUIStates : list OverlayUIState;
    _measureToolState : Serialized MeasureToolState.t;
    _boundsToolState : BoundsToolState.t;
    _commonState : CommonState;
    _settings : Settings.t }.

(** What the orchestrator reads from outside the object during one call. *)
Record Env : Type :=
  { (** [Settings::LoadFromFile()] *)
    Settings_LoadFromFile : Settings.t;
    (** [MonitorInfo::GetMonitors(true)] *)
    MonitorInfo_GetMonitors : list MonitorInfo;
    (** [OverlayUIState::Create(toolState, commonState, monitorInfo)]: the
        new surface, or null when the surface could not be created. *)
    OverlayUIState_Create : Tool -> MonitorInfo -> option OverlayUIState;
    (** [DPIAware::DEFAULT_DPI] *)
    DEFAULT_DPI : UINT;
    (** [DPIAware::GetScreenDPIForWindow(hwnd, dpi)]: from the window and
        the value [dpi] holds at the call, the result code and the value
        [dpi] holds on return. *)
    DPIAware_GetScreenDPIForWindow : HWND -> UINT -> HRESULT * UINT }.

Definition FAILED (hr : HRESULT) : Prop := hr < 0.

(** The effects of the orchestrator on the operating system. *)
Inductive Event : Type :=
| stop_signal_SetEvent : Event
| thread_started (t : Task) : Event
| thread_joined (t : Task) : Event
| overlay_create (tool : Tool) (monitor : MonitorInfo) (result : option HWND) : Event
| overlay_destroyed (window : HWND) : Event
| settings_loaded : Event
| init_logger : Event
| Trace_RegisterProvider : Event
| Trace_UnregisterProvider : Event
| Trace_BoundsToolActivated : Event
| Trace_MeasureToolActivated : Event.

Inductive Fault : Type :=
| std_terminate : Fault      (* a joinable std::thread is destroyed *)
| std_system_error : Fault.  (* join() of a thread that is not joinable *)

(** ** The monad of member functions *)

Definition M (A : Type) : Type := Core -> Fault + (A * Core * list Event).

Definition ret {A : Type} (v : A) : M A := fun c => inr (v, c, []).

Definition bind {A B : Type} (m : M A) (k : A -> M B) : M B :=
  fun c =>
    match m c with
    | inl e => inl e
    | inr (v, c1, l1) =>
        match k v c1 with
        | inl e => inl e
        | inr (w, c2, l2) => inr (w, c2, l1 ++ l2)
        end
    end.

Definition get : M Core := fun c => inr (c, c, []).
Definition modify (f : Core -> Core) : M unit := fun c => inr (tt, f c, []).
Definition emit (e : Event) : M unit := fun c => inr (tt, c, [e]).
Definition throw {A : Type} (e : Fault) : M A := fun _ => inl e.

Declare Scope core_scope.
Delimit Scope core_scope with core.
Notation "v <- m ;; k" := (bind m (fun v => k))
  (at level 100, m at next level, right associativity) : core_scope.
Notation "m ;; k" := (bind m (fun _ => k))
  (at level 100, right associativity) : core_scope.
Local Open Scope core_scope.

(** A range-for over a list, with [continue] being the body's plain return. *)
Fixpoint for_each {A : Type} (body : A -> M unit) (l : list A) : M unit :=
  match l with
  | [] => ret tt
  | v :: l' => body v ;; for_each body l'
  end.

(** ** Assignments to members *)

Definition set_closeOnOtherMonitors (v : bool) (s : CommonState) : CommonState :=
  {| sessionCompletedCallback := sessionCompletedCallback s;
     lineColor := lineColor s;
     toolbarBoundingBox := toolbarBoundingBox s;
     overlayBoxText := overlayBoxText s;
     cursorPosSystemSpace := cursorPosSystemSpace s;
     closeOnOtherMonitors := v |}.

Definition set_lineColor (v : ColorF.t) (s : CommonState) : CommonState :=
  {| sessionCompletedCallback := sessionCompletedCallback s;
     lineColor := v;
     toolbarBoundingBox := toolbarBoundingBox s;
     overlayBoxText := overlayBoxText s;
     cursorPosSystemSpace := cursorPosSystemSpace s;
     closeOnOtherMonitors := closeOnOtherMonitors s |}.

Definition set_toolbarBoundingBox (v : Box) (s : CommonState) : CommonState :=
  {| sessionCompletedCallback := sessionCompletedCallback s;
     lineColor := lineColor s;
     toolbarBoundingBox := v;
     overlayBoxText := overlayBoxText s;
     cursorPosSystemSpace := cursorPosSystemSpace s;
     closeOnOtherMonitors := closeOnOtherMonitors s |}.

Definition set_sessionCompletedCallback (v : callback) (s : CommonState) : CommonState :=
  {| sessionCompletedCallback := v;
     lineColor := lineColor s;
     toolbarBoundingBox := toolbarBoundingBox s;
     overlayBoxText := overlayBoxText s;
     cursorPosSystemSpace := cursorPosSystemSpace s;
     closeOnOtherMonitors := closeOnOtherMonitors s |}.

Definition set_r (v : float) (k : ColorF.t) : ColorF.t :=
  {| ColorF.r := v; ColorF.g := ColorF.g k; ColorF.b := ColorF.b k; ColorF.a := ColorF.a k |}.
Definition set_g (v : float) (k : ColorF.t) : ColorF.t :=
  {| ColorF.r := ColorF.r k; ColorF.g := v; ColorF.b := ColorF.b k; ColorF.a := ColorF.a k |}.
Definition set_b (v : float) (k : ColorF.t) : ColorF.t :=
  {| ColorF.r := ColorF.r k; ColorF.g := ColorF.g k; ColorF.b := v; ColorF.a := ColorF.a k |}.

Definition with_mouseCaptureThread (f : thread -> thread) (c : Core) : Core :=
  {| _mouseCaptureThread := f (_mouseCaptureThread c);
     _screenCaptureThreads := _screenCaptureThreads c;
     _stopMouseCaptureThreadSignal := _stopMouseCaptureThreadSignal c;
     _overlayUIStates := _overlayUIStates c;
     _measureToolState := _measureToolState c;
     _boundsToolState := _boundsToolState c;
     _commonState := _commonState c;
     _settings := _settings c |}.

Definition with_screenCaptureThreads (f : list thread -> list thread) (c : Core) : Core :=
  {| _mouseCaptureThread := _mouseCaptureThread c;
     _screenCaptureThreads := f (_screenCaptureThreads c);
     _stopMouseCaptureThreadSignal := _stopMouseCaptureThreadSignal c;
     _overlayUIStates := _overlayUIStates c;
     _measureToolState := _measureToolState c;
     _boundsToolState := _boundsToolState c;
     _commonState := _commonState c;
     _settings := _settings c |}.

Definition with_stopMouseCaptureThreadSignal (f : bool -> bool) (c : Core) : Core :=
  {| _mouseCaptureThread := _mouseCaptureThread c;
     _screenCaptureThreads := _screenCaptureThreads c;
     _stopMouseCaptureThreadSignal := f (_stopMouseCaptureThreadSignal c);
     _overlayUIStates := _overlayUIStates c;
     _measureToolState := _measureToolState c;
     _boundsToolState := _boundsToolState c;
     _commonState := _commonState c;
     _settings := _settings c |}.

Definition with_overlayUIStates (f : list OverlayUIState -> list OverlayUIState) (c : Core) : Core :=
  {| _mouseCaptureThread := _mouseCaptureThread c;
     _screenCaptureThreads := _screenCaptureThreads c;
     _stopMouseCaptureThreadSignal := _stopMouseCaptureThreadSignal c;
     _overlayUIStates := f (_overlayUIStates c);
     _measureToolState := _measureToolState c;
     _boundsToolState := _boundsToolState c;
     _commonState := _commonState c;
     _settings := _settings c |}.

Definition with_measureToolState
    (f : Serialized MeasureToolState.t -> Serialized MeasureToolState.t) (c : Core) : Core :=
  {| _mouseCaptureThread := _mouseCaptureThread c;
     _screenCaptureThreads := _screenCaptureThreads c;
     _stopMouseCaptureThreadSignal := _stopMouseCaptureThreadSignal c;
     _overlayUIStates := _overlayUIStates c;
     _measureToolState := f (_measureToolState c);
     _boundsToolState := _boundsToolState c;
     _commonState := _commonState c;
     _settings := _settings c |}.

Definition with_boundsToolState (f : BoundsToolState.t -> BoundsToolState.t) (c : Core) : Core :=
  {| _mouseCaptureThread := _mouseCaptureThread c;
     _screenCaptureThreads := _screenCaptureThreads c;
     _stopMouseCaptureThreadSignal := _stopMouseCaptureThreadSignal c;
     _overlayUIStates := _overlayUIStates c;
     _measureToolState := _measureToolState c;
     _boundsToolState := f (_boundsToolState c);
     _commonState := _commonState c;
     _settings := _settings c |}.

Definition with_commonState (f : CommonState -> CommonState) (c : Core) : Core :=
  {| _mouseCaptureThread := _mouseCaptureThread c;
     _screenCaptureThreads := _screenCaptureThreads c;
     _stopMouseCaptureThreadSignal := _stopMouseCaptureThreadSignal c;
     _overlayUIStates := _overlayUIStates c;
     _measureToolState := _measureToolState c;
     _boundsToolState := _boundsToolState c;
     _commonState := f (_commonState c);
     _settings := _settings c |}.

Definition with_settings (f : Settings.t -> Settings.t) (c : Core) : Core :=
  {| _mouseCaptureThread := _mouseCaptureThread c;
     _screenCaptureThreads := _screenCaptureThreads c;
     _stopMouseCaptureThreadSignal := _stopMouseCaptureThreadSignal c;
     _overlayUIStates := _overlayUIStates c;
     _measureToolState := _measureToolState c;
     _boundsToolState := _boundsToolState c;
     _commonState := _commonState c;
     _settings := f (_settings c) |}.

(** What a tool state's [commonState] pointer refers to. *)
Definition deref (c : Core) (p : CommonStatePtr) : option CommonState :=
  match p with
  | nullptr => None
  | addr_commonState => Some (_commonState c)
  end.

Definition with_lineColor (f : ColorF.t -> ColorF.t) (s : CommonState) : CommonState :=
  set_lineColor (f (lineColor s)) s.

(** ** Threads and overlay surfaces *)

(** A computation on a member taken by reference. *)
Definition Step (A : Type) : Type := Fault + (A * list Event).

(** [thread.join()] *)
Definition join (t : thread) : Step thread :=
  if joinable t
  then inr ({| joinable := false; task := task t |}, [thread_joined (task t)])
  else inl std_system_error.

(** [~thread()] *)
Definition destroy_thread (t : thread) : Step unit :=
  if joinable t then inl std_terminate else inr (tt, []).

(** Modelled from the spec: [~OverlayUIState()] is defined in OverlayUI.cpp,
    which is not among the sources.  Clearing the overlay surfaces is
    "destroying their windows". *)
Definition destroy_overlay (o : OverlayUIState) : Step unit :=
  inr (tt, [overlay_destroyed (overlayWindowHandle o)]).

(** [for (auto& v : l) body(v)]: the elements are replaced in place. *)
Fixpoint for_each_ref {A : Type} (body : A -> Step A) (l : list A) : Step (list A) :=
  match l with
  | [] => inr ([], [])
  | v :: l' =>
      match body v with
      | inl e => inl e
      | inr (v', l1) =>
          match for_each_ref body l' with
          | inl e => inl e
          | inr (l'', l2) => inr (v' :: l'', l1 ++ l2)
          end
      end
  end.

(** [std::vector<T>::clear()]: every element is destroyed. *)
Fixpoint clear {A : Type} (destroy : A -> Step unit) (l : list A) : Step (list A) :=
  match l with
  | [] => inr ([], [])
  | v :: l' =>
      match destroy v with
      | inl e => inl e
      | inr (_, l1) =>
          match clear destroy l' with
          | inl e => inl e
          | inr (l'', l2) => inr (l'', l1 ++ l2)
          end
      end
  end.

(** Run a computation on one member of the object. *)
Definition on_member {A : Type} (proj : Core -> A) (upd : (A -> A) -> Core -> Core)
    (f : A -> Step A) : M unit :=
  fun c =>
    match f (proj c) with
    | inl e => inl e
    | inr (v, l) => inr (tt, upd (fun _ => v) c, l)
    end.

(** Modelled from the spec: [StartCapturingThread] is defined in
    ScreenCapturing.cpp, which is not among the sources.  It starts "a
    dedicated capture thread bound to that surface's window" and returns
    its [std::thread]. *)
Definition StartCapturingThread (window : HWND) (monitor : MonitorInfo) : M thread :=
  emit (thread_started (ScreenCapture window monitor)) ;;
  ret {| joinable := true; task := ScreenCapture window monitor |}.

(** ** PowerToys.MeasureToolCore.cpp

    [DEBUG_PRIMARY_MONITOR_ONLY] is not defined, so both tools loop over
    [MonitorInfo::GetMonitors(true)] and skip a monitor whose surface is
    null. *)

(** [Core::Core()]: the members are initialised in the order of their
    declaration, then the body runs.  [Settings{}] is a parameter. *)
Definition Core_ctor (default_settings : Settings.t) : Core * list Event :=
  ({| _mouseCaptureThread := {| joinable := true; task := MouseCapture |};
      _screenCaptureThreads := [];
      _stopMouseCaptureThreadSignal := false;
      _overlayUIStates := [];
      _measureToolState := value_init (Serialized MeasureToolState.t);
      _boundsToolState := value_init BoundsToolState.t;
      _commonState := value_init CommonState;
      _settings := default_settings |},
   [thread_started MouseCapture; Trace_RegisterProvider; init_logger]).

(** [lineColor[i] / 255.f] *)
Definition channel (i : nat) (s : Settings.t) : float :=
  Float32.div (Float32.of_Z (Settings.lineColor_at i s)) (Float32.of_Z 255).

Definition ResetState (env : Env) : M unit :=
  modify (with_commonState (set_closeOnOtherMonitors true)) ;;
  on_member _overlayUIStates with_overlayUIStates (clear destroy_overlay) ;;
  modify (with_boundsToolState (fun _ =>
    {| BoundsToolState.perScreen := ∅;
       BoundsToolState.commonState := addr_commonState |})) ;;
  on_member _screenCaptureThreads with_screenCaptureThreads
    (for_each_ref (fun thread => if joinable thread then join thread else inr (thread, []))) ;;
  on_member _screenCaptureThreads with_screenCaptureThreads (clear destroy_thread) ;;
  modify (with_measureToolState Reset) ;;
  modify (with_measureToolState
    (Access (MeasureToolState.set_commonState addr_commonState))) ;;
  emit settings_loaded ;;
  modify (with_settings (fun _ => Settings_LoadFromFile env)) ;;
  c <- get ;;
  modify (with_commonState (with_lineColor (set_r (channel 0 (_settings c))))) ;;
  modify (with_commonState (with_lineColor (set_g (channel 1 (_settings c))))) ;;
  modify (with_commonState (with_lineColor (set_b (channel 2 (_settings c))))) ;;
  modify (with_commonState (set_closeOnOtherMonitors false)).

(** [Core::~Core()] *)
Definition Core_dtor (env : Env) : M unit :=
  emit stop_signal_SetEvent ;;
  modify (with_stopMouseCaptureThreadSignal (fun _ => true)) ;;
  on_member _mouseCaptureThread with_mouseCaptureThread join ;;
  ResetState env ;;
  emit Trace_UnregisterProvider.

Definition StartBoundsTool (env : Env) : M unit :=
  ResetState env ;;
  for_each (fun monitorInfo =>
      let overlayUI := OverlayUIState_Create env BoundsTool monitorInfo in
      emit (overlay_create BoundsTool monitorInfo (overlayWindowHandle <$> overlayUI)) ;;
      match overlayUI with
      | None => ret tt
      | Some o => modify (with_overlayUIStates (fun l => l ++ [o]))
      end)
    (MonitorInfo_GetMonitors env) ;;
  emit Trace_BoundsToolActivated.

(** The lambda [StartMeasureTool] passes to [_measureToolState.Access]. *)
Definition StartMeasureTool_setup (horizontal vertical : bool) (settings : Settings.t)
    (state : MeasureToolState.t) : MeasureToolState.t :=
  MeasureToolState.set_global
    {| MeasureToolState.pixelTolerance := Settings.pixelTolerance settings;
       MeasureToolState.continuousCapture := Settings.continuousCapture settings;
       MeasureToolState.drawFeetOnCross := Settings.drawFeetOnCross settings;
       MeasureToolState.perColorChannelEdgeDetection :=
         Settings.perColorChannelEdgeDetection settings;
       MeasureToolState.mode :=
         if horizontal
         then (if vertical then MeasureToolState.Cross else MeasureToolState.Horizontal)
         else MeasureToolState.Vertical |}
    state.

Definition StartMeasureTool (env : Env) (horizontal vertical : bool) : M unit :=
  ResetState env ;;
  c <- get ;;
  modify (with_measureToolState
    (Access (StartMeasureTool_setup horizontal vertical (_settings c)))) ;;
  for_each (fun monitorInfo =>
      let overlayUI := OverlayUIState_Create env MeasureTool monitorInfo in
      emit (overlay_create MeasureTool monitorInfo (overlayWindowHandle <$> overlayUI)) ;;
      match overlayUI with
      | None => ret tt
      | Some o =>
          t <- StartCapturingThread (overlayWindowHandle o) monitorInfo ;;
          modify (with_screenCaptureThreads (fun l => l ++ [t])) ;;
          modify (with_overlayUIStates (fun l => l ++ [o]))
      end)
    (MonitorInfo_GetMonitors env) ;;
  emit Trace_MeasureToolActivated.

Definition SetToolCompletionEvent (sessionCompletedTrigger : ToolSessionCompleted) : M unit :=
  modify (with_commonState (set_sessionCompletedCallback (Some sessionCompletedTrigger))).

Definition SetToolbarBoundingBox (fromX fromY toX toY : Z) : M unit :=
  modify (with_commonState (set_toolbarBoundingBox
    {| rect := {| RECT.left := static_cast_long fromX;
                  RECT.top := static_cast_long fromY;
                  RECT.right := static_cast_long toX;
                  RECT.bottom := static_cast_long toY |} |})).

Definition GetDPIScaleForWindow (env : Env) (windowHandle : Z) : M float :=
  let dpi := DEFAULT_DPI env in
  let '(_, dpi) := DPIAware_GetScreenDPIForWindow env windowHandle dpi in
  ret (Float32.div (Float32.of_Z dpi) (Float32.of_Z (DEFAULT_DPI env))).

(** ** Sequences of calls by the host *)

Inductive Call : Type :=
| Call_ResetState : Call
| Call_StartBoundsTool : Call
| Call_StartMeasureTool (horizontal vertical : bool) : Call
| Call_SetToolCompletionEvent (trigger : ToolSessionCompleted) : Call
| Call_SetToolbarBoundingBox (fromX fromY toX toY : Z) : Call
| Call_GetDPIScaleForWindow (windowHandle : Z) : Call.

Definition invoke (env : Env) (call : Call) : M unit :=
  match call with
  | Call_ResetState => ResetState env
  | Call_StartBoundsTool => StartBoundsTool env
  | Call_StartMeasureTool h v => StartMeasureTool env h v
  | Call_SetToolCompletionEvent t => SetToolCompletionEvent t
  | Call_SetToolbarBoundingBox fx fy tx ty => SetToolbarBoundingBox fx fy tx ty
  | Call_GetDPIScaleForWindow w => GetDPIScaleForWindow env w ;; ret tt
  end.

(** Each call runs in the environment found at that moment. *)
Definition invoke_all (calls : list (Env * Call)) : M unit :=
  for_each (fun '(env, call) => invoke env call) calls.

Definition is_StartMeasureTool (call : Call) : bool :=
  match call with
  | Call_StartMeasureTool _ _ => true
  | _ => false
  end.

(** ** Reading the log *)

Definition started (e : Event) : option Task :=
  match e with thread_started t => Some t | _ => None end.
Definition joined (e : Event) : option Task :=
  match e with thread_joined t => Some t | _ => None end.
Definition destroyed (e : Event) : option HWND :=
  match e with overlay_destroyed w => Some w | _ => None end.
Definition created (e : Event) : option HWND :=
  match e with overlay_create _ _ r => r | _ => None end.

(** The thread [StartMeasureTool] starts for a surface and its monitor, and
    what one turn of its monitor loop logs. *)
Definition capture_thread_of (m : MonitorInfo) (o : OverlayUIState) : thread :=
  {| joinable := true; task := ScreenCapture (overlayWindowHandle o) m |}.

Definition measure_turn_log (env : Env) (m : MonitorInfo) : list Event :=
  overlay_create MeasureTool m (overlayWindowHandle <$> OverlayUIState_Create env MeasureTool m)
  :: match OverlayUIState_Create env MeasureTool m with
     | Some o => [thread_started (ScreenCapture (overlayWindowHandle o) m)]
     | None => []
     end.

(** ** What [ResetState] leaves and logs, in closed form *)

Definition ResetState_result (env : Env) (c : Core) : Core :=
  {| _mouseCaptureThread := _mouseCaptureThread c;
     _screenCaptureThreads := [];
     _stopMouseCaptureThreadSignal := _stopMouseCaptureThreadSignal c;
     _overlayUIStates := [];
     _measureToolState :=
       {| guarded :=
            {| MeasureToolState.global := value_init MeasureToolState.Global;
               MeasureToolState.perScreen := ∅;
               MeasureToolState.commonState := addr_commonState |} |};
     _boundsToolState :=
       {| BoundsToolState.perScreen := ∅;
          BoundsToolState.commonState := addr_commonState |};
     _commonState :=
       {| sessionCompletedCallback := sessionCompletedCallback (_commonState c);
          lineColor :=
            {| ColorF.r := channel 0 (Settings_LoadFromFile env);
               ColorF.g := channel 1 (Settings_LoadFromFile env);
               ColorF.b := channel 2 (Settings_LoadFromFile env);
               ColorF.a := ColorF.a (lineColor (_commonState c)) |};
          toolbarBoundingBox := toolbarBoundingBox (_commonState c);
          overlayBoxText := overlayBoxText (_commonState c);
          cursorPosSystemSpace := cursorPosSystemSpace (_commonState c);
          closeOnOtherMonitors := false |};
     _settings := Settings_LoadFromFile env |}.

Definition ResetState_log (c : Core) : list Event :=
  map (fun o => overlay_destroyed (overlayWindowHandle o)) (_overlayUIStates c)
  ++ map (fun t => thread_joined (task t))
       (filter (fun t => joinable t = true) (_screenCaptureThreads c))
  ++ [settings_loaded].

(** ** Vocabulary of the statements *)

(** The measure tool state as [Reset] and the re-linking leave it. *)
Definition MeasureToolState_relinked : MeasureToolState.t :=
  {| MeasureToolState.global :=
       {| MeasureToolState.pixelTolerance := 30;
          MeasureToolState.continuousCapture := true;
          MeasureToolState.drawFeetOnCross := true;
          MeasureToolState.perColorChannelEdgeDetection := false;
          MeasureToolState.mode := MeasureToolState.Cross |};
     MeasureToolState.perScreen := ∅;
     MeasureToolState.commonState := addr_commonState |}.

(** A [LONG] field [v] holds the unsigned 32 bit argument [u]: the same 32
    bits, read as two's complement. *)
Definition stored_as (u v : Z) : Prop :=
  v = static_cast_long u /\
  is_long v /\
  v mod 2 ^ 32 = u /\
  (u < 2 ^ 31 -> v = u) /\
  (2 ^ 31 <= u -> v = u - 2 ^ 32).


(** ** Sample data *)

Definition E_FAIL : HRESULT := -2147467259.

Definition sample_settings : Settings.t :=
  {| Settings.lineColor := (255, 69, 0);
     Settings.continuousCapture := false;
     Settings.drawFeetOnCross := false;
     Settings.pixelTolerance := 12;
     Settings.perColorChannelEdgeDetection := true |}.

(** Three monitors; the surface of monitor 2 cannot be created; the DPI
    query succeeds for window 101 only and leaves [dpi] alone otherwise. *)
Definition sample_env : Env :=
  {| Settings_LoadFromFile := sample_settings;
     MonitorInfo_GetMonitors := [1; 2; 3];
     OverlayUIState_Create := fun _ m =>
       if m =? 2 then None else Some {| overlayWindowHandle := 100 + m |};
     DEFAULT_DPI := 96;
     DPIAware_GetScreenDPIForWindow := fun w dpi =>
       if w =? 101 then (0, 144) else (E_FAIL, dpi) |}.



Definition fresh_core : Core := fst (Core_ctor sample_settings).

(** A measure session under way on two monitors: the host has registered
    its callback and its toolbar, the cursor has moved, a readout has been
    written, and one capture thread has not been joined yet. *)
Definition busy_core : Core :=
  {| _mouseCaptureThread := {| joinable := true; task := MouseCapture |};
     _screenCaptureThreads :=
       [ {| joinable := true; task := ScreenCapture 101 1 |};
         {| joinable := false; task := ScreenCapture 103 3 |} ];
     _stopMouseCaptureThreadSignal := false;
     _overlayUIStates :=
       [ {| overlayWindowHandle := 101 |}; {| overlayWindowHandle := 103 |} ];
     _measureToolState :=
       {| guarded :=
            {| MeasureToolState.global :=
                 {| MeasureToolState.pixelTolerance := 12;
                    MeasureToolState.continuousCapture := false;
                    MeasureToolState.drawFeetOnCross := false;
                    MeasureToolState.perColorChannelEdgeDetection := true;
                    MeasureToolState.mode := MeasureToolState.Horizontal |};
               MeasureToolState.perScreen :=
                 {[ 101 := {| MeasureToolState.cursorInLeftScreenHalf := true;
                              MeasureToolState.cursorInTopScreenHalf := false;
                              MeasureToolState.measuredEdges :=
                                {| RECT.left := 3; RECT.top := 4;
                                   RECT.right := 50; RECT.bottom := 60 |};
                              MeasureToolState.capturedScreenTexture := Some 4096;
                              MeasureToolState.capturedScreenBitmap := None |} ]};
               MeasureToolState.commonState := addr_commonState |} |};
     _boundsToolState :=
       {| BoundsToolState.perScreen := ∅;
          BoundsToolState.commonState := addr_commonState |};
     _commonState :=
       {| sessionCompletedCallback := Some 7;
          lineColor := OrangeRed;
          toolbarBoundingBox :=
            {| rect := {| RECT.left := 10; RECT.top := 20;
                          RECT.right := 300; RECT.bottom := 60 |} |};
          overlayBoxText := {| guarded := {| buffer := [52; 50] ++ repeat 0 30 |} |};
          cursorPosSystemSpace := {| POINT.x := 640; POINT.y := -12 |};
          closeOnOtherMonitors := false |};
     _settings := sample_settings |}.

(** ** The cursor poll thread

    [Core::MouseCaptureThread], as the thread itself runs it. *)

(** [std::bit_cast<LONG64>(cursorPos)]: a [POINT] is two [LONG]s, [x] at
    offset 0 and [y] at offset 4, and Windows is little endian, so [x] is
    the low and [y] the high half of the 64 bit value. *)
Definition bit_cast_LONG64 (p : POINT.t) : Z :=
  let u := POINT.x p mod 2 ^ 32 + 2 ^ 32 * (POINT.y p mod 2 ^ 32) in
  if u <? 2 ^ 63 then u else u - 2 ^ 64.

(** What the 8 bytes of a [LONG64] are when read back as a [POINT]: the
    effect of storing through [reinterpret_cast<LONG64*>(&point)]. *)
Definition POINT_of_LONG64 (v : Z) : POINT.t :=
  {| POINT.x := static_cast_long v; POINT.y := static_cast_long (v / 2 ^ 32) |}.

Definition set_cursorPosSystemSpace (v : POINT.t) (s : CommonState) : CommonState :=
  {| sessionCompletedCallback := sessionCompletedCallback s;
     lineColor := lineColor s;
     toolbarBoundingBox := toolbarBoundingBox s;
     overlayBoxText := overlayBoxText s;
     cursorPosSystemSpace := v;
     closeOnOtherMonitors := closeOnOtherMonitors s |}.

(** What one turn of the loop finds: the stop event signaled, or the event
    not signaled and the value [cursorPos] holds after [GetCursorPos]. *)
Inductive Tick : Type :=
| Signaled : Tick
| Running (cursorPos : POINT.t) : Tick.

(** The loop over the turns the thread lives through; the result is the
    common state and the 64 bit values exchanged into it, or [None] while
    the stop event has not been seen signaled. Each exchange is followed by
    one [sleep_for(consts::TARGET_FRAME_DURATION)]. *)
Fixpoint MouseCaptureThread (ticks : list Tick) (s : CommonState)
    : option (CommonState * list Z) :=
  match ticks with
  | [] => None
  | Signaled :: _ => Some (s, [])
  | Running cursorPos :: ticks' =>
      let v := bit_cast_LONG64 cursorPos in
      match MouseCaptureThread ticks' (set_cursorPosSystemSpace (POINT_of_LONG64 v) s) with
      | Some (s', l) => Some (s', v :: l)
      | None => None
      end
  end.

Definition is_POINT (p : POINT.t) : Prop := is_long (POINT.x p) /\ is_long (POINT.y p).
Definition is_LONG64 (v : Z) : Prop := - 2 ^ 63 <= v < 2 ^ 63.

(** *** The calls of the poll thread

    The same loop, keeping every call a turn makes.  The period
    [consts::TARGET_FRAME_DURATION] is a constant of constants.h, which is
    not among the sources; the loop takes it as a parameter. *)

(** Sizes in bytes on Windows: a [LONG] has 4 and a [LONG64] has 8; a
    [POINT] is two [LONG] members, each on its 4 byte boundary, with nothing
    between or after them. *)
Definition sizeof_LONG : Z := 4.
Definition sizeof_LONG64 : Z := 8.
Definition sizeof_POINT : Z := sizeof_LONG + sizeof_LONG.

(** [static_assert(sizeof(_commonState.cursorPosSystemSpace) == sizeof(LONG64))] *)
Definition static_assert_cursorPos_size : bool := sizeof_POINT =? sizeof_LONG64.

(** The calls of the loop body: [GetCursorPos(&cursorPos)] with the value
    [cursorPos] holds after it, [InterlockedExchange64] on the cursor
    position field with the value exchanged in, and [sleep_for] with its
    duration. *)
Inductive PollCall : Type :=
| GetCursorPos (cursorPos : POINT.t) : PollCall
| InterlockedExchange64 (Value : Z) : PollCall
| sleep_for (duration : Z) : PollCall.

Fixpoint MouseCaptureThread_calls (TARGET_FRAME_DURATION : Z) (ticks : list Tick)
    (s : CommonState) : option (CommonState * list PollCall) :=
  match ticks with
  | [] => None
  | Signaled :: _ => Some (s, [])
  | Running cursorPos :: ticks' =>
      let v := bit_cast_LONG64 cursorPos in
      match MouseCaptureThread_calls TARGET_FRAME_DURATION ticks'
              (set_cursorPosSystemSpace (POINT_of_LONG64 v) s) with
      | Some (s', l) =>
          Some (s', GetCursorPos cursorPos :: InterlockedExchange64 v
                      :: sleep_for TARGET_FRAME_DURATION :: l)
      | None => None
      end
  end.

(** What a call of the thread does to the 8 bytes of the cursor position
    field: the exchange stores all of them at once, the other two calls do
    not touch them. *)
Definition cursorPos_after (field : POINT.t) (call : PollCall) : POINT.t :=
  match call with
  | InterlockedExchange64 v => POINT_of_LONG64 v
  | GetCursorPos _ | sleep_for _ => field
  end.

(** The values the field holds over time: before the first call, and after
    each call.  A reader of the 8 bytes finds one of them. *)
Fixpoint cursorPos_history (field : POINT.t) (calls : list PollCall) : list POINT.t :=
  match calls with
  | [] => [field]
  | call :: calls' => field :: cursorPos_history (cursorPos_after field call) calls'
  end.

Definition exchanged (call : PollCall) : option Z :=
  match call with
  | InterlockedExchange64 v => Some v
  | _ => None
  end.

(** The calls of one turn on the sample [cursorPos]. *)
Definition poll_turn (TARGET_FRAME_DURATION : Z) (cursorPos : POINT.t) : list PollCall :=
  [ GetCursorPos cursorPos;
    InterlockedExchange64 (bit_cast_LONG64 cursorPos);
    sleep_for TARGET_FRAME_DURATION ].

(** ** The life of an orchestrator *)

(** Construction, the calls of the host, destruction; the log is that of
    the whole life. *)
Definition lifecycle (default_settings : Settings.t) (calls : list (Env * Call))
    (env : Env) : Fault + (Core * list Event) :=
  match (invoke_all calls ;; Core_dtor env) (fst (Core_ctor default_settings)) with
  | inl e => inl e
  | inr (_, c, l) => inr (c, snd (Core_ctor default_settings) ++ l)
  end.

(** What holds of the threads and surfaces between two calls. *)
Definition session_invariant (c : Core) : Prop :=
  _mouseCaptureThread c = {| joinable := true; task := MouseCapture |} /\
  _stopMouseCaptureThreadSignal c = false /\
  Forall (fun t => joinable t = true) (_screenCaptureThreads c) /\
  (_screenCaptureThreads c = [] \/
   Forall2 (fun t o => exists m, task t = ScreenCapture (overlayWindowHandle o) m)
     (_screenCaptureThreads c) (_overlayUIStates c)).

Definition is_SetToolCompletionEvent (call : Call) : bool :=
  match call with
  | Call_SetToolCompletionEvent _ => true
  | _ => false
  end.

Definition is_SetToolbarBoundingBox (call : Call) : bool :=
  match call with
  | Call_SetToolbarBoundingBox _ _ _ _ => true
  | _ => false
  end.

(** A stroke color channel lies between 0 and 1. *)
Definition in_unit_interval (f : float) : bool :=
  SFleb (S754_zero false) f && SFleb f Float32.one.

Definition is_uint8 (n : Z) : Prop := 0 <= n < 2 ^ 8.

(** * installer/PowerToysSetupCustomActions/CustomAction.cpp

    The custom actions run by the installer.  What they ask of Windows, of
    the WiX utility library and of the rest of the repository is an oracle
    of their environment; what they do to the system is a log of effects.
    The WiX macro [ExitOnFailure(hr, ...)] is [if (FAILED(hr)) goto LExit],
    and a custom action that ends in [return WcaFinalize(er)] returns
    [Finalized er]. *)
Module CustomAction.

Definition DWORD : Type := Z.
Definition HANDLE : Type := Z.

Definition S_OK : HRESULT := 0.
Definition E_ABORT : HRESULT := -2147467260.
Definition ERROR_SUCCESS : UINT := 0.
Definition ERROR_INSTALL_FAILURE : UINT := 1603.
Definition ERROR_FILE_NOT_FOUND : DWORD := 2.
Definition ERROR_ACCESS_DENIED : DWORD := 5.
Definition ERROR_INVALID_FLAGS : DWORD := 1004.
(** setupapi.h: [APPLICATION_ERROR_MASK | ERROR_SEVERITY_ERROR | 0x235] *)
Definition ERROR_IN_WOW64 : DWORD := 3758096949.
Definition SERVICE_STOP_PENDING : DWORD := 3.

Definition SUCCEEDED (hr : HRESULT) : bool := 0 <=? hr.

(** [er = SUCCEEDED(hr) ? ERROR_SUCCESS : ERROR_INSTALL_FAILURE] *)
Definition exit_code (hr : HRESULT) : UINT :=
  if SUCCEEDED hr then ERROR_SUCCESS else ERROR_INSTALL_FAILURE.

Inductive Returned : Type :=
| Plain (v : UINT) : Returned
| Finalized (er : UINT) : Returned.

Inductive MessageKind : Type := INSTALLMESSAGE_ERROR | INSTALLMESSAGE_WARNING.

(** The COM interface pointers of [CreateScheduledTaskCA] and
    [RemoveScheduledTasksCA], by the names of the variables;
    [pRegisteredTask i] is the one of the turn [i] of the loop of the
    latter, and [pRegisteredTask 0] the one of the former. *)
Inductive ComObject : Type :=
| pService : ComObject
| pTaskFolder : ComObject
| pTaskCollection : ComObject
| pRootFolder : ComObject
| pRegisteredTask (i : Z) : ComObject
| pTask : ComObject
| pRegInfo : ComObject
| pSettings : ComObject
| pTriggerCollection : ComObject
| pTrigger : ComObject
| pLogonTrigger : ComObject
| pActionCollection : ComObject
| pAction : ComObject
| pExecAction : ComObject
| pPrincipal : ComObject.

Inductive Effect : Type :=
| SCManager_opened (h : HANDLE) : Effect
| Service_opened (h : HANDLE) : Effect
| CloseServiceHandle (h : HANDLE) : Effect
| ControlService_stop (h : HANDLE) : Effect
| DeleteService (h : HANDLE) : Effect
| Sleep (ms : Z) : Effect
| Process_opened (procID : DWORD) (h : HANDLE) : Effect
| CloseHandle (h : HANDLE) : Effect
| WM_CLOSE_sent (hwnd : HWND) : Effect
| TerminateProcess (h : HANDLE) : Effect
| MsiProcessMessage (kind : MessageKind) (text : string) : Effect
| DiInstallDriverW : Effect
| DiUninstallDriverW : Effect
| com_acquired (o : ComObject) : Effect
| com_released (o : ComObject) : Effect
| BSTR_allocated (i : Z) : Effect
| SysFreeString (i : Z) : Effect
| DeleteTask (i : Z) (taskName : string) : Effect
| DeleteFolder : Effect
| RegisterTaskDefinition (taskName : string) (userId : string) : Effect
| changeSet_apply (i : Z) : Effect
| Logger_info (text : string) : Effect
| Logger_error (text : string) : Effect.

(** *** RemoveWindowsServiceByName, UninstallServicesCA *)

Record ServiceEnv : Type :=
  { (** [WcaInitialize(hInstall, ...)] *)
    sv_WcaInitialize : HRESULT;
    (** [OpenSCManager], [OpenService]: the handle, or null *)
    sv_OpenSCManager : option HANDLE;
    sv_OpenService : HANDLE -> string -> option HANDLE;
    (** [ControlService(hService, SERVICE_CONTROL_STOP, &ss)] *)
    sv_ControlService : HANDLE -> bool;
    (** the successive results of [QueryServiceStatus]: the call failed, or
        the [dwCurrentState] it reported *)
    sv_QueryServiceStatus : list (option DWORD);
    (** [DeleteService(hService)] *)
    sv_DeleteService : HANDLE -> bool }.

(** [while (QueryServiceStatus(hService, &ss)) { if (pending) Sleep(1000); else break; }];
    [None] while the service has only been seen pending. *)
Fixpoint wait_while_stop_pending (statuses : list (option DWORD)) : option (list Effect) :=
  match statuses with
  | [] => None
  | None :: _ => Some []
  | Some dwCurrentState :: statuses' =>
      if dwCurrentState =? SERVICE_STOP_PENDING
      then match wait_while_stop_pending statuses' with
           | Some l => Some (Sleep 1000 :: l)
           | None => None
           end
      else Some []
  end.

Definition RemoveWindowsServiceByName (env : ServiceEnv) (serviceName : string)
    : option (UINT * list Effect) :=
  match sv_OpenSCManager env with
  | None => Some (ERROR_INSTALL_FAILURE, [])
  | Some hSCManager =>
      match sv_OpenService env hSCManager serviceName with
      | None =>
          Some (ERROR_INSTALL_FAILURE,
                [SCManager_opened hSCManager; CloseServiceHandle hSCManager])
      | Some hService =>
          match (if sv_ControlService env hService
                 then match wait_while_stop_pending (sv_QueryServiceStatus env) with
                      | Some l => Some (Sleep 1000 :: l)
                      | None => None
                      end
                 else Some []) with
          | None => None
          | Some waited =>
              let deleteResult := sv_DeleteService env hService in
              Some (if deleteResult then ERROR_SUCCESS else ERROR_INSTALL_FAILURE,
                    [SCManager_opened hSCManager; Service_opened hService;
                     ControlService_stop hService]
                    ++ waited
                    ++ [DeleteService hService; CloseServiceHandle hService;
                        CloseServiceHandle hSCManager])
          end
      end
  end.

(** [hr = RemoveWindowsServiceByName(...)] converts the [UINT] to the
    [HRESULT], a [long]. *)
Definition UninstallServicesCA (env : ServiceEnv) : option (Returned * list Effect) :=
  let hr := sv_WcaInitialize env in
  if negb (SUCCEEDED hr) then Some (Finalized (exit_code hr), [])
  else
    match RemoveWindowsServiceByName env "PowerToys.MWB.Service" with
    | None => None
    | Some (res, l) =>
        let hr := static_cast_long res in
        Some (Finalized (exit_code hr), l)
    end.

(** *** TerminateProcessesCA *)

Record ProcessEnv : Type :=
  { pr_WcaInitialize : HRESULT;
    (** [EnumProcesses]: failure, or the identifiers left in [processes]
        after [processes.resize(bytes / sizeof(processes[0]))] *)
    pr_EnumProcesses : option (list DWORD);
    (** [OpenProcess(..., procID)]: the handle, or null *)
    pr_OpenProcess : DWORD -> option HANDLE;
    pr_EnumProcessModules : HANDLE -> bool;
    (** [GetModuleBaseNameW(hProcess, hMod, processName, ...)]: from the
        contents of [processName] before the call, its contents after *)
    pr_GetModuleBaseNameW : HANDLE -> string -> string;
    (** the top level windows [EnumWindows] visits, each with the process
        identifier [GetWindowThreadProcessId] leaves in [windowProcID] *)
    pr_windows : list (HWND * DWORD) }.

Definition processesToTerminate : list string :=
  [ "PowerToys.PowerLauncher.exe";
    "PowerToys.Settings.exe";
    "PowerToys.Awake.exe";
    "PowerToys.FancyZones.exe";
    "PowerToys.FancyZonesEditor.exe";
    "PowerToys.FileLocksmithUI.exe";
    "PowerToys.MouseJumpUI.exe";
    "PowerToys.ColorPickerUI.exe";
    "PowerToys.AlwaysOnTop.exe";
    "PowerToys.RegistryPreview.exe";
    "PowerToys.Hosts.exe";
    "PowerToys.PowerRename.exe";
    "PowerToys.ImageResizer.exe";
    "PowerToys.GcodeThumbnailProvider.exe";
    "PowerToys.PdfThumbnailProvider.exe";
    "PowerToys.MonacoPreviewHandler.exe";
    "PowerToys.MarkdownPreviewHandler.exe";
    "PowerToys.StlThumbnailProvider.exe";
    "PowerToys.SvgThumbnailProvider.exe";
    "PowerToys.GcodePreviewHandler.exe";
    "PowerToys.PdfPreviewHandler.exe";
    "PowerToys.SvgPreviewHandler.exe";
    "PowerToys.Peek.UI.exe";
    "PowerToys.MouseWithoutBorders.exe";
    "PowerToys.MouseWithoutBordersHelper.exe";
    "PowerToys.MouseWithoutBordersService.exe";
    "PowerToys.exe" ].

(** [EnumWindows(windowEnumerator, &procID)]: the callback sends [WM_CLOSE]
    to the windows of the process and always returns [TRUE]. *)
Fixpoint EnumWindows_close (windows : list (HWND * DWORD)) (targetProcID : DWORD)
    : list Effect :=
  match windows with
  | [] => []
  | (hwnd, windowProcID) :: windows' =>
      if windowProcID =? targetProcID
      then WM_CLOSE_sent hwnd :: EnumWindows_close windows' targetProcID
      else EnumWindows_close windows' targetProcID
  end.

(** [for (const auto processToTerminate : processesToTerminate)], left by
    [break] at the first name that is equal. *)
Fixpoint terminate_if_listed (env : ProcessEnv) (procID : DWORD) (hProcess : HANDLE)
    (processName : string) (names : list string) : list Effect :=
  match names with
  | [] => []
  | processToTerminate :: names' =>
      if String.eqb processName processToTerminate
      then EnumWindows_close (pr_windows env) procID
           ++ [Sleep 500; TerminateProcess hProcess]
      else terminate_if_listed env procID hProcess processName names'
  end.

(** The body of [for (const auto procID : processes)]. *)
Definition visit_process (env : ProcessEnv) (procID : DWORD) : list Effect :=
  if procID =? 0 then []
  else
    match pr_OpenProcess env procID with
    | None => []
    | Some hProcess =>
        Process_opened procID hProcess ::
        (if negb (pr_EnumProcessModules env hProcess)
         then [CloseHandle hProcess]
         else
           let processName := pr_GetModuleBaseNameW env hProcess "<unknown>" in
           terminate_if_listed env procID hProcess processName processesToTerminate
           ++ [CloseHandle hProcess])
    end.

Definition TerminateProcessesCA (env : ProcessEnv) : Returned * list Effect :=
  let hr := pr_WcaInitialize env in
  match pr_EnumProcesses env with
  | None => (Plain 1, [])
  | Some processes =>
      (Finalized (exit_code hr), flat_map (visit_process env) processes)
  end.

(** The handle of the process [TerminateProcessesCA] is to terminate for an
    identifier, said with membership in place of the loop. *)
Definition to_terminate (env : ProcessEnv) (procID : DWORD) : option HANDLE :=
  if procID =? 0 then None
  else
    match pr_OpenProcess env procID with
    | None => None
    | Some hProcess =>
        if pr_EnumProcessModules env hProcess
           && bool_decide (pr_GetModuleBaseNameW env hProcess "<unknown>"
                           ∈ processesToTerminate)
        then Some hProcess
        else None
    end.

(** *** InstallVirtualCameraDriverCA, UninstallVirtualCameraDriverCA *)

Record DriverEnv : Type :=
  { dr_WcaInitialize : HRESULT;
    (** [WcaGetProperty(L"CustomActionData", &driverPath)] *)
    dr_WcaGetProperty : HRESULT;
    (** [GetLastError()] after the call of the driver installer *)
    dr_GetLastError : DWORD }.

Definition InstallVirtualCameraDriverCA (env : DriverEnv) : Returned * list Effect :=
  let finish (hr : HRESULT) (l : list Effect) :=
    (Finalized (exit_code hr),
     l ++ (if negb (SUCCEEDED hr)
           then [MsiProcessMessage INSTALLMESSAGE_WARNING
                   "Failed to install virtual camera driver"]
           else [])) in
  let hr := dr_WcaInitialize env in
  if negb (SUCCEEDED hr) then finish hr []
  else
    let hr := dr_WcaGetProperty env in
    if negb (SUCCEEDED hr) then finish hr []
    else
      let hr := static_cast_long (dr_GetLastError env) in
      finish hr [DiInstallDriverW].

Definition UninstallVirtualCameraDriverCA (env : DriverEnv) : Returned * list Effect :=
  let finish (hr : HRESULT) (l : list Effect) :=
    (Finalized (exit_code hr),
     l ++ (if negb (SUCCEEDED hr)
           then [MsiProcessMessage INSTALLMESSAGE_WARNING
                   "Failed to uninstall virtual camera driver"]
           else [])) in
  let hr := dr_WcaInitialize env in
  if negb (SUCCEEDED hr) then finish hr []
  else
    let hr := dr_WcaGetProperty env in
    if negb (SUCCEEDED hr) then finish hr []
    else
      let e := dr_GetLastError env in
      if (e =? ERROR_ACCESS_DENIED) || (e =? ERROR_FILE_NOT_FOUND)
         || (e =? ERROR_INVALID_FLAGS) || (e =? ERROR_IN_WOW64)
      then finish (static_cast_long (dr_GetLastError env)) [DiUninstallDriverW]
      else finish hr [DiUninstallDriverW].

(** *** CheckGPOCA *)

Record GpoEnv : Type :=
  { gp_WcaInitialize : HRESULT;
    (** [WcaGetProperty(L"InstallScope", &currentScope)]: the result and
        what [currentScope] points at afterwards, if not null *)
    gp_WcaGetProperty : HRESULT * option string;
    (** [powertoys_gpo::getDisablePerUserInstallationValue()] and the value
        [powertoys_gpo::gpo_rule_configured_enabled] of common/utils/gpo.h *)
    gp_getDisablePerUserInstallationValue : Z;
    gp_rule_configured_enabled : Z }.

(** [None]: [std::wstring{ currentScope }] of a null pointer, which is
    undefined. *)
Definition CheckGPOCA (env : GpoEnv) : option (Returned * list Effect) :=
  let hr := gp_WcaInitialize env in
  if negb (SUCCEEDED hr) then Some (Finalized (exit_code hr), [])
  else
    let '(hr, currentScope) := gp_WcaGetProperty env in
    match currentScope with
    | None => None
    | Some scope =>
        if String.eqb scope "perUser"
           && (gp_getDisablePerUserInstallationValue env =? gp_rule_configured_enabled env)
        then Some (Finalized (exit_code E_ABORT),
                   [MsiProcessMessage INSTALLMESSAGE_ERROR
                      "The system administrator has disabled per-user installation."])
        else Some (Finalized (exit_code hr), [])
    end.

(** *** RemoveScheduledTasksCA

    A COM call that succeeds hands out an interface pointer and one that
    fails leaves the pointer null. *)

Record TaskEnv : Type :=
  { ts_WcaInitialize : HRESULT;
    ts_CoCreateInstance : HRESULT;
    ts_Connect : HRESULT;
    (** [pService->GetFolder(L"\\PowerToys", &pTaskFolder)] *)
    ts_GetFolder_PowerToys : HRESULT;
    ts_GetTasks : HRESULT;
    (** [get_Count(&numTasks)]: the result and [numTasks] afterwards *)
    ts_get_Count : HRESULT * Z;
    (** [get_Item(_variant_t(i + 1), &pRegisteredTask)], by [i + 1] *)
    ts_get_Item : Z -> HRESULT;
    (** [get_Name(&taskName)] and [DeleteTask(taskName, 0)], by [i] *)
    ts_get_Name : Z -> HRESULT * string;
    ts_DeleteTask : Z -> string -> HRESULT;
    (** [pService->GetFolder(L"\\", &pRootFolder)] *)
    ts_GetFolder_root : HRESULT;
    ts_DeleteFolder : HRESULT }.

(** [for (LONG i = 0; i < numTasks; i++)], over the values of [i]. *)
Fixpoint delete_tasks (env : TaskEnv) (indices : list Z) (hr : HRESULT)
    : HRESULT * list Effect :=
  match indices with
  | [] => (hr, [])
  | i :: indices' =>
      let hr := ts_get_Item env (i + 1) in
      let '(hr, l) :=
        if SUCCEEDED hr
        then
          let '(hr, taskName) := ts_get_Name env i in
          if SUCCEEDED hr
          then
            let hr := ts_DeleteTask env i taskName in
            (hr,
             [com_acquired (pRegisteredTask i); BSTR_allocated i; DeleteTask i taskName]
             ++ (if negb (SUCCEEDED hr) then [Logger_error "Cannot delete the task"] else [])
             ++ [SysFreeString i; com_released (pRegisteredTask i)])
          else
            (hr,
             [com_acquired (pRegisteredTask i);
              Logger_error "Cannot get the registered task name";
              com_released (pRegisteredTask i)])
        else (hr, [Logger_error "Cannot get the registered task item"]) in
      let '(hr', l') := delete_tasks env indices' hr in
      (hr', l ++ l')
  end.

Definition RemoveScheduledTasksCA (env : TaskEnv) : Returned * list Effect :=
  let finish (hr : HRESULT) (held : list ComObject) (l : list Effect) :=
    (Finalized (exit_code hr),
     l ++ map com_released held
       ++ (if negb (SUCCEEDED hr)
           then [MsiProcessMessage INSTALLMESSAGE_WARNING
                   "Failed to remove the PowerToys folder from the scheduled task. These can be removed manually later."]
           else [])) in
  let hr := ts_WcaInitialize env in
  if negb (SUCCEEDED hr) then finish hr [] []
  else
    let l := [Logger_info "RemoveScheduledTasksCA Initialized."] in
    let hr := ts_CoCreateInstance env in
    if negb (SUCCEEDED hr) then finish hr [] l
    else
      let l := l ++ [com_acquired pService] in
      let hr := ts_Connect env in
      if negb (SUCCEEDED hr) then finish hr [pService] l
      else
        let hr := ts_GetFolder_PowerToys env in
        if negb (SUCCEEDED hr)
        then finish S_OK [pService]
               (l ++ [Logger_info
                        "The PowerToys scheduled task folder wasn't found. Nothing to delete."])
        else
          let l := l ++ [com_acquired pTaskFolder] in
          let hr := ts_GetTasks env in
          if negb (SUCCEEDED hr) then finish hr [pService; pTaskFolder] l
          else
            let l := l ++ [com_acquired pTaskCollection] in
            let '(hr, numTasks) := ts_get_Count env in
            let '(hr, deleted) := delete_tasks env (seqZ 0 numTasks) hr in
            let l := l ++ deleted in
            let hr := ts_GetFolder_root env in
            if negb (SUCCEEDED hr)
            then finish hr [pService; pTaskFolder; pTaskCollection] l
            else
              let l := l ++ [com_acquired pRootFolder] in
              let hr := ts_DeleteFolder env in
              let l := l ++ [DeleteFolder; com_released pRootFolder] in
              if negb (SUCCEEDED hr)
              then finish hr [pService; pTaskFolder; pTaskCollection] l
              else finish hr [pService; pTaskFolder; pTaskCollection]
                     (l ++ [Logger_info "Deleted the PowerToys Task Scheduler folder."]).

(** *** Reading the log *)

Definition service_handle_opened (e : Effect) : option HANDLE :=
  match e with
  | SCManager_opened h | Service_opened h => Some h
  | _ => None
  end.
Definition service_handle_closed (e : Effect) : option HANDLE :=
  match e with CloseServiceHandle h => Some h | _ => None end.
Definition service_deleted (e : Effect) : option HANDLE :=
  match e with DeleteService h => Some h | _ => None end.
Definition process_opened (e : Effect) : option HANDLE :=
  match e with Process_opened _ h => Some h | _ => None end.
Definition process_closed (e : Effect) : option HANDLE :=
  match e with CloseHandle h => Some h | _ => None end.
Definition process_terminated (e : Effect) : option HANDLE :=
  match e with TerminateProcess h => Some h | _ => None end.
Definition window_closed (e : Effect) : option HWND :=
  match e with WM_CLOSE_sent w => Some w | _ => None end.
Definition message_shown (e : Effect) : option (MessageKind * string) :=
  match e with MsiProcessMessage k t => Some (k, t) | _ => None end.
Definition acquired (e : Effect) : option ComObject :=
  match e with com_acquired o => Some o | _ => None end.
Definition released (e : Effect) : option ComObject :=
  match e with com_released o => Some o | _ => None end.
Definition allocated (e : Effect) : option Z :=
  match e with BSTR_allocated i => Some i | _ => None end.
Definition freed (e : Effect) : option Z :=
  match e with SysFreeString i => Some i | _ => None end.
Definition task_deleted (e : Effect) : option Z :=
  match e with DeleteTask i _ => Some i | _ => None end.
Definition folder_deleted (e : Effect) : option unit :=
  match e with DeleteFolder => Some tt | _ => None end.

(** The polling of the service ends: some status is a failed query or a
    state other than stop pending. *)
Definition stop_settles (statuses : list (option DWORD)) : bool :=
  existsb (fun s => match s with
                    | Some dwCurrentState => negb (dwCurrentState =? SERVICE_STOP_PENDING)
                    | None => true
                    end) statuses.

(** The windows of a process. *)
Definition windows_of (env : ProcessEnv) (procID : DWORD) : list HWND :=
  map fst (filter (fun w => snd w = procID) (pr_windows env)).

(** *** Sample environments *)

(** The service is found, is told to stop, is seen pending twice and then
    stopped, and cannot be deleted. *)
Definition sample_service_env : ServiceEnv :=
  {| sv_WcaInitialize := S_OK;
     sv_OpenSCManager := Some 11;
     sv_OpenService := fun _ _ => Some 12;
     sv_ControlService := fun _ => true;
     sv_QueryServiceStatus := [Some 3; Some 3; Some 1];
     sv_DeleteService := fun _ => false |}.

(** Process 0 is the idle process, 8 cannot be opened, 12 is the runner
    with two windows, 16 is a foreign program, 20 has no readable module. *)
Definition sample_process_env : ProcessEnv :=
  {| pr_WcaInitialize := S_OK;
     pr_EnumProcesses := Some [0; 8; 12; 16; 20];
     pr_OpenProcess := fun procID => if procID =? 8 then None else Some (1000 + procID);
     pr_EnumProcessModules := fun h => negb (h =? 1020);
     pr_GetModuleBaseNameW := fun h _ =>
       if h =? 1012 then "PowerToys.exe" else "notepad.exe";
     pr_windows := [(501, 12); (502, 16); (503, 12)] |}.

Definition sample_driver_env : DriverEnv :=
  {| dr_WcaInitialize := S_OK;
     dr_WcaGetProperty := S_OK;
     dr_GetLastError := ERROR_ACCESS_DENIED |}.

Definition sample_gpo_env : GpoEnv :=
  {| gp_WcaInitialize := S_OK;
     gp_WcaGetProperty := (S_OK, Some "perUser");
     gp_getDisablePerUserInstallationValue := 1;
     gp_rule_configured_enabled := 1 |}.

(** Three tasks: the second has no readable name, the third cannot be
    deleted; the folder is then deleted all the same. *)
Definition sample_task_env : TaskEnv :=
  {| ts_WcaInitialize := S_OK;
     ts_CoCreateInstance := S_OK;
     ts_Connect := S_OK;
     ts_GetFolder_PowerToys := S_OK;
     ts_GetTasks := S_OK;
     ts_get_Count := (S_OK, 3);
     ts_get_Item := fun _ => S_OK;
     ts_get_Name := fun i => if i =? 1 then (E_ABORT, "") else (S_OK, "Autorun for user");
     ts_DeleteTask := fun i _ => if i =? 2 then E_ABORT else S_OK;
     ts_GetFolder_root := S_OK;
     ts_DeleteFolder := S_OK |}.

(** *** CreateScheduledTaskCA

    As for [RemoveScheduledTasksCA], a COM call hands out its interface
    pointer exactly when it succeeds. *)

Definition E_FAIL_hr : HRESULT := -2147467259.

(** winerror.h: [HRESULT_FROM_WIN32(x)] *)
Definition HRESULT_FROM_WIN32 (x : DWORD) : HRESULT :=
  if static_cast_long x <=? 0 then static_cast_long x
  else static_cast_long (Z.lor (Z.lor (Z.land x 65535) (Z.shiftl 7 16)) 2147483648).

(** The [HRESULT] the WiX macro [ExitWithLastError] leaves to [LExit]: that
    of the last error, or [E_FAIL] when that would not be a failure. *)
Definition ExitWithLastError (lastError : DWORD) : HRESULT :=
  let hr := HRESULT_FROM_WIN32 lastError in
  if SUCCEEDED hr then E_FAIL_hr else hr.

Definition USERNAME_DOMAIN_LEN : Z := 15 + 256 + 2.

Record CreateTaskEnv : Type :=
  { ct_WcaInitialize : HRESULT;
    (** [GetEnvironmentVariable]: what it returns and the string it leaves
        in the buffer *)
    ct_GetEnvironmentVariable_USERNAME : DWORD * string;
    ct_GetEnvironmentVariable_USERDOMAIN : DWORD * string;
    ct_GetLastError : DWORD;
    (** [WcaGetProperty(L"CustomActionData", &wszExecutablePath)] *)
    ct_WcaGetProperty : HRESULT;
    ct_CoCreateInstance : HRESULT;
    ct_Connect : HRESULT;
    ct_GetFolder_PowerToys : HRESULT;
    ct_GetFolder_root : HRESULT;
    ct_CreateFolder : HRESULT;
    ct_NewTask : HRESULT;
    ct_get_RegistrationInfo : HRESULT;
    ct_put_Author : HRESULT;
    ct_get_Settings : HRESULT;
    ct_put_StartWhenAvailable : HRESULT;
    ct_put_StopIfGoingOnBatteries : HRESULT;
    ct_put_ExecutionTimeLimit : HRESULT;
    ct_put_DisallowStartIfOnBatteries : HRESULT;
    ct_put_Priority : HRESULT;
    ct_get_Triggers : HRESULT;
    ct_Triggers_Create : HRESULT;
    ct_QueryInterface_ILogonTrigger : HRESULT;
    ct_trigger_put_Id : HRESULT;
    ct_trigger_put_Delay : HRESULT;
    ct_trigger_put_UserId : HRESULT;
    ct_get_Actions : HRESULT;
    ct_Actions_Create : HRESULT;
    ct_QueryInterface_IExecAction : HRESULT;
    ct_put_Path : HRESULT;
    ct_get_Principal : HRESULT;
    ct_principal_put_Id : HRESULT;
    ct_principal_put_UserId : HRESULT;
    ct_put_LogonType : HRESULT;
    ct_put_RunLevel : HRESULT;
    ct_RegisterTaskDefinition : HRESULT }.

(** A call that is only logged when it fails. *)
Definition logged (hr : HRESULT) (text : string) : list Effect :=
  if negb (SUCCEEDED hr) then [Logger_error text] else [].

(** [LExit]: the pointers held are released in the order [pService],
    [pTaskFolder], [pTask], [pRegInfo], [pSettings], [pTriggerCollection],
    [pRegisteredTask], which is the order they are acquired in. *)
Definition CreateScheduledTaskCA_LExit (hr : HRESULT) (held : list ComObject)
    (l : list Effect) : Returned * list Effect :=
  (Finalized (exit_code hr),
   l ++ map com_released held
     ++ (if negb (SUCCEEDED hr)
         then [MsiProcessMessage INSTALLMESSAGE_WARNING
                 "Failed to create a scheduled task to start PowerToys at user login. You can re-try to create the scheduled task using the PowerToys settings."]
         else [])).

(** From [pTaskFolder->DeleteTask] to the end; the folder is held, and
    [l] is the log so far. *)
Definition CreateScheduledTaskCA_task (env : CreateTaskEnv)
    (wstrTaskName username_domain : string) (l : list Effect)
    : Returned * list Effect :=
  let LExit := CreateScheduledTaskCA_LExit in
  let held := [pService; pTaskFolder] in
  let l := l ++ [DeleteTask 0 wstrTaskName] in
  let hr := ct_NewTask env in
  if negb (SUCCEEDED hr) then LExit hr held l else
  let held := held ++ [pTask] in
  let l := l ++ [com_acquired pTask] in
  let hr := ct_get_RegistrationInfo env in
  if negb (SUCCEEDED hr) then LExit hr held l else
  let held := held ++ [pRegInfo] in
  let l := l ++ [com_acquired pRegInfo] in
  let hr := ct_put_Author env in
  if negb (SUCCEEDED hr) then LExit hr held l else
  let hr := ct_get_Settings env in
  if negb (SUCCEEDED hr) then LExit hr held l else
  let held := held ++ [pSettings] in
  let l := l ++ [com_acquired pSettings] in
  let hr := ct_put_StartWhenAvailable env in
  if negb (SUCCEEDED hr) then LExit hr held l else
  let hr := ct_put_StopIfGoingOnBatteries env in
  if negb (SUCCEEDED hr) then LExit hr held l else
  let hr := ct_put_ExecutionTimeLimit env in
  if negb (SUCCEEDED hr) then LExit hr held l else
  let hr := ct_put_DisallowStartIfOnBatteries env in
  if negb (SUCCEEDED hr) then LExit hr held l else
  let hr := ct_put_Priority env in
  if negb (SUCCEEDED hr) then LExit hr held l else
  let hr := ct_get_Triggers env in
  if negb (SUCCEEDED hr) then LExit hr held l else
  let held := held ++ [pTriggerCollection] in
  let l := l ++ [com_acquired pTriggerCollection] in
  let hr := ct_Triggers_Create env in
  if negb (SUCCEEDED hr) then LExit hr held l else
  let l := l ++ [com_acquired pTrigger] in
  let hr := ct_QueryInterface_ILogonTrigger env in
  let l := l ++ (if SUCCEEDED hr then [com_acquired pLogonTrigger] else [])
             ++ [com_released pTrigger] in
  if negb (SUCCEEDED hr) then LExit hr held l else
  let hr := ct_trigger_put_Id env in
  let l := l ++ logged hr "Cannot put the trigger ID" in
  let hr := ct_trigger_put_Delay env in
  let l := l ++ logged hr "Cannot put the trigger delay" in
  let hr := ct_trigger_put_UserId env in
  let l := l ++ [com_released pLogonTrigger] in
  if negb (SUCCEEDED hr) then LExit hr held l else
  let hr := ct_get_Actions env in
  if negb (SUCCEEDED hr) then LExit hr held l else
  let l := l ++ [com_acquired pActionCollection] in
  let hr := ct_Actions_Create env in
  let l := l ++ (if SUCCEEDED hr then [com_acquired pAction] else [])
             ++ [com_released pActionCollection] in
  if negb (SUCCEEDED hr) then LExit hr held l else
  let hr := ct_QueryInterface_IExecAction env in
  let l := l ++ (if SUCCEEDED hr then [com_acquired pExecAction] else [])
             ++ [com_released pAction] in
  if negb (SUCCEEDED hr) then LExit hr held l else
  let hr := ct_put_Path env in
  let l := l ++ [com_released pExecAction] in
  if negb (SUCCEEDED hr) then LExit hr held l else
  let hr := ct_get_Principal env in
  if negb (SUCCEEDED hr) then LExit hr held l else
  let l := l ++ [com_acquired pPrincipal] in
  let hr := ct_principal_put_Id env in
  let l := l ++ logged hr "Cannot put the principal ID" in
  let hr := ct_principal_put_UserId env in
  let l := l ++ logged hr "Cannot put principal user Id" in
  let hr := ct_put_LogonType env in
  let l := l ++ logged hr "Cannot put principal logon type" in
  let hr := ct_put_RunLevel env in
  let l := l ++ [com_released pPrincipal] in
  if negb (SUCCEEDED hr) then LExit hr held l else
  let hr := ct_RegisterTaskDefinition env in
  let l := l ++ [RegisterTaskDefinition wstrTaskName username_domain] in
  if negb (SUCCEEDED hr) then LExit hr held l else
  let held := held ++ [pRegisteredTask 0] in
  let l := l ++ [com_acquired (pRegisteredTask 0);
                 Logger_info "Scheduled task created for the current user."] in
  LExit hr held l.

(** [None]: [wcscat_s] finds the destination too small and invokes the
    invalid parameter handler. *)
Definition CreateScheduledTaskCA (env : CreateTaskEnv) : option (Returned * list Effect) :=
  let LExit := CreateScheduledTaskCA_LExit in
  let hr := ct_WcaInitialize env in
  if negb (SUCCEEDED hr) then Some (LExit hr [] []) else
  let l := [Logger_info "CreateScheduledTaskCA Initialized."] in
  let '(got, username) := ct_GetEnvironmentVariable_USERNAME env in
  if got =? 0 then Some (LExit (ExitWithLastError (ct_GetLastError env)) [] l) else
  let '(got, username_domain) := ct_GetEnvironmentVariable_USERDOMAIN env in
  if got =? 0 then Some (LExit (ExitWithLastError (ct_GetLastError env)) [] l) else
  if USERNAME_DOMAIN_LEN <? Z.of_nat (String.length username_domain) + 1 + 1 then None else
  let username_domain := String.append username_domain "\" in
  if USERNAME_DOMAIN_LEN
     <? Z.of_nat (String.length username_domain) + Z.of_nat (String.length username) + 1
  then None else
  let username_domain := String.append username_domain username in
  let l := l ++ [Logger_info "Current user detected"] in
  let wstrTaskName := String.append "Autorun for " username in
  let hr := ct_WcaGetProperty env in
  if negb (SUCCEEDED hr) then Some (LExit hr [] l) else
  let hr := ct_CoCreateInstance env in
  if negb (SUCCEEDED hr) then Some (LExit hr [] l) else
  let l := l ++ [com_acquired pService] in
  let hr := ct_Connect env in
  if negb (SUCCEEDED hr) then Some (LExit hr [pService] l) else
  let hr := ct_GetFolder_PowerToys env in
  if SUCCEEDED hr
  then Some (CreateScheduledTaskCA_task env wstrTaskName username_domain
               (l ++ [com_acquired pTaskFolder]))
  else
    let hr := ct_GetFolder_root env in
    if negb (SUCCEEDED hr) then Some (LExit hr [pService] l) else
    let l := l ++ [com_acquired pRootFolder] in
    let hr := ct_CreateFolder env in
    if negb (SUCCEEDED hr)
    then Some (LExit hr [pService] (l ++ [com_released pRootFolder]))
    else Some (CreateScheduledTaskCA_task env wstrTaskName username_domain
                 (l ++ [com_acquired pTaskFolder;
                        Logger_info "PowerToys task folder created."])).

(** The PowerToys task folder is missing and gets created. *)
Definition folder_created (env : CreateTaskEnv) : bool :=
  negb (SUCCEEDED (ct_GetFolder_PowerToys env))
  && SUCCEEDED (ct_GetFolder_root env) && SUCCEEDED (ct_CreateFolder env).

(** The steps whose failure leads to [LExit], up to the task folder and
    from there on. *)
Definition reaches_folder (env : CreateTaskEnv) : bool :=
  SUCCEEDED (ct_WcaInitialize env)
  && negb (fst (ct_GetEnvironmentVariable_USERNAME env) =? 0)
  && negb (fst (ct_GetEnvironmentVariable_USERDOMAIN env) =? 0)
  && SUCCEEDED (ct_WcaGetProperty env)
  && SUCCEEDED (ct_CoCreateInstance env)
  && SUCCEEDED (ct_Connect env)
  && (SUCCEEDED (ct_GetFolder_PowerToys env) || folder_created env).

Definition task_steps (env : CreateTaskEnv) : list HRESULT :=
  [ ct_NewTask env; ct_get_RegistrationInfo env; ct_put_Author env; ct_get_Settings env;
    ct_put_StartWhenAvailable env; ct_put_StopIfGoingOnBatteries env;
    ct_put_ExecutionTimeLimit env; ct_put_DisallowStartIfOnBatteries env;
    ct_put_Priority env; ct_get_Triggers env; ct_Triggers_Create env;
    ct_QueryInterface_ILogonTrigger env; ct_trigger_put_UserId env; ct_get_Actions env;
    ct_Actions_Create env; ct_QueryInterface_IExecAction env; ct_put_Path env;
    ct_get_Principal env; ct_put_RunLevel env; ct_RegisterTaskDefinition env ].

(** The user names fit the buffer of [USERNAME_DOMAIN_LEN] characters. *)
Definition names_fit (env : CreateTaskEnv) : bool :=
  Z.of_nat (String.length (snd (ct_GetEnvironmentVariable_USERDOMAIN env))) + 1
  + Z.of_nat (String.length (snd (ct_GetEnvironmentVariable_USERNAME env))) + 1
  <=? USERNAME_DOMAIN_LEN.

(** The folder is missing and is created; the trigger identifier cannot
    be set; everything else succeeds. *)
Definition sample_create_env : CreateTaskEnv :=
  {| ct_WcaInitialize := S_OK;
     ct_GetEnvironmentVariable_USERNAME := (4, "anna");
     ct_GetEnvironmentVariable_USERDOMAIN := (7, "DESKTOP");
     ct_GetLastError := 0;
     ct_WcaGetProperty := S_OK;
     ct_CoCreateInstance := S_OK;
     ct_Connect := S_OK;
     ct_GetFolder_PowerToys := E_ABORT;
     ct_GetFolder_root := S_OK;
     ct_CreateFolder := S_OK;
     ct_NewTask := S_OK;
     ct_get_RegistrationInfo := S_OK;
     ct_put_Author := S_OK;
     ct_get_Settings := S_OK;
     ct_put_StartWhenAvailable := S_OK;
     ct_put_StopIfGoingOnBatteries := S_OK;
     ct_put_ExecutionTimeLimit := S_OK;
     ct_put_DisallowStartIfOnBatteries := S_OK;
     ct_put_Priority := S_OK;
     ct_get_Triggers := S_OK;
     ct_Triggers_Create := S_OK;
     ct_QueryInterface_ILogonTrigger := S_OK;
     ct_trigger_put_Id := E_ABORT;
     ct_trigger_put_Delay := S_OK;
     ct_trigger_put_UserId := S_OK;
     ct_get_Actions := S_OK;
     ct_Actions_Create := S_OK;
     ct_QueryInterface_IExecAction := S_OK;
     ct_put_Path := S_OK;
     ct_get_Principal := S_OK;
     ct_principal_put_Id := S_OK;
     ct_principal_put_UserId := S_OK;
     ct_put_LogonType := S_OK;
     ct_put_RunLevel := S_OK;
     ct_RegisterTaskDefinition := S_OK |}.

(** *** getInstallFolder, ApplyModulesRegistryChangeSetsCA *)

Record MsiEnv : Type :=
  { ms_WcaInitialize : HRESULT;
    (** the first [MsiGetPropertyW], made with a buffer of one character
        and [len = 0]: the value it leaves in [len] *)
    ms_MsiGetPropertyW_len : DWORD;
    (** the second [MsiGetPropertyW]: from the size of the buffer, its
        result and the characters it stores into [installationDir.data()],
        terminator included *)
    ms_MsiGetPropertyW : DWORD -> UINT * list wchar_t;
    (** [getAllOnByDefaultModulesChangeSets(installationFolder)]: for each
        change set, in order, whether [apply()] succeeds *)
    ms_changeSets : list wchar_t -> list bool }.

(** [None]: the second call stores more characters than the string has. *)
Definition getInstallFolder (env : MsiEnv) : option (HRESULT * list wchar_t) :=
  let len := ms_MsiGetPropertyW_len env in
  let len := (len + 1) mod 2 ^ 32 in
  let '(res, stored) := ms_MsiGetPropertyW env len in
  if len <? Z.of_nat (length stored) then None
  else
    let installationDir := stored ++ repeat 0 (Z.to_nat len - length stored) in
    let hr := static_cast_long res in
    let installationDir :=
      if (length installationDir =? 0)%nat then installationDir
      else take (length installationDir - 1) installationDir in
    Some (hr, installationDir).

(** [for (const auto& changeSet : ...)], the turns counted from [i]. *)
Fixpoint apply_changeSets (changeSets : list bool) (i : Z) (failedToApply : bool)
    : bool * list Effect :=
  match changeSets with
  | [] => (failedToApply, [])
  | applied :: changeSets' =>
      let '(failed, l) :=
        apply_changeSets changeSets' (i + 1) (if applied then failedToApply else true) in
      (failed,
       changeSet_apply i
       :: (if applied then [] else [Logger_error "Couldn't apply registry changeSet"])
       ++ l)
  end.

Definition ApplyModulesRegistryChangeSetsCA (env : MsiEnv)
    : option (Returned * list Effect) :=
  let hr := ms_WcaInitialize env in
  if negb (SUCCEEDED hr) then Some (Finalized (exit_code hr), [])
  else
    match getInstallFolder env with
    | None => None
    | Some (hr, installationFolder) =>
        if negb (SUCCEEDED hr) then Some (Finalized (exit_code hr), [])
        else
          let '(failedToApply, l) :=
            apply_changeSets (ms_changeSets env installationFolder) 0 false in
          Some (Finalized (exit_code hr),
                l ++ (if negb failedToApply
                      then [Logger_info "All registry changeSets applied successfully"]
                      else []))
    end.

Definition changeSet_applied (e : Effect) : option Z :=
  match e with changeSet_apply i => Some i | _ => None end.
Definition error_logged (e : Effect) : option string :=
  match e with Logger_error text => Some text | _ => None end.

(** The property "C:\PT" of five characters, read as documented. *)
Definition sample_msi_env : MsiEnv :=
  {| ms_WcaInitialize := S_OK;
     ms_MsiGetPropertyW_len := 5;
     ms_MsiGetPropertyW := fun _ => (0, [67; 58; 92; 80; 84; 0]);
     ms_changeSets := fun _ => [true; false; true] |}.

End CustomAction.

(** ** Properties of teardown *)

Lemma bind_inr {A B : Type} (m : M A) (k : A -> M B) (c c1 : Core) (v : A) (l1 : list Event) :
  m c = inr (v, c1, l1) ->
  bind m k c = match k v c1 with
               | inl e => inl e
               | inr (w, c2, l2) => inr (w, c2, l1 ++ l2)
               end.
Proof. intros H. unfold bind. rewrite H. reflexivity. Qed.

Lemma join_loop (ts : list thread) :
  for_each_ref (fun thread => if joinable thread then join thread else inr (thread, [])) ts
  = inr (map (fun t => {| joinable := false; task := task t |}) ts,
         map (fun t => thread_joined (task t)) (filter (fun t => joinable t = true) ts)).
Proof.
  induction ts as [|[j k] ts IH]; [reflexivity|].
  cbn [for_each_ref]. rewrite IH.
  destruct j; reflexivity.
Qed.

Lemma clear_joined_threads (ts : list thread) :
  clear destroy_thread (map (fun t => {| joinable := false; task := task t |}) ts)
  = inr ([], []).
Proof.
  induction ts as [|t ts IH]; [reflexivity|].
  cbn. rewrite IH. reflexivity.
Qed.

Lemma clear_overlays (os : list OverlayUIState) :
  clear destroy_overlay os
  = inr ([], map (fun o => overlay_destroyed (overlayWindowHandle o)) os).
Proof.
  induction os as [|o os IH]; [reflexivity|].
  cbn. rewrite IH. reflexivity.
Qed.

(** [ResetState] always returns: no thread is destroyed while joinable. *)
Lemma ResetState_eq (env : Env) (c : Core) :
  ResetState env c = inr (tt, ResetState_result env c, ResetState_log c).
Proof.
  unfold ResetState, bind, modify, on_member, emit, get.
  cbn. rewrite clear_overlays. cbn.
  rewrite join_loop. cbn.
  rewrite clear_joined_threads. reflexivity.
Qed.

(** ** Properties of the monitor loops *)

(** The loop of [StartBoundsTool] appends the surfaces that could be
    created, in the order of the monitors, and touches nothing else. *)
Lemma bounds_loop (env : Env) (ms : list MonitorInfo) (c : Core) :
  for_each (fun monitorInfo =>
      let overlayUI := OverlayUIState_Create env BoundsTool monitorInfo in
      emit (overlay_create BoundsTool monitorInfo (overlayWindowHandle <$> overlayUI)) ;;
      match overlayUI with
      | None => ret tt
      | Some o => modify (with_overlayUIStates (fun l => l ++ [o]))
      end) ms c
  = inr (tt,
         with_overlayUIStates
           (fun l => l ++ omap (OverlayUIState_Create env BoundsTool) ms) c,
         map (fun m => overlay_create BoundsTool m
                         (overlayWindowHandle <$> OverlayUIState_Create env BoundsTool m)) ms).
Proof.
  revert c. induction ms as [|m ms IH]; intros c.
  - destruct c. cbn. unfold ret, with_overlayUIStates. cbn. rewrite app_nil_r. reflexivity.
  - cbn [for_each]. unfold bind at 1. unfold bind at 1. cbn [emit].
    destruct (OverlayUIState_Create env BoundsTool m) as [o|] eqn:Ho.
    + cbn [modify]. rewrite IH. simpl. rewrite Ho.
      destruct c. unfold with_overlayUIStates. simpl. rewrite <- app_assoc. reflexivity.
    + cbn [ret]. rewrite IH. simpl. rewrite Ho. reflexivity.
Qed.

(** The loop of [StartMeasureTool] appends, for every surface that could be
    created, the surface and the capture thread started on its window. *)
Lemma measure_loop (env : Env) (ms : list MonitorInfo) (c : Core) :
  for_each (fun monitorInfo =>
      let overlayUI := OverlayUIState_Create env MeasureTool monitorInfo in
      emit (overlay_create MeasureTool monitorInfo (overlayWindowHandle <$> overlayUI)) ;;
      match overlayUI with
      | None => ret tt
      | Some o =>
          t <- StartCapturingThread (overlayWindowHandle o) monitorInfo ;;
          modify (with_screenCaptureThreads (fun l => l ++ [t])) ;;
          modify (with_overlayUIStates (fun l => l ++ [o]))
      end) ms c
  = inr (tt,
         with_overlayUIStates
           (fun l => l ++ omap (OverlayUIState_Create env MeasureTool) ms)
           (with_screenCaptureThreads
              (fun l => l ++ omap (fun m => capture_thread_of m
                                     <$> OverlayUIState_Create env MeasureTool m) ms) c),
         flat_map (measure_turn_log env) ms).
Proof.
  revert c. induction ms as [|m ms IH]; intros c.
  - destruct c. cbn. unfold ret, with_overlayUIStates, with_screenCaptureThreads. cbn.
    rewrite !app_nil_r. reflexivity.
  - cbn [for_each flat_map]. unfold measure_turn_log at 1.
    unfold bind at 1. unfold bind at 1. cbn [emit].
    destruct (OverlayUIState_Create env MeasureTool m) as [o|] eqn:Ho.
    + unfold StartCapturingThread, bind, emit, ret, modify. rewrite IH. simpl. rewrite Ho.
      destruct c. unfold with_overlayUIStates, with_screenCaptureThreads. simpl.
      rewrite <- !app_assoc. reflexivity.
    + cbn [ret]. rewrite IH. simpl. rewrite Ho. reflexivity.
Qed.

Lemma omap_map_None {A B C : Type} (f : B -> option C) (g : A -> B) (l : list A) :
  (forall v, f (g v) = None) -> omap f (map g l) = [].
Proof.
  intros H. induction l as [|v l IH]; [reflexivity|].
  simpl. rewrite H. exact IH.
Qed.

Lemma omap_length_le {A B : Type} (f : A -> option B) (l : list A) :
  (length (omap f l) <= length l)%nat.
Proof.
  induction l as [|v l IH]; simpl; [lia|].
  change (list_omap A B f l) with (omap f l).
  destruct (f v); simpl; lia.
Qed.

Lemma created_bounds_log (env : Env) (ms : list MonitorInfo) :
  omap created
    (map (fun m => overlay_create BoundsTool m
            (overlayWindowHandle <$> OverlayUIState_Create env BoundsTool m)) ms)
  = map overlayWindowHandle (omap (OverlayUIState_Create env BoundsTool) ms).
Proof.
  induction ms as [|m ms IH]; [reflexivity|].
  simpl. destruct (OverlayUIState_Create env BoundsTool m); simpl.
  - f_equal. exact IH.
  - exact IH.
Qed.

Lemma StartBoundsTool_eq (env : Env) (c : Core) :
  StartBoundsTool env c
  = inr (tt,
         with_overlayUIStates
           (fun _ => omap (OverlayUIState_Create env BoundsTool) (MonitorInfo_GetMonitors env))
           (ResetState_result env c),
         ResetState_log c
         ++ map (fun m => overlay_create BoundsTool m
                   (overlayWindowHandle <$> OverlayUIState_Create env BoundsTool m))
              (MonitorInfo_GetMonitors env)
         ++ [Trace_BoundsToolActivated]).
Proof.
  unfold StartBoundsTool.
  erewrite bind_inr by apply ResetState_eq.
  erewrite bind_inr by apply bounds_loop.
  reflexivity.
Qed.

Lemma StartMeasureTool_eq (env : Env) (horizontal vertical : bool) (c : Core) :
  StartMeasureTool env horizontal vertical c
  = inr (tt,
         with_overlayUIStates
           (fun _ => omap (OverlayUIState_Create env MeasureTool) (MonitorInfo_GetMonitors env))
           (with_screenCaptureThreads
              (fun _ => omap (fun m => capture_thread_of m
                                <$> OverlayUIState_Create env MeasureTool m)
                          (MonitorInfo_GetMonitors env))
              (with_measureToolState
                 (Access (StartMeasureTool_setup horizontal vertical (Settings_LoadFromFile env)))
                 (ResetState_result env c))),
         ResetState_log c
         ++ flat_map (measure_turn_log env) (MonitorInfo_GetMonitors env)
         ++ [Trace_MeasureToolActivated]).
Proof.
  unfold StartMeasureTool.
  erewrite bind_inr by apply ResetState_eq.
  erewrite bind_inr by reflexivity.
  erewrite bind_inr by reflexivity.
  erewrite bind_inr by apply measure_loop.
  reflexivity.
Qed.

(** ** The claims about starting a tool *)

(** C1: for every pair of flags, [StartMeasureTool horizontal vertical]
    returns and leaves the mode of the measure tool's global record at
    [Cross] when both flags are set, at [Horizontal] when only [horizontal]
    is set, and at [Vertical] in the two cases where [horizontal] is not
    set. *)
Theorem StartMeasureTool_mode (env : Env) (horizontal vertical : bool) (c : Core) :
  exists c' log,
    StartMeasureTool env horizontal vertical c = inr (tt, c', log) /\
    MeasureToolState.mode (MeasureToolState.global (guarded (_measureToolState c')))
    = match horizontal, vertical with
      | true, true => MeasureToolState.Cross
      | true, false => MeasureToolState.Horizontal
      | false, _ => MeasureToolState.Vertical
      end.
Proof.
  eexists _, _. split; [apply StartMeasureTool_eq|].
  destruct horizontal, vertical; reflexivity.
Qed.

(** C2: for every list of N enumerated monitors and every outcome of
    creating their surfaces, [StartBoundsTool] returns (it never aborts),
    its surfaces are exactly the ones that could be created, in the order of
    the monitors, so a monitor without a surface is skipped and the later
    ones are still served; there are at most N surfaces, the list of capture
    threads is empty and no thread was started. *)
Theorem StartBoundsTool_surfaces (env : Env) (c : Core) :
  exists c' log,
    StartBoundsTool env c = inr (tt, c', log) /\
    _overlayUIStates c'
    = omap (OverlayUIState_Create env BoundsTool) (MonitorInfo_GetMonitors env) /\
    (length (_overlayUIStates c') <= length (MonitorInfo_GetMonitors env))%nat /\
    omap created log = map overlayWindowHandle (_overlayUIStates c') /\
    _screenCaptureThreads c' = [] /\
    omap started log = [].
Proof.
  eexists _, _. split; [apply StartBoundsTool_eq|].
  cbn [_overlayUIStates _screenCaptureThreads with_overlayUIStates ResetState_result].
  split; [reflexivity|]. split; [apply omap_length_le|].
  unfold ResetState_log. rewrite !omap_app.
  split; [|split; [reflexivity|]].
  - rewrite !(omap_map_None created) by reflexivity.
    rewrite created_bounds_log. simpl. apply app_nil_r.
  - rewrite !(omap_map_None started) by reflexivity. reflexivity.
Qed.

Lemma started_measure_log (env : Env) (ms : list MonitorInfo) :
  omap started (flat_map (measure_turn_log env) ms)
  = map task (omap (fun m => capture_thread_of m
                      <$> OverlayUIState_Create env MeasureTool m) ms).
Proof.
  induction ms as [|m ms IH]; [reflexivity|].
  simpl. unfold measure_turn_log at 1.
  destruct (OverlayUIState_Create env MeasureTool m); simpl.
  - f_equal. exact IH.
  - exact IH.
Qed.

Lemma capture_threads_bound (env : Env) (ms : list MonitorInfo) :
  Forall2
    (fun t o => joinable t = true /\
                exists m, m ∈ ms /\ task t = ScreenCapture (overlayWindowHandle o) m)
    (omap (fun m => capture_thread_of m <$> OverlayUIState_Create env MeasureTool m) ms)
    (omap (OverlayUIState_Create env MeasureTool) ms).
Proof.
  induction ms as [|m ms IH]; [constructor|].
  assert (Forall2
    (fun t o => joinable t = true /\
                exists m', m' ∈ m :: ms /\ task t = ScreenCapture (overlayWindowHandle o) m')
    (omap (fun m => capture_thread_of m <$> OverlayUIState_Create env MeasureTool m) ms)
    (omap (OverlayUIState_Create env MeasureTool) ms)) as IH'.
  { eapply Forall2_impl; [exact IH|].
    intros t o [Hj [m' [Hm Ht]]]. split; [exact Hj|].
    exists m'. split; [apply list_elem_of_further; exact Hm|exact Ht]. }
  simpl. destruct (OverlayUIState_Create env MeasureTool m) as [o|]; simpl.
  - constructor; [|exact IH'].
    split; [reflexivity|]. exists m. split; [apply list_elem_of_here|reflexivity].
  - exact IH'.
Qed.

(** C3: for every list of N enumerated monitors, [StartMeasureTool] returns
    with as many capture threads as overlay surfaces, at most N; the k-th
    thread is running and is bound to the window handle of the k-th surface
    (and to one of the monitors); and the threads started during the call
    are exactly these, one per surface. *)
Theorem StartMeasureTool_capture_threads (env : Env) (horizontal vertical : bool) (c : Core) :
  exists c' log,
    StartMeasureTool env horizontal vertical c = inr (tt, c', log) /\
    _overlayUIStates c'
    = omap (OverlayUIState_Create env MeasureTool) (MonitorInfo_GetMonitors env) /\
    length (_screenCaptureThreads c') = length (_overlayUIStates c') /\
    (length (_overlayUIStates c') <= length (MonitorInfo_GetMonitors env))%nat /\
    Forall2
      (fun t o => joinable t = true /\
                  exists m, m ∈ MonitorInfo_GetMonitors env /\
                            task t = ScreenCapture (overlayWindowHandle o) m)
      (_screenCaptureThreads c') (_overlayUIStates c') /\
    omap started log = map task (_screenCaptureThreads c').
Proof.
  eexists _, _. split; [apply StartMeasureTool_eq|].
  cbn [_overlayUIStates _screenCaptureThreads with_overlayUIStates
       with_screenCaptureThreads with_measureToolState ResetState_result].
  split; [reflexivity|].
  split; [exact (Forall2_length _ _ _ (capture_threads_bound env _))|].
  split; [apply omap_length_le|].
  split; [apply capture_threads_bound|].
  unfold ResetState_log. rewrite !omap_app.
  rewrite !(omap_map_None started) by reflexivity.
  rewrite started_measure_log. simpl. apply app_nil_r.
Qed.

(** ** The claims about [ResetState] *)

(** C4: from every state [ResetState] returns (no thread is destroyed while
    joinable, so it is safe at any time); it leaves no overlay surface and
    no capture thread; every thread that was joinable has been joined and
    every surface destroyed; and a second [ResetState] returns the same
    state again, with nothing left to join or destroy. *)
Theorem ResetState_idempotent (env : Env) (c : Core) :
  exists c' log,
    ResetState env c = inr (tt, c', log) /\
    _overlayUIStates c' = [] /\
    _screenCaptureThreads c' = [] /\
    omap joined log
    = map task (filter (fun t => joinable t = true) (_screenCaptureThreads c)) /\
    omap destroyed log = map overlayWindowHandle (_overlayUIStates c) /\
    ResetState env c' = inr (tt, c', [settings_loaded]).
Proof.
  exists (ResetState_result env c), (ResetState_log c).
  split; [apply ResetState_eq|].
  split; [reflexivity|]. split; [reflexivity|].
  unfold ResetState_log. rewrite !omap_app.
  split; [|split].
  - rewrite (omap_map_None joined) by reflexivity. simpl. rewrite app_nil_r.
    induction (filter (fun t => joinable t = true) (_screenCaptureThreads c)) as [|t ts IH];
      [reflexivity|].
    simpl. f_equal. exact IH.
  - rewrite (omap_map_None destroyed (fun t => thread_joined (task t))) by reflexivity.
    simpl. rewrite app_nil_r.
    induction (_overlayUIStates c) as [|o os IH]; [reflexivity|].
    simpl. f_equal. exact IH.
  - rewrite ResetState_eq. reflexivity.
Qed.

(** C5, the claim as stated fails: in a session under way, the completion
    callback, the toolbar bounding box, the cursor position and the readout
    text survive [ResetState]; the [CommonState] is not back to its initial
    value. *)
Lemma ResetState_fresh_CommonState_counterexample :
  match ResetState sample_env busy_core with
  | inr (_, c', _) =>
      sessionCompletedCallback (_commonState c') = Some 7 /\
      toolbarBoundingBox (_commonState c')
      = {| rect := {| RECT.left := 10; RECT.top := 20;
                      RECT.right := 300; RECT.bottom := 60 |} |} /\
      cursorPosSystemSpace (_commonState c') = {| POINT.x := 640; POINT.y := -12 |} /\
      buffer (guarded (overlayBoxText (_commonState c'))) = [52; 50] ++ repeat 0 30 /\
      _commonState c' <> value_init CommonState
  | inl _ => False
  end.
Proof.
  rewrite ResetState_eq.
  repeat split; try reflexivity.
  intros H. apply (f_equal sessionCompletedCallback) in H. discriminate H.
Qed.

(** C5, amended: after every [ResetState] both tool states are cleared and
    point at the orchestrator's one [_commonState] member; in that record
    the close-on-other-monitors flag is [false] and the red, green and blue
    components of the stroke color are the loaded settings' components over
    255, while the callback, the toolbar bounding box, the readout text, the
    cursor position and the alpha of the stroke color are as before. *)
Theorem ResetState_relinks_tool_states (env : Env) (c : Core) :
  exists c' log,
    ResetState env c = inr (tt, c', log) /\
    _boundsToolState c'
    = {| BoundsToolState.perScreen := ∅;
         BoundsToolState.commonState := addr_commonState |} /\
    guarded (_measureToolState c') = MeasureToolState_relinked /\
    deref c' (BoundsToolState.commonState (_boundsToolState c')) = Some (_commonState c') /\
    deref c' (MeasureToolState.commonState (guarded (_measureToolState c')))
    = Some (_commonState c') /\
    _settings c' = Settings_LoadFromFile env /\
    closeOnOtherMonitors (_commonState c') = false /\
    ColorF.r (lineColor (_commonState c')) = channel 0 (Settings_LoadFromFile env) /\
    ColorF.g (lineColor (_commonState c')) = channel 1 (Settings_LoadFromFile env) /\
    ColorF.b (lineColor (_commonState c')) = channel 2 (Settings_LoadFromFile env) /\
    ColorF.a (lineColor (_commonState c')) = ColorF.a (lineColor (_commonState c)) /\
    sessionCompletedCallback (_commonState c') = sessionCompletedCallback (_commonState c) /\
    toolbarBoundingBox (_commonState c') = toolbarBoundingBox (_commonState c) /\
    overlayBoxText (_commonState c') = overlayBoxText (_commonState c) /\
    cursorPosSystemSpace (_commonState c') = cursorPosSystemSpace (_commonState c).
Proof.
  eexists _, _. split; [apply ResetState_eq|].
  repeat split.
Qed.

(** ** The claims about the queries and setters *)






(** With the usual default of 96: a failing query gives 1, a monitor at
    144 DPI gives 1.5. *)
Example GetDPIScaleForWindow_failed :
  FAILED (fst (DPIAware_GetScreenDPIForWindow sample_env 7 96)) /\
  GetDPIScaleForWindow sample_env 7 fresh_core
  = inr (S754_finite false 8388608 (-23), fresh_core, []).
Proof. split; reflexivity. Qed.

Example GetDPIScaleForWindow_144 :
  GetDPIScaleForWindow sample_env 101 fresh_core
  = inr (S754_finite false 12582912 (-23), fresh_core, []).
Proof. reflexivity. Qed.

Lemma static_cast_long_stored (u : Z) : is_uint32 u -> stored_as u (static_cast_long u).
Proof.
  unfold is_uint32, stored_as, static_cast_long, is_long. intros Hu.
  rewrite (Z.mod_small u (2 ^ 32)) by lia.
  destruct (Z.ltb_spec u (2 ^ 31)) as [Hlt|Hge].
  - repeat split; try lia. apply Z.mod_small. lia.
  - repeat split; try lia.
    replace (u - 2 ^ 32) with (u + (-1) * 2 ^ 32) by lia.
    rewrite Z.mod_add by lia. apply Z.mod_small. lia.
Qed.

(** C9, the claim as stated fails: an argument at or above 2^31 is not kept,
    the [LONG] field holds it minus 2^32. *)
Lemma SetToolbarBoundingBox_exact_counterexample :
  is_uint32 2147483648 /\ is_uint32 0 /\ is_uint32 4294967295 /\ is_uint32 5 /\
  match SetToolbarBoundingBox 2147483648 0 4294967295 5 fresh_core with
  | inr (_, c', _) =>
      rect (toolbarBoundingBox (_commonState c'))
      = {| RECT.left := -2147483648; RECT.top := 0; RECT.right := -1; RECT.bottom := 5 |} /\
      RECT.left (rect (toolbarBoundingBox (_commonState c'))) <> 2147483648 /\
      RECT.right (rect (toolbarBoundingBox (_commonState c'))) <> 4294967295
  | inl _ => False
  end.
Proof.
  unfold is_uint32. repeat (split; [lia|]).
  vm_compute. split; [reflexivity|]. split; intros H; discriminate H.
Qed.

(** C9, amended: for every four unsigned 32 bit arguments,
    [SetToolbarBoundingBox] returns and the stored rectangle holds each
    argument reinterpreted as a 32 bit two's complement [LONG]: the same low
    32 bits, the argument itself when it is below 2^31, and the argument
    minus 2^32 when it is at or above 2^31; the other members are as they
    were. *)
Theorem SetToolbarBoundingBox_stores (fromX fromY toX toY : Z) (c : Core) :
  is_uint32 fromX -> is_uint32 fromY -> is_uint32 toX -> is_uint32 toY ->
  exists c',
    SetToolbarBoundingBox fromX fromY toX toY c = inr (tt, c', []) /\
    stored_as fromX (RECT.left (rect (toolbarBoundingBox (_commonState c')))) /\
    stored_as fromY (RECT.top (rect (toolbarBoundingBox (_commonState c')))) /\
    stored_as toX (RECT.right (rect (toolbarBoundingBox (_commonState c')))) /\
    stored_as toY (RECT.bottom (rect (toolbarBoundingBox (_commonState c')))) /\
    c' = with_commonState (set_toolbarBoundingBox (toolbarBoundingBox (_commonState c'))) c.
Proof.
  intros H1 H2 H3 H4. eexists. split; [reflexivity|].
  cbn [_commonState with_commonState set_toolbarBoundingBox toolbarBoundingBox rect
       RECT.left RECT.top RECT.right RECT.bottom].
  repeat (split; [apply static_cast_long_stored; assumption|]).
  reflexivity.
Qed.

Lemma SetToolbarBoundingBox_stores_witness :
  (is_uint32 2147483648 /\ is_uint32 0 /\ is_uint32 4294967295 /\ is_uint32 5) /\
  exists c',
    SetToolbarBoundingBox 2147483648 0 4294967295 5 fresh_core = inr (tt, c', []) /\
    stored_as 2147483648 (RECT.left (rect (toolbarBoundingBox (_commonState c')))) /\
    stored_as 0 (RECT.top (rect (toolbarBoundingBox (_commonState c')))) /\
    stored_as 4294967295 (RECT.right (rect (toolbarBoundingBox (_commonState c')))) /\
    stored_as 5 (RECT.bottom (rect (toolbarBoundingBox (_commonState c')))) /\
    c' = with_commonState (set_toolbarBoundingBox (toolbarBoundingBox (_commonState c')))
           fresh_core.
Proof.
  split; [unfold is_uint32; lia|].
  apply (SetToolbarBoundingBox_stores 2147483648 0 4294967295 5 fresh_core);
    unfold is_uint32; lia.
Defined.

(** ** The claim about destruction *)

Lemma ResetState_log_events (c : Core) (e : Event) :
  e ∈ ResetState_log c ->
  (exists w, e = overlay_destroyed w) \/ (exists t, e = thread_joined t) \/ e = settings_loaded.
Proof.
  unfold ResetState_log. rewrite !list_elem_of_In, !in_app_iff, !in_map_iff.
  intros [[o [<- _]]|[[t [<- _]]|[<-|[]]]]; eauto.
Qed.

(** C7: when the cursor poll thread is running, the destructor returns and
    its effects are, in this order: the stop event is set, the poll thread
    is joined, [ResetState] runs (on the state in which the poll thread is
    no longer joinable, and without setting the stop event or touching the
    tracing registration itself), and last the tracing provider is
    unregistered. *)
Theorem Core_dtor_order (env : Env) (c : Core) :
  joinable (_mouseCaptureThread c) = true ->
  exists c1 c' reset_log,
    c1 = with_mouseCaptureThread (fun t => {| joinable := false; task := task t |})
           (with_stopMouseCaptureThreadSignal (fun _ => true) c) /\
    ResetState env c1 = inr (tt, c', reset_log) /\
    Core_dtor env c
    = inr (tt, c',
           [stop_signal_SetEvent; thread_joined (task (_mouseCaptureThread c))]
           ++ reset_log ++ [Trace_UnregisterProvider]) /\
    (stop_signal_SetEvent ∉ reset_log) /\
    (Trace_UnregisterProvider ∉ reset_log) /\
    (Trace_RegisterProvider ∉ reset_log) /\
    joinable (_mouseCaptureThread c') = false /\
    _stopMouseCaptureThreadSignal c' = true /\
    _overlayUIStates c' = [] /\
    _screenCaptureThreads c' = [].
Proof.
  intros Hj. eexists _, _, _. split; [reflexivity|].
  split; [apply ResetState_eq|].
  split.
  { unfold Core_dtor.
    erewrite bind_inr by reflexivity.
    erewrite bind_inr by reflexivity.
    erewrite bind_inr by (unfold on_member, join; cbn; rewrite Hj; reflexivity).
    erewrite bind_inr by apply ResetState_eq.
    reflexivity. }
  repeat split;
    try (intros [[w H]|[[t H]|H]]%ResetState_log_events; discriminate H).
Qed.

Lemma Core_dtor_order_witness :
  joinable (_mouseCaptureThread fresh_core) = true /\
  exists c1 c' reset_log,
    c1 = with_mouseCaptureThread (fun t => {| joinable := false; task := task t |})
           (with_stopMouseCaptureThreadSignal (fun _ => true) fresh_core) /\
    ResetState sample_env c1 = inr (tt, c', reset_log) /\
    Core_dtor sample_env fresh_core
    = inr (tt, c',
           [stop_signal_SetEvent; thread_joined (task (_mouseCaptureThread fresh_core))]
           ++ reset_log ++ [Trace_UnregisterProvider]) /\
    (stop_signal_SetEvent ∉ reset_log) /\
    (Trace_UnregisterProvider ∉ reset_log) /\
    (Trace_RegisterProvider ∉ reset_log) /\
    joinable (_mouseCaptureThread c') = false /\
    _stopMouseCaptureThreadSignal c' = true /\
    _overlayUIStates c' = [] /\
    _screenCaptureThreads c' = [].
Proof.
  split; [reflexivity|].
  apply (Core_dtor_order sample_env fresh_core). reflexivity.
Defined.

(** The destructor of a session under way, run in full. *)
Example Core_dtor_busy :
  snd <$> (match Core_dtor sample_env busy_core with
           | inr r => Some r
           | inl _ => None
           end)
  = Some [stop_signal_SetEvent; thread_joined MouseCapture;
          overlay_destroyed 101; overlay_destroyed 103;
          thread_joined (ScreenCapture 101 1); settings_loaded;
          Trace_UnregisterProvider].
Proof. reflexivity. Qed.

(** ** The claim about the defaults of the measure tool *)

Lemma invoke_keeps_measure (env : Env) (call : Call) (c : Core) :
  is_StartMeasureTool call = false ->
  guarded (_measureToolState c) = MeasureToolState_relinked ->
  exists c' log,
    invoke env call c = inr (tt, c', log) /\
    guarded (_measureToolState c') = MeasureToolState_relinked.
Proof.
  intros Hcall Hm. destruct call; try discriminate Hcall; cbn [invoke].
  - eexists _, _. split; [apply ResetState_eq|reflexivity].
  - eexists _, _. split; [apply StartBoundsTool_eq|reflexivity].
  - eexists _, _. split; [reflexivity|exact Hm].
  - eexists _, _. split; [reflexivity|exact Hm].
  - unfold GetDPIScaleForWindow, bind, ret.
    destruct (DPIAware_GetScreenDPIForWindow env windowHandle (DEFAULT_DPI env)).
    eexists _, _. split; [reflexivity|exact Hm].
Qed.

Lemma invoke_all_keeps_measure (calls : list (Env * Call)) (c : Core) :
  forallb (fun ec => negb (is_StartMeasureTool (snd ec))) calls = true ->
  guarded (_measureToolState c) = MeasureToolState_relinked ->
  exists c' log,
    invoke_all calls c = inr (tt, c', log) /\
    guarded (_measureToolState c') = MeasureToolState_relinked.
Proof.
  revert c. induction calls as [|[env call] calls IH]; intros c Hcalls Hm.
  - eexists _, _. split; [reflexivity|exact Hm].
  - cbn [forallb snd] in Hcalls. apply andb_prop in Hcalls as [Hcall Hcalls].
    apply negb_true_iff in Hcall.
    destruct (invoke_keeps_measure env call c Hcall Hm) as (c1 & l1 & Hrun & Hm1).
    destruct (IH c1 Hcalls Hm1) as (c2 & l2 & Hrest & Hm2).
    exists c2, (l1 ++ l2). split; [|exact Hm2].
    unfold invoke_all in *. cbn [for_each].
    erewrite bind_inr by exact Hrun. rewrite Hrest. reflexivity.
Qed.

(** C10: after every [ResetState] the measure tool's global record holds
    pixel tolerance 30, continuous capture on, feet on cross on, per channel
    edge detection off and mode [Cross], and the per-monitor map is empty;
    this still holds after any further calls of the orchestrator other than
    [StartMeasureTool]; and [StartMeasureTool] then replaces the four
    settings by those of the settings snapshot it loads. *)
Theorem measure_defaults_until_StartMeasureTool
    (env : Env) (c : Core) (calls : list (Env * Call)) :
  forallb (fun ec => negb (is_StartMeasureTool (snd ec))) calls = true ->
  exists c0 log0 c' log,
    ResetState env c = inr (tt, c0, log0) /\
    guarded (_measureToolState c0) = MeasureToolState_relinked /\
    invoke_all calls c0 = inr (tt, c', log) /\
    MeasureToolState.global (guarded (_measureToolState c'))
    = {| MeasureToolState.pixelTolerance := 30;
         MeasureToolState.continuousCapture := true;
         MeasureToolState.drawFeetOnCross := true;
         MeasureToolState.perColorChannelEdgeDetection := false;
         MeasureToolState.mode := MeasureToolState.Cross |} /\
    MeasureToolState.perScreen (guarded (_measureToolState c')) = ∅ /\
    forall env' horizontal vertical,
    exists c'' log',
      StartMeasureTool env' horizontal vertical c' = inr (tt, c'', log') /\
      MeasureToolState.global (guarded (_measureToolState c''))
      = {| MeasureToolState.pixelTolerance :=
             Settings.pixelTolerance (Settings_LoadFromFile env');
           MeasureToolState.continuousCapture :=
             Settings.continuousCapture (Settings_LoadFromFile env');
           MeasureToolState.drawFeetOnCross :=
             Settings.drawFeetOnCross (Settings_LoadFromFile env');
           MeasureToolState.perColorChannelEdgeDetection :=
             Settings.perColorChannelEdgeDetection (Settings_LoadFromFile env');
           MeasureToolState.mode :=
             MeasureToolState.mode (MeasureToolState.global (guarded (_measureToolState c''))) |}.
Proof.
  intros Hcalls.
  destruct (invoke_all_keeps_measure calls (ResetState_result env c) Hcalls eq_refl)
    as (c' & log & Hrun & Hm).
  exists (ResetState_result env c), (ResetState_log c), c', log.
  split; [apply ResetState_eq|]. split; [reflexivity|]. split; [exact Hrun|].
  rewrite Hm. split; [reflexivity|]. split; [reflexivity|].
  intros env' horizontal vertical.
  eexists _, _. split; [apply StartMeasureTool_eq|reflexivity].
Qed.

Lemma measure_defaults_until_StartMeasureTool_witness :
  exists c0 log0 c' log,
    ResetState sample_env busy_core = inr (tt, c0, log0) /\
    guarded (_measureToolState c0) = MeasureToolState_relinked /\
    invoke_all [(sample_env, Call_SetToolbarBoundingBox 1 2 3 4);
                (sample_env, Call_StartBoundsTool);
                (sample_env, Call_GetDPIScaleForWindow 101)] c0
    = inr (tt, c', log) /\
    MeasureToolState.global (guarded (_measureToolState c'))
    = {| MeasureToolState.pixelTolerance := 30;
         MeasureToolState.continuousCapture := true;
         MeasureToolState.drawFeetOnCross := true;
         MeasureToolState.perColorChannelEdgeDetection := false;
         MeasureToolState.mode := MeasureToolState.Cross |} /\
    MeasureToolState.perScreen (guarded (_measureToolState c')) = ∅ /\
    forall env' horizontal vertical,
    exists c'' log',
      StartMeasureTool env' horizontal vertical c' = inr (tt, c'', log') /\
      MeasureToolState.global (guarded (_measureToolState c''))
      = {| MeasureToolState.pixelTolerance :=
             Settings.pixelTolerance (Settings_LoadFromFile env');
           MeasureToolState.continuousCapture :=
             Settings.continuousCapture (Settings_LoadFromFile env');
           MeasureToolState.drawFeetOnCross :=
             Settings.drawFeetOnCross (Settings_LoadFromFile env');
           MeasureToolState.perColorChannelEdgeDetection :=
             Settings.perColorChannelEdgeDetection (Settings_LoadFromFile env');
           MeasureToolState.mode :=
             MeasureToolState.mode (MeasureToolState.global (guarded (_measureToolState c''))) |}.
Proof.
  apply (measure_defaults_until_StartMeasureTool sample_env busy_core
           [(sample_env, Call_SetToolbarBoundingBox 1 2 3 4);
            (sample_env, Call_StartBoundsTool);
            (sample_env, Call_GetDPIScaleForWindow 101)]).
  reflexivity.
Defined.

(** ** Further properties: the cursor poll thread *)

Lemma static_cast_long_congr (z v : Z) :
  is_long v -> z mod 2 ^ 32 = v mod 2 ^ 32 -> static_cast_long z = v.
Proof.
  unfold is_long, static_cast_long. intros Hv ->.
  destruct (Z_lt_le_dec v 0) as [Hneg|Hpos].
  - replace (v mod 2 ^ 32) with (v + 2 ^ 32).
    + destruct (Z.ltb_spec (v + 2 ^ 32) (2 ^ 31)); lia.
    + symmetry. rewrite <- (Z.mod_add v 1 (2 ^ 32)) by lia.
      rewrite Z.mod_small by lia. lia.
  - rewrite Z.mod_small by lia.
    destruct (Z.ltb_spec v (2 ^ 31)); lia.
Qed.

Lemma bit_cast_LONG64_halves (p : POINT.t) :
  exists k, bit_cast_LONG64 p
            = POINT.x p mod 2 ^ 32 + (POINT.y p mod 2 ^ 32 + k * 2 ^ 32) * 2 ^ 32.
Proof.
  unfold bit_cast_LONG64. cbv zeta.
  destruct (_ <? _); [exists 0|exists (-1)]; lia.
Qed.

Lemma POINT_of_LONG64_bit_cast (p : POINT.t) :
  is_POINT p -> POINT_of_LONG64 (bit_cast_LONG64 p) = p.
Proof.
  intros [Hx Hy].
  destruct (bit_cast_LONG64_halves p) as [k Hk]. rewrite Hk.
  destruct p as [px py]. cbn [POINT.x POINT.y] in *. unfold POINT_of_LONG64. f_equal.
  - apply static_cast_long_congr; [exact Hx|].
    rewrite Z.mod_add by lia. apply Z.mod_mod. lia.
  - apply static_cast_long_congr; [exact Hy|].
    rewrite Z.div_add by lia.
    rewrite (Z.div_small (px mod 2 ^ 32)) by (apply Z.mod_pos_bound; lia).
    rewrite Z.add_0_l, Z.mod_add by lia. apply Z.mod_mod. lia.
Qed.

(** X1: the 64 bit value exchanged into the cursor position field reads
    back as the sampled point, for every point with 32 bit coordinates
    (negative ones included), and it is a 64 bit signed value. *)
Theorem bit_cast_LONG64_round_trip (p : POINT.t) :
  is_POINT p ->
  POINT_of_LONG64 (bit_cast_LONG64 p) = p /\ is_LONG64 (bit_cast_LONG64 p).
Proof.
  intros Hp. split.
  - apply POINT_of_LONG64_bit_cast. exact Hp.
  - unfold is_LONG64, bit_cast_LONG64. cbv zeta.
    pose proof (Z.mod_pos_bound (POINT.x p) (2 ^ 32) ltac:(lia)).
    pose proof (Z.mod_pos_bound (POINT.y p) (2 ^ 32) ltac:(lia)).
    destruct (Z.ltb_spec (POINT.x p mod 2 ^ 32 + 2 ^ 32 * (POINT.y p mod 2 ^ 32)) (2 ^ 63)); lia.
Qed.

Lemma bit_cast_LONG64_round_trip_witness :
  is_POINT {| POINT.x := -1920; POINT.y := 1079 |} /\
  POINT_of_LONG64 (bit_cast_LONG64 {| POINT.x := -1920; POINT.y := 1079 |})
  = {| POINT.x := -1920; POINT.y := 1079 |} /\
  is_LONG64 (bit_cast_LONG64 {| POINT.x := -1920; POINT.y := 1079 |}).
Proof.
  split; [unfold is_POINT, is_long; cbn; lia|].
  apply (bit_cast_LONG64_round_trip {| POINT.x := -1920; POINT.y := 1079 |}).
  unfold is_POINT, is_long; cbn; lia.
Defined.

Lemma last_cons_default {A : Type} (l : list A) (v d d' : A) :
  List.last (v :: l) d = List.last (v :: l) d'.
Proof.
  revert v. induction l as [|w l IH]; intros v; [reflexivity|].
  change (List.last (w :: l) d = List.last (w :: l) d'). apply IH.
Qed.

Lemma MouseCaptureThread_running (ps : list POINT.t) (rest : list Tick) (s : CommonState) :
  Forall is_POINT ps ->
  MouseCaptureThread (map Running ps ++ Signaled :: rest) s
  = Some (match ps with
          | [] => s
          | _ :: _ => set_cursorPosSystemSpace (List.last ps (cursorPosSystemSpace s)) s
          end,
          map bit_cast_LONG64 ps).
Proof.
  revert s. induction ps as [|p ps IH]; intros s Hps; [reflexivity|].
  apply Forall_cons in Hps as [Hp Hps].
  cbn [map app MouseCaptureThread]. rewrite (IH _ Hps).
  rewrite (POINT_of_LONG64_bit_cast p Hp).
  destruct ps as [|q ps]; [reflexivity|].
  rewrite (last_cons_default ps q _ (cursorPosSystemSpace s)). reflexivity.
Qed.

(** X2: when the stop event is found signaled after n turns, the poll thread
    returns; the cursor position it leaves is the last sample (the old one
    when n = 0, where the thread does nothing at all), the n values it has
    exchanged read back as the n samples in order, and no other field of the
    common state has changed. *)
Theorem MouseCaptureThread_publishes (ps : list POINT.t) (rest : list Tick) (s : CommonState) :
  Forall is_POINT ps ->
  exists s' published,
    MouseCaptureThread (map Running ps ++ Signaled :: rest) s = Some (s', published) /\
    cursorPosSystemSpace s' = List.last ps (cursorPosSystemSpace s) /\
    map POINT_of_LONG64 published = ps /\
    (ps = [] -> s' = s /\ published = []) /\
    sessionCompletedCallback s' = sessionCompletedCallback s /\
    lineColor s' = lineColor s /\
    toolbarBoundingBox s' = toolbarBoundingBox s /\
    overlayBoxText s' = overlayBoxText s /\
    closeOnOtherMonitors s' = closeOnOtherMonitors s.
Proof.
  intros Hps. eexists _, _. split; [apply MouseCaptureThread_running; exact Hps|].
  split; [destruct ps; reflexivity|].
  split.
  { clear s. induction Hps as [|p ps Hp _ IH]; [reflexivity|].
    cbn [map]. rewrite IH, (POINT_of_LONG64_bit_cast p Hp). reflexivity. }
  split; [intros ->; split; reflexivity|].
  destruct ps; repeat split.
Qed.

Lemma MouseCaptureThread_publishes_witness :
  Forall is_POINT [ {| POINT.x := 10; POINT.y := 20 |}; {| POINT.x := -5; POINT.y := 7 |} ] /\
  exists s' published,
    MouseCaptureThread
      (map Running [ {| POINT.x := 10; POINT.y := 20 |}; {| POINT.x := -5; POINT.y := 7 |} ]
       ++ Signaled :: [])
      (value_init CommonState) = Some (s', published) /\
    cursorPosSystemSpace s'
    = List.last [ {| POINT.x := 10; POINT.y := 20 |}; {| POINT.x := -5; POINT.y := 7 |} ]
        (cursorPosSystemSpace (value_init CommonState)) /\
    map POINT_of_LONG64 published
    = [ {| POINT.x := 10; POINT.y := 20 |}; {| POINT.x := -5; POINT.y := 7 |} ] /\
    ([ {| POINT.x := 10; POINT.y := 20 |}; {| POINT.x := -5; POINT.y := 7 |} ] = [] ->
     s' = value_init CommonState /\ published = []) /\
    sessionCompletedCallback s' = sessionCompletedCallback (value_init CommonState) /\
    lineColor s' = lineColor (value_init CommonState) /\
    toolbarBoundingBox s' = toolbarBoundingBox (value_init CommonState) /\
    overlayBoxText s' = overlayBoxText (value_init CommonState) /\
    closeOnOtherMonitors s' = closeOnOtherMonitors (value_init CommonState).
Proof.
  assert (Forall is_POINT
            [ {| POINT.x := 10; POINT.y := 20 |}; {| POINT.x := -5; POINT.y := 7 |} ]) as H.
  { repeat constructor; cbn; lia. }
  split; [exact H|].
  apply (MouseCaptureThread_publishes
           [ {| POINT.x := 10; POINT.y := 20 |}; {| POINT.x := -5; POINT.y := 7 |} ]
           [] (value_init CommonState)).
  exact H.
Defined.

(** ** The claim about the poll thread *)

Lemma bit_cast_LONG64_range (p : POINT.t) : is_LONG64 (bit_cast_LONG64 p).
Proof.
  unfold is_LONG64, bit_cast_LONG64. cbv zeta.
  pose proof (Z.mod_pos_bound (POINT.x p) (2 ^ 32) ltac:(lia)).
  pose proof (Z.mod_pos_bound (POINT.y p) (2 ^ 32) ltac:(lia)).
  destruct (Z.ltb_spec (POINT.x p mod 2 ^ 32 + 2 ^ 32 * (POINT.y p mod 2 ^ 32)) (2 ^ 63)); lia.
Qed.

Lemma MouseCaptureThread_calls_running (TARGET_FRAME_DURATION : Z) (ps : list POINT.t)
    (rest : list Tick) (s : CommonState) :
  Forall is_POINT ps ->
  MouseCaptureThread_calls TARGET_FRAME_DURATION (map Running ps ++ Signaled :: rest) s
  = Some (match ps with
          | [] => s
          | _ :: _ => set_cursorPosSystemSpace (List.last ps (cursorPosSystemSpace s)) s
          end,
          flat_map (poll_turn TARGET_FRAME_DURATION) ps).
Proof.
  revert s. induction ps as [|p ps IH]; intros s Hps; [reflexivity|].
  apply Forall_cons in Hps as [Hp Hps].
  cbn [map app MouseCaptureThread_calls flat_map poll_turn]. rewrite (IH _ Hps).
  rewrite (POINT_of_LONG64_bit_cast p Hp).
  destruct ps as [|q ps]; [reflexivity|].
  rewrite (last_cons_default ps q _ (cursorPosSystemSpace s)). reflexivity.
Qed.

Lemma MouseCaptureThread_calls_unsignaled (TARGET_FRAME_DURATION : Z) (ps : list POINT.t)
    (s : CommonState) :
  MouseCaptureThread_calls TARGET_FRAME_DURATION (map Running ps) s = None.
Proof.
  revert s. induction ps as [|p ps IH]; intros s; [reflexivity|].
  cbn [map MouseCaptureThread_calls]. rewrite IH. reflexivity.
Qed.

Lemma exchanged_poll_turns (TARGET_FRAME_DURATION : Z) (ps : list POINT.t) :
  omap exchanged (flat_map (poll_turn TARGET_FRAME_DURATION) ps) = map bit_cast_LONG64 ps.
Proof.
  induction ps as [|p ps IH]; [reflexivity|].
  cbn [flat_map map]. rewrite omap_app, IH. reflexivity.
Qed.

Lemma cursorPos_history_head (field : POINT.t) (calls : list PollCall) :
  exists l, cursorPos_history field calls = field :: l.
Proof. destruct calls; eexists; reflexivity. Qed.

Lemma cursorPos_history_last (calls : list PollCall) (field d : POINT.t) :
  List.last (cursorPos_history field calls) d = fold_left cursorPos_after calls field.
Proof.
  revert field. induction calls as [|call calls IH]; intros field; [reflexivity|].
  cbn [cursorPos_history fold_left]. rewrite <- IH.
  destruct (cursorPos_history_head (cursorPos_after field call) calls) as [l ->].
  reflexivity.
Qed.

Lemma cursorPos_after_poll_turns (TARGET_FRAME_DURATION : Z) (ps : list POINT.t)
    (field : POINT.t) :
  Forall is_POINT ps ->
  fold_left cursorPos_after (flat_map (poll_turn TARGET_FRAME_DURATION) ps) field
  = List.last ps field.
Proof.
  revert field. induction ps as [|p ps IH]; intros field Hps; [reflexivity|].
  apply Forall_cons in Hps as [Hp Hps].
  cbn [flat_map poll_turn app fold_left cursorPos_after].
  rewrite (POINT_of_LONG64_bit_cast p Hp), (IH _ Hps).
  destruct ps as [|q ps]; [reflexivity|].
  exact (last_cons_default ps q p field).
Qed.

Lemma cursorPos_history_poll_turns (TARGET_FRAME_DURATION : Z) (ps : list POINT.t)
    (field q : POINT.t) :
  Forall is_POINT ps ->
  q ∈ cursorPos_history field (flat_map (poll_turn TARGET_FRAME_DURATION) ps) ->
  q = field \/ q ∈ ps.
Proof.
  revert field. induction ps as [|p ps IH]; intros field Hps Hq.
  - cbn in Hq. apply list_elem_of_singleton in Hq. left. exact Hq.
  - apply Forall_cons in Hps as [Hp Hps].
    cbn [flat_map poll_turn app cursorPos_history cursorPos_after] in Hq.
    rewrite (POINT_of_LONG64_bit_cast p Hp) in Hq.
    apply elem_of_cons in Hq as [->|Hq]; [left; reflexivity|].
    apply elem_of_cons in Hq as [->|Hq]; [left; reflexivity|].
    apply elem_of_cons in Hq as [->|Hq]; [right; apply elem_of_cons; left; reflexivity|].
    destruct (IH _ Hps Hq) as [->|Hin]; right; apply elem_of_cons; [left|right]; auto.
Qed.

(** C8: when the poll thread finds its stop event signaled after n turns it
    returns, having made in each turn, in this order, one [GetCursorPos],
    one [InterlockedExchange64] on the cursor position field and one
    [sleep_for] of [consts::TARGET_FRAME_DURATION], and nothing else; as
    long as it has not found the event signaled it does not return.  The
    value of each exchange is one 64 bit integer that holds both coordinates
    of the sample of its turn, and the exchange is the only call that writes
    the field: every value the field holds between two calls is the value
    from before the thread or one whole sample, never the x of one sample
    with the y of another, and the value at the end is the last sample.  The
    values exchanged are those of [MouseCaptureThread].  The static
    assertion holds: the cursor position record has the 8 bytes, 64 bits, of
    a [LONG64]. *)
Theorem MouseCaptureThread_turns (TARGET_FRAME_DURATION : Z) (ps : list POINT.t)
    (rest : list Tick) (s : CommonState) :
  Forall is_POINT ps ->
  exists s' calls,
    MouseCaptureThread_calls TARGET_FRAME_DURATION (map Running ps ++ Signaled :: rest) s
    = Some (s', calls) /\
    MouseCaptureThread_calls TARGET_FRAME_DURATION (map Running ps) s = None /\
    calls = flat_map (fun cursorPos =>
                        [ GetCursorPos cursorPos;
                          InterlockedExchange64 (bit_cast_LONG64 cursorPos);
                          sleep_for TARGET_FRAME_DURATION ]) ps /\
    length (omap exchanged calls) = length ps /\
    Forall (fun cursorPos =>
              is_LONG64 (bit_cast_LONG64 cursorPos) /\
              POINT.x (POINT_of_LONG64 (bit_cast_LONG64 cursorPos)) = POINT.x cursorPos /\
              POINT.y (POINT_of_LONG64 (bit_cast_LONG64 cursorPos)) = POINT.y cursorPos) ps /\
    (forall q, q ∈ cursorPos_history (cursorPosSystemSpace s) calls ->
               q = cursorPosSystemSpace s \/ q ∈ ps) /\
    List.last (cursorPos_history (cursorPosSystemSpace s) calls) (cursorPosSystemSpace s)
    = cursorPosSystemSpace s' /\
    cursorPosSystemSpace s' = List.last ps (cursorPosSystemSpace s) /\
    MouseCaptureThread (map Running ps ++ Signaled :: rest) s
    = Some (s', omap exchanged calls) /\
    static_assert_cursorPos_size = true /\
    8 * sizeof_POINT = 64.
Proof.
  intros Hps. eexists _, _.
  split; [apply MouseCaptureThread_calls_running; exact Hps|].
  split; [apply MouseCaptureThread_calls_unsignaled|].
  split; [reflexivity|].
  split; [rewrite exchanged_poll_turns; apply length_map|].
  split.
  { eapply Forall_impl; [exact Hps|]. intros p Hp.
    rewrite (POINT_of_LONG64_bit_cast p Hp).
    split; [apply bit_cast_LONG64_range|]. split; reflexivity. }
  split; [intros q; apply cursorPos_history_poll_turns; exact Hps|].
  assert (cursorPosSystemSpace
            match ps with
            | [] => s
            | _ :: _ => set_cursorPosSystemSpace (List.last ps (cursorPosSystemSpace s)) s
            end = List.last ps (cursorPosSystemSpace s)) as Hlast.
  { destruct ps; reflexivity. }
  split.
  { rewrite cursorPos_history_last, cursorPos_after_poll_turns by exact Hps.
    symmetry. exact Hlast. }
  split; [exact Hlast|].
  split.
  { rewrite exchanged_poll_turns. apply MouseCaptureThread_running. exact Hps. }
  split; reflexivity.
Qed.

(** Two turns at a period of 16, the second sample left of the primary
    monitor. *)
Lemma MouseCaptureThread_turns_witness :
  Forall is_POINT [ {| POINT.x := 10; POINT.y := 20 |}; {| POINT.x := -5; POINT.y := 7 |} ] /\
  exists s' calls,
    MouseCaptureThread_calls 16
      (map Running [ {| POINT.x := 10; POINT.y := 20 |}; {| POINT.x := -5; POINT.y := 7 |} ]
       ++ Signaled :: [Running {| POINT.x := 1; POINT.y := 1 |}])
      (value_init CommonState) = Some (s', calls) /\
    calls = [ GetCursorPos {| POINT.x := 10; POINT.y := 20 |};
              InterlockedExchange64 85899345930;
              sleep_for 16;
              GetCursorPos {| POINT.x := -5; POINT.y := 7 |};
              InterlockedExchange64 34359738363;
              sleep_for 16 ] /\
    cursorPos_history (cursorPosSystemSpace (value_init CommonState)) calls
    = [ {| POINT.x := 0; POINT.y := 0 |}; {| POINT.x := 0; POINT.y := 0 |};
        {| POINT.x := 10; POINT.y := 20 |}; {| POINT.x := 10; POINT.y := 20 |};
        {| POINT.x := 10; POINT.y := 20 |}; {| POINT.x := -5; POINT.y := 7 |};
        {| POINT.x := -5; POINT.y := 7 |} ] /\
    cursorPosSystemSpace s' = {| POINT.x := -5; POINT.y := 7 |}.
Proof.
  assert (Forall is_POINT
            [ {| POINT.x := 10; POINT.y := 20 |}; {| POINT.x := -5; POINT.y := 7 |} ]) as H.
  { repeat constructor; cbn; lia. }
  split; [exact H|].
  destruct (MouseCaptureThread_turns 16
              [ {| POINT.x := 10; POINT.y := 20 |}; {| POINT.x := -5; POINT.y := 7 |} ]
              [Running {| POINT.x := 1; POINT.y := 1 |}] (value_init CommonState) H)
    as (s' & calls & Hrun & _ & Hcalls & _ & _ & _ & _ & Hlast & _).
  exists s', calls.
  split; [exact Hrun|].
  split; [rewrite Hcalls; reflexivity|].
  split; [rewrite Hcalls; reflexivity|].
  rewrite Hlast. reflexivity.
Defined.

(** ** Further properties: sessions over the life of an orchestrator *)

Lemma omap_flat_map_nil {A B C : Type} (f : B -> option C) (g : A -> list B) (l : list A) :
  (forall v, omap f (g v) = []) -> omap f (flat_map g l) = [].
Proof.
  intros H. induction l as [|v l IH]; [reflexivity|].
  cbn [flat_map]. rewrite omap_app, H, IH. reflexivity.
Qed.

Lemma filter_joinable_all (ts : list thread) :
  Forall (fun t => joinable t = true) ts ->
  filter (fun t => joinable t = true) ts = ts.
Proof.
  induction 1 as [|t ts Ht _ IH]; [reflexivity|].
  rewrite filter_cons_True by exact Ht. rewrite IH. reflexivity.
Qed.

Lemma created_measure_log (env : Env) (ms : list MonitorInfo) :
  omap created (flat_map (measure_turn_log env) ms)
  = map overlayWindowHandle (omap (OverlayUIState_Create env MeasureTool) ms).
Proof.
  induction ms as [|m ms IH]; [reflexivity|].
  simpl. unfold measure_turn_log at 1.
  destruct (OverlayUIState_Create env MeasureTool m); simpl.
  - f_equal. exact IH.
  - exact IH.
Qed.

Lemma capture_threads_joinable (env : Env) (ms : list MonitorInfo) :
  Forall (fun t => joinable t = true)
    (omap (fun m => capture_thread_of m <$> OverlayUIState_Create env MeasureTool m) ms).
Proof.
  induction ms as [|m ms IH]; [constructor|].
  simpl. destruct (OverlayUIState_Create env MeasureTool m); simpl.
  - constructor; [reflexivity|exact IH].
  - exact IH.
Qed.

(** The teardown log of a state in which every listed thread is joinable. *)
Lemma ResetState_log_balance (c : Core) :
  Forall (fun t => joinable t = true) (_screenCaptureThreads c) ->
  omap joined (ResetState_log c) = map task (_screenCaptureThreads c) /\
  omap destroyed (ResetState_log c) = map overlayWindowHandle (_overlayUIStates c) /\
  omap started (ResetState_log c) = [] /\
  omap created (ResetState_log c) = [].
Proof.
  intros Hj. unfold ResetState_log. rewrite !omap_app, (filter_joinable_all _ Hj).
  repeat split.
  - rewrite (omap_map_None joined) by reflexivity. simpl. rewrite app_nil_r.
    induction (_screenCaptureThreads c) as [|t ts IH]; [reflexivity|].
    simpl. f_equal. apply IH. eapply Forall_inv_tail, Hj.
  - rewrite (omap_map_None destroyed (fun t => thread_joined (task t))) by reflexivity.
    simpl. rewrite app_nil_r.
    induction (_overlayUIStates c) as [|o os IH]; [reflexivity|].
    simpl. f_equal. exact IH.
  - rewrite !(omap_map_None started) by reflexivity. reflexivity.
  - rewrite !(omap_map_None created) by reflexivity. reflexivity.
Qed.

(** One call of the host keeps the session invariant and the books of the
    log: threads listed before or started during the call are joined during
    it or listed after it, and likewise for the windows of the surfaces. *)
Lemma invoke_session (env : Env) (call : Call) (c : Core) :
  session_invariant c ->
  exists c' log,
    invoke env call c = inr (tt, c', log) /\
    session_invariant c' /\
    map task (_screenCaptureThreads c) ++ omap started log
    = omap joined log ++ map task (_screenCaptureThreads c') /\
    map overlayWindowHandle (_overlayUIStates c) ++ omap created log
    = omap destroyed log ++ map overlayWindowHandle (_overlayUIStates c').
Proof.
  intros (Hm & Hs & Hj & Hp).
  destruct (ResetState_log_balance c Hj) as (HJ & HD & HS & HC).
  destruct call; cbn [invoke].
  - eexists _, _. split; [apply ResetState_eq|].
    split; [repeat split; cbn; auto|].
    rewrite HJ, HD, HS, HC. cbn. rewrite !app_nil_r. split; reflexivity.
  - eexists _, _. split; [apply StartBoundsTool_eq|].
    split; [repeat split; cbn; auto|].
    rewrite !omap_app, HJ, HD, HS, HC.
    rewrite (omap_map_None started), (omap_map_None joined), (omap_map_None destroyed)
      by reflexivity.
    rewrite created_bounds_log. cbn. rewrite !app_nil_r. split; reflexivity.
  - eexists _, _. split; [apply StartMeasureTool_eq|].
    split.
    { repeat split; cbn; auto using capture_threads_joinable.
      right. eapply Forall2_impl; [apply capture_threads_bound|].
      intros t o [_ [m [_ Ht]]]. exists m. exact Ht. }
    rewrite !omap_app, HJ, HD, HS, HC.
    rewrite started_measure_log, created_measure_log.
    rewrite (omap_flat_map_nil joined), (omap_flat_map_nil destroyed).
    + cbn. rewrite !app_nil_r. split; reflexivity.
    + intros m. unfold measure_turn_log.
      destruct (OverlayUIState_Create env MeasureTool m); reflexivity.
    + intros m. unfold measure_turn_log.
      destruct (OverlayUIState_Create env MeasureTool m); reflexivity.
  - eexists _, _. split; [reflexivity|].
    split; [repeat split; cbn; auto|].
    cbn. rewrite !app_nil_r. split; reflexivity.
  - eexists _, _. split; [reflexivity|].
    split; [repeat split; cbn; auto|].
    cbn. rewrite !app_nil_r. split; reflexivity.
  - unfold GetDPIScaleForWindow, bind, ret.
    destruct (DPIAware_GetScreenDPIForWindow env windowHandle (DEFAULT_DPI env)).
    eexists _, _. split; [reflexivity|].
    split; [repeat split; cbn; auto|].
    cbn. rewrite !app_nil_r. split; reflexivity.
Qed.

Lemma invoke_all_session (calls : list (Env * Call)) (c : Core) :
  session_invariant c ->
  exists c' log,
    invoke_all calls c = inr (tt, c', log) /\
    session_invariant c' /\
    map task (_screenCaptureThreads c) ++ omap started log
    = omap joined log ++ map task (_screenCaptureThreads c') /\
    map overlayWindowHandle (_overlayUIStates c) ++ omap created log
    = omap destroyed log ++ map overlayWindowHandle (_overlayUIStates c').
Proof.
  revert c. induction calls as [|[env call] calls IH]; intros c Hc.
  - exists c, []. split; [reflexivity|]. split; [exact Hc|].
    cbn. rewrite !app_nil_r. split; reflexivity.
  - destruct (invoke_session env call c Hc) as (c1 & l1 & Hrun & Hc1 & Ht1 & Hw1).
    destruct (IH c1 Hc1) as (c2 & l2 & Hrest & Hc2 & Ht2 & Hw2).
    exists c2, (l1 ++ l2). split.
    { unfold invoke_all in *. cbn [for_each].
      erewrite bind_inr by exact Hrun. rewrite Hrest. reflexivity. }
    split; [exact Hc2|].
    rewrite !omap_app. split.
    + rewrite app_assoc, Ht1, <- app_assoc, Ht2, app_assoc. reflexivity.
    + rewrite app_assoc, Hw1, <- app_assoc, Hw2, app_assoc. reflexivity.
Qed.

(** X3: whatever calls the host makes on a newly constructed orchestrator,
    in whatever environments, every call returns without a C++ fault; the
    poll thread is still running; every listed capture thread is running and
    (when there are any) bound to the window of the surface at its position;
    the listed threads are exactly the started ones not yet joined, and the
    listed surfaces exactly the created windows not yet destroyed. *)
Theorem session_invariant_reachable (default_settings : Settings.t)
    (calls : list (Env * Call)) :
  exists c log,
    invoke_all calls (fst (Core_ctor default_settings)) = inr (tt, c, log) /\
    session_invariant c /\
    omap started log = omap joined log ++ map task (_screenCaptureThreads c) /\
    omap created log = omap destroyed log ++ map overlayWindowHandle (_overlayUIStates c).
Proof.
  destruct (invoke_all_session calls (fst (Core_ctor default_settings)))
    as (c & log & Hrun & Hc & Ht & Hw).
  { repeat split; cbn; auto. }
  exists c, log. auto.
Qed.

(** X4: over the whole life of an orchestrator (construction, any calls of
    the host, destruction) nothing faults and nothing leaks: the threads
    joined are the threads started, the windows destroyed are the windows
    created, in the same order, and the orchestrator ends with no surface,
    no capture thread, the poll thread joined and the stop event set. *)
Theorem lifecycle_balanced (default_settings : Settings.t)
    (calls : list (Env * Call)) (env : Env) :
  exists c log,
    lifecycle default_settings calls env = inr (c, log) /\
    omap started log ≡ₚ omap joined log /\
    omap created log = omap destroyed log /\
    _overlayUIStates c = [] /\
    _screenCaptureThreads c = [] /\
    joinable (_mouseCaptureThread c) = false /\
    _stopMouseCaptureThreadSignal c = true.
Proof.
  destruct (invoke_all_session calls (fst (Core_ctor default_settings)))
    as (c1 & l1 & Hrun & (Hm & Hs & Hj & Hp) & Ht & Hw).
  { repeat split; cbn; auto. }
  cbn [app map fst Core_ctor _screenCaptureThreads _overlayUIStates] in Ht, Hw.
  destruct (ResetState_log_balance c1 Hj) as (HJ & HD & HS & HC).
  unfold lifecycle.
  erewrite bind_inr by exact Hrun.
  unfold Core_dtor.
  erewrite bind_inr by reflexivity.
  erewrite bind_inr by reflexivity.
  erewrite bind_inr by (unfold on_member, join; cbn; rewrite Hm; reflexivity).
  erewrite bind_inr by apply ResetState_eq.
  cbn [emit]. eexists _, _. split; [reflexivity|].
  change (ResetState_log (with_mouseCaptureThread _ _)) with (ResetState_log c1).
  cbn [task snd Core_ctor].
  repeat split.
  - rewrite !omap_app, Ht, HS, HJ. cbn. rewrite !app_nil_r.
    apply Permutation_middle.
  - rewrite !omap_app, Hw, HC, HD. cbn. rewrite !app_nil_r. reflexivity.
Qed.

Lemma invoke_frame (env : Env) (call : Call) (c : Core) :
  exists c' log,
    invoke env call c = inr (tt, c', log) /\
    cursorPosSystemSpace (_commonState c') = cursorPosSystemSpace (_commonState c) /\
    overlayBoxText (_commonState c') = overlayBoxText (_commonState c) /\
    (is_SetToolCompletionEvent call = false ->
     sessionCompletedCallback (_commonState c') = sessionCompletedCallback (_commonState c)) /\
    (is_SetToolbarBoundingBox call = false ->
     toolbarBoundingBox (_commonState c') = toolbarBoundingBox (_commonState c)).
Proof.
  destruct call; cbn [invoke].
  - eexists _, _. split; [apply ResetState_eq|]. repeat split.
  - eexists _, _. split; [apply StartBoundsTool_eq|]. repeat split.
  - eexists _, _. split; [apply StartMeasureTool_eq|]. repeat split.
  - eexists _, _. split; [reflexivity|]. repeat split. discriminate.
  - eexists _, _. split; [reflexivity|]. repeat split. discriminate.
  - unfold GetDPIScaleForWindow, bind, ret.
    destruct (DPIAware_GetScreenDPIForWindow env windowHandle (DEFAULT_DPI env)).
    eexists _, _. split; [reflexivity|]. repeat split.
Qed.

(** X5: whatever calls the host makes, from whatever state, they all return
    and none of them writes the cursor position or the readout text; the
    completion callback is as before unless [SetToolCompletionEvent] was
    among the calls, and the toolbar bounding box is as before unless
    [SetToolbarBoundingBox] was: both registrations outlive every reset and
    every start of a tool. *)
Theorem host_registrations_persist (calls : list (Env * Call)) (c : Core) :
  exists c' log,
    invoke_all calls c = inr (tt, c', log) /\
    cursorPosSystemSpace (_commonState c') = cursorPosSystemSpace (_commonState c) /\
    overlayBoxText (_commonState c') = overlayBoxText (_commonState c) /\
    (forallb (fun ec => negb (is_SetToolCompletionEvent (snd ec))) calls = true ->
     sessionCompletedCallback (_commonState c') = sessionCompletedCallback (_commonState c)) /\
    (forallb (fun ec => negb (is_SetToolbarBoundingBox (snd ec))) calls = true ->
     toolbarBoundingBox (_commonState c') = toolbarBoundingBox (_commonState c)).
Proof.
  revert c. induction calls as [|[env call] calls IH]; intros c.
  - exists c, []. repeat split.
  - destruct (invoke_frame env call c) as (c1 & l1 & Hrun & Hp1 & Ht1 & Hc1 & Hb1).
    destruct (IH c1) as (c2 & l2 & Hrest & Hp2 & Ht2 & Hc2 & Hb2).
    exists c2, (l1 ++ l2). split.
    { unfold invoke_all in *. cbn [for_each].
      erewrite bind_inr by exact Hrun. rewrite Hrest. reflexivity. }
    split; [congruence|]. split; [congruence|].
    cbn [forallb snd]. split; intros [H1 H2]%andb_prop; apply negb_true_iff in H1.
    + rewrite (Hc2 H2). exact (Hc1 H1).
    + rewrite (Hb2 H2). exact (Hb1 H1).
Qed.

(** X6: in the teardown of [ResetState] every overlay window is destroyed
    before any capture thread is joined, and the settings are loaded last,
    after all of them. *)
Theorem ResetState_teardown_order (env : Env) (c : Core) :
  exists c' log,
    ResetState env c = inr (tt, c', log) /\
    (forall i j w t,
       log !! i = Some (overlay_destroyed w) ->
       log !! j = Some (thread_joined t) ->
       (i < j)%nat) /\
    (forall i, log !! i = Some settings_loaded <-> S i = length log).
Proof.
  eexists _, _. split; [apply ResetState_eq|].
  unfold ResetState_log.
  set (ds := map (fun o => overlay_destroyed (overlayWindowHandle o)) (_overlayUIStates c)).
  set (js := map (fun t => thread_joined (task t))
               (filter (fun t => joinable t = true) (_screenCaptureThreads c))).
  assert (forall i e, ds !! i = Some e -> exists w, e = overlay_destroyed w) as Hds.
  { intros i e He. apply list_elem_of_lookup_2, list_elem_of_In, in_map_iff in He.
    destruct He as (o & <- & _). eauto. }
  assert (forall i e, js !! i = Some e -> exists t, e = thread_joined t) as Hjs.
  { intros i e He. apply list_elem_of_lookup_2, list_elem_of_In, in_map_iff in He.
    destruct He as (t & <- & _). eauto. }
  split.
  - intros i j w t Hi Hj.
    destruct (decide (i < length ds)%nat) as [Hlt|Hge].
    + destruct (decide (j < length ds)%nat) as [Hjlt|Hjge]; [|lia].
      rewrite lookup_app_l in Hj by exact Hjlt.
      destruct (Hds _ _ Hj) as [w' Hw']. discriminate Hw'.
    + rewrite lookup_app_r in Hi by lia.
      apply lookup_app_Some in Hi as [Hi|[_ Hi]].
      * destruct (Hjs _ _ Hi) as [t' Ht']. discriminate Ht'.
      * apply list_lookup_singleton_Some in Hi as [_ Hi]. discriminate Hi.
  - intros i. rewrite !length_app. cbn [length]. split.
    + intros Hi. apply lookup_app_Some in Hi as [Hi|[Hle Hi]].
      { destruct (Hds _ _ Hi) as [w Hw]. discriminate Hw. }
      apply lookup_app_Some in Hi as [Hi|[Hle' Hi]].
      { destruct (Hjs _ _ Hi) as [t Ht]. discriminate Ht. }
      apply list_lookup_singleton_Some in Hi as [Hi _]. lia.
    + intros Hi. rewrite lookup_app_r by lia. rewrite lookup_app_r by lia.
      replace (i - length ds - length js)%nat with 0%nat by lia. reflexivity.
Qed.

Lemma channel_byte_in_unit_interval (v : Z) :
  is_uint8 v ->
  in_unit_interval (Float32.div (Float32.of_Z v) (Float32.of_Z 255)) = true.
Proof.
  intros Hv.
  assert (forallb (fun v => in_unit_interval
                              (Float32.div (Float32.of_Z v) (Float32.of_Z 255)))
            (seqZ 0 256) = true) as Hall by (vm_compute; reflexivity).
  rewrite forallb_forall in Hall. apply Hall.
  apply list_elem_of_In, elem_of_seqZ. unfold is_uint8 in Hv. lia.
Qed.

(** X7: when the three components of the stroke color in the settings are
    bytes, the red, green and blue channels [ResetState] derives from them
    are binary32 numbers between 0 and 1; the byte 0 gives exactly 0 and the
    byte 255 exactly 1. *)
Theorem ResetState_lineColor_range (env : Env) (c : Core) :
  is_uint8 (Settings.lineColor_at 0 (Settings_LoadFromFile env)) ->
  is_uint8 (Settings.lineColor_at 1 (Settings_LoadFromFile env)) ->
  is_uint8 (Settings.lineColor_at 2 (Settings_LoadFromFile env)) ->
  exists c' log,
    ResetState env c = inr (tt, c', log) /\
    in_unit_interval (ColorF.r (lineColor (_commonState c'))) = true /\
    in_unit_interval (ColorF.g (lineColor (_commonState c'))) = true /\
    in_unit_interval (ColorF.b (lineColor (_commonState c'))) = true /\
    (Settings.lineColor (Settings_LoadFromFile env) = (0, 0, 0) ->
     ColorF.r (lineColor (_commonState c')) = S754_zero false /\
     ColorF.g (lineColor (_commonState c')) = S754_zero false /\
     ColorF.b (lineColor (_commonState c')) = S754_zero false) /\
    (Settings.lineColor (Settings_LoadFromFile env) = (255, 255, 255) ->
     ColorF.r (lineColor (_commonState c')) = Float32.one /\
     ColorF.g (lineColor (_commonState c')) = Float32.one /\
     ColorF.b (lineColor (_commonState c')) = Float32.one).
Proof.
  intros H0 H1 H2. eexists _, _. split; [apply ResetState_eq|].
  cbn [_commonState ResetState_result lineColor ColorF.r ColorF.g ColorF.b].
  unfold channel.
  repeat (split; [apply channel_byte_in_unit_interval; assumption|]).
  unfold Settings.lineColor_at. split; intros ->; repeat split.
Qed.

Lemma ResetState_lineColor_range_witness :
  (is_uint8 (Settings.lineColor_at 0 (Settings_LoadFromFile sample_env)) /\
   is_uint8 (Settings.lineColor_at 1 (Settings_LoadFromFile sample_env)) /\
   is_uint8 (Settings.lineColor_at 2 (Settings_LoadFromFile sample_env))) /\
  exists c' log,
    ResetState sample_env busy_core = inr (tt, c', log) /\
    in_unit_interval (ColorF.r (lineColor (_commonState c'))) = true /\
    in_unit_interval (ColorF.g (lineColor (_commonState c'))) = true /\
    in_unit_interval (ColorF.b (lineColor (_commonState c'))) = true /\
    (Settings.lineColor (Settings_LoadFromFile sample_env) = (0, 0, 0) ->
     ColorF.r (lineColor (_commonState c')) = S754_zero false /\
     ColorF.g (lineColor (_commonState c')) = S754_zero false /\
     ColorF.b (lineColor (_commonState c')) = S754_zero false) /\
    (Settings.lineColor (Settings_LoadFromFile sample_env) = (255, 255, 255) ->
     ColorF.r (lineColor (_commonState c')) = Float32.one /\
     ColorF.g (lineColor (_commonState c')) = Float32.one /\
     ColorF.b (lineColor (_commonState c')) = Float32.one).
Proof.
  split; [unfold is_uint8; cbn; lia|].
  apply (ResetState_lineColor_range sample_env busy_core); unfold is_uint8; cbn; lia.
Defined.

(** ** Further properties: the installer's custom actions *)

Import CustomAction.

Lemma wait_while_stop_pending_settles (statuses : list (option DWORD)) :
  stop_settles statuses = true ->
  exists l, wait_while_stop_pending statuses = Some l /\
            Forall (fun e => e = Sleep 1000) l.
Proof.
  induction statuses as [|[st|] statuses IH]; cbn; intros H.
  - discriminate H.
  - destruct (st =? SERVICE_STOP_PENDING); cbn in H.
    + destruct (IH H) as (l & -> & Hl). eexists. split; [reflexivity|].
      constructor; [reflexivity|exact Hl].
    + eexists. split; [reflexivity|constructor].
  - eexists. split; [reflexivity|constructor].
Qed.

Lemma omap_Forall_None {A B : Type} (f : A -> option B) (l : list A) :
  Forall (fun v => f v = None) l -> omap f l = [].
Proof.
  induction 1 as [|v l Hv _ IH]; [reflexivity|].
  simpl. rewrite Hv. exact IH.
Qed.

(** X8: when the polling of the service settles, [RemoveWindowsServiceByName]
    returns; on every path the handles it has opened are closed, each once,
    in the reverse order; deletion is attempted exactly when the service
    could be opened, also when the service could not be told to stop; and
    the result is [ERROR_SUCCESS] exactly when the manager and the service
    were opened and the deletion succeeded, [ERROR_INSTALL_FAILURE]
    otherwise. *)
Theorem RemoveWindowsServiceByName_handles (env : ServiceEnv) (serviceName : string) :
  stop_settles (sv_QueryServiceStatus env) = true ->
  exists res log,
    RemoveWindowsServiceByName env serviceName = Some (res, log) /\
    omap service_handle_closed log = rev (omap service_handle_opened log) /\
    omap service_deleted log
    = match sv_OpenSCManager env with
      | Some hSCManager =>
          match sv_OpenService env hSCManager serviceName with
          | Some hService => [hService]
          | None => []
          end
      | None => []
      end /\
    res = (if match sv_OpenSCManager env with
              | Some hSCManager =>
                  match sv_OpenService env hSCManager serviceName with
                  | Some hService => sv_DeleteService env hService
                  | None => false
                  end
              | None => false
              end
           then ERROR_SUCCESS else ERROR_INSTALL_FAILURE).
Proof.
  intros Hs. unfold RemoveWindowsServiceByName.
  destruct (sv_OpenSCManager env) as [hm|]; [|eexists _, _; repeat split].
  destruct (sv_OpenService env hm serviceName) as [hs|]; [|eexists _, _; repeat split].
  destruct (wait_while_stop_pending_settles _ Hs) as (l & Hl & Hsleep).
  assert (forall f : Effect -> option HANDLE, f (Sleep 1000) = None ->
          omap f l = []) as Hnone.
  { intros f Hf. apply omap_Forall_None.
    eapply Forall_impl; [exact Hsleep|]. intros e ->. exact Hf. }
  destruct (sv_ControlService env hs).
  - rewrite Hl. eexists _, _. split; [reflexivity|].
    rewrite !omap_app. cbn. rewrite !Hnone by reflexivity. repeat split.
  - eexists _, _. split; [reflexivity|]. repeat split.
Qed.

Lemma RemoveWindowsServiceByName_handles_witness :
  stop_settles (sv_QueryServiceStatus sample_service_env) = true /\
  exists res log,
    RemoveWindowsServiceByName sample_service_env "PowerToys.MWB.Service" = Some (res, log) /\
    omap service_handle_closed log = rev (omap service_handle_opened log) /\
    omap service_deleted log
    = match sv_OpenSCManager sample_service_env with
      | Some hSCManager =>
          match sv_OpenService sample_service_env hSCManager "PowerToys.MWB.Service" with
          | Some hService => [hService]
          | None => []
          end
      | None => []
      end /\
    res = (if match sv_OpenSCManager sample_service_env with
              | Some hSCManager =>
                  match sv_OpenService sample_service_env hSCManager
                          "PowerToys.MWB.Service" with
                  | Some hService => sv_DeleteService sample_service_env hService
                  | None => false
                  end
              | None => false
              end
           then ERROR_SUCCESS else ERROR_INSTALL_FAILURE).
Proof.
  split; [reflexivity|].
  apply (RemoveWindowsServiceByName_handles sample_service_env "PowerToys.MWB.Service").
  reflexivity.
Defined.

Lemma RemoveWindowsServiceByName_returns (env : ServiceEnv) (serviceName : string) :
  stop_settles (sv_QueryServiceStatus env) = true ->
  exists res log,
    RemoveWindowsServiceByName env serviceName = Some (res, log) /\
    (res = ERROR_SUCCESS \/ res = ERROR_INSTALL_FAILURE).
Proof.
  intros Hs. unfold RemoveWindowsServiceByName.
  destruct (sv_OpenSCManager env) as [hm|]; [|eexists _, _; split; [reflexivity|auto]].
  destruct (sv_OpenService env hm serviceName) as [hs|];
    [|eexists _, _; split; [reflexivity|auto]].
  destruct (wait_while_stop_pending_settles _ Hs) as (l & Hl & _). rewrite Hl.
  destruct (sv_ControlService env hs), (sv_DeleteService env hs);
    eexists _, _; split; try reflexivity; auto.
Qed.

(** X9: [UninstallServicesCA] reports what [WcaInitialize] reported and
    nothing else: once initialisation has succeeded it returns
    [WcaFinalize(ERROR_SUCCESS)] whether or not the service could be
    removed, since the 1603 of a failed removal is a succeeding [HRESULT];
    and it touches no service when initialisation fails. *)
Theorem UninstallServicesCA_result (env : ServiceEnv) :
  stop_settles (sv_QueryServiceStatus env) = true ->
  exists res log,
    RemoveWindowsServiceByName env "PowerToys.MWB.Service" = Some (res, log) /\
    UninstallServicesCA env
    = Some (Finalized (exit_code (sv_WcaInitialize env)),
            if SUCCEEDED (sv_WcaInitialize env) then log else []) /\
    (SUCCEEDED (sv_WcaInitialize env) = true ->
     UninstallServicesCA env = Some (Finalized ERROR_SUCCESS, log)).
Proof.
  intros Hs.
  destruct (RemoveWindowsServiceByName_returns env "PowerToys.MWB.Service" Hs)
    as (res & log & Hrun & Hres).
  exists res, log. split; [exact Hrun|].
  unfold UninstallServicesCA. rewrite Hrun.
  assert (exit_code (static_cast_long res) = ERROR_SUCCESS) as Hok.
  { destruct Hres as [->| ->]; reflexivity. }
  destruct (SUCCEEDED (sv_WcaInitialize env)) eqn:Hinit; cbn [negb].
  - rewrite Hok. unfold exit_code. rewrite Hinit. split; [reflexivity|]. reflexivity.
  - split; [reflexivity|]. discriminate.
Qed.

Lemma UninstallServicesCA_result_witness :
  stop_settles (sv_QueryServiceStatus sample_service_env) = true /\
  exists res log,
    RemoveWindowsServiceByName sample_service_env "PowerToys.MWB.Service" = Some (res, log) /\
    UninstallServicesCA sample_service_env
    = Some (Finalized (exit_code (sv_WcaInitialize sample_service_env)),
            if SUCCEEDED (sv_WcaInitialize sample_service_env) then log else []) /\
    (SUCCEEDED (sv_WcaInitialize sample_service_env) = true ->
     UninstallServicesCA sample_service_env = Some (Finalized ERROR_SUCCESS, log)).
Proof.
  split; [reflexivity|].
  apply (UninstallServicesCA_result sample_service_env). reflexivity.
Defined.

(** The removal fails with 1603 and the custom action succeeds. *)
Example UninstallServicesCA_failed_removal :
  fst <$> RemoveWindowsServiceByName sample_service_env "PowerToys.MWB.Service"
  = Some ERROR_INSTALL_FAILURE /\
  fst <$> UninstallServicesCA sample_service_env = Some (Finalized ERROR_SUCCESS).
Proof. split; reflexivity. Qed.

Lemma EnumWindows_close_windows_of (env : ProcessEnv) (procID : DWORD) :
  omap window_closed (EnumWindows_close (pr_windows env) procID) = windows_of env procID /\
  omap process_opened (EnumWindows_close (pr_windows env) procID) = [] /\
  omap process_closed (EnumWindows_close (pr_windows env) procID) = [] /\
  omap process_terminated (EnumWindows_close (pr_windows env) procID) = [].
Proof.
  unfold windows_of.
  induction (pr_windows env) as [|[hwnd p] ws (IH1 & IH2 & IH3 & IH4)]; [repeat split|].
  cbn [EnumWindows_close]. destruct (Z.eqb_spec p procID) as [->|Hne].
  - rewrite filter_cons_True by reflexivity. cbn. rewrite IH1. repeat split; assumption.
  - rewrite filter_cons_False by exact Hne. repeat split; assumption.
Qed.

(** The loop over the names, said with membership. *)
Lemma terminate_if_listed_elem_of (env : ProcessEnv) (procID : DWORD) (hProcess : HANDLE)
    (processName : string) (names : list string) :
  terminate_if_listed env procID hProcess processName names
  = if bool_decide (processName ∈ names)
    then EnumWindows_close (pr_windows env) procID ++ [Sleep 500; TerminateProcess hProcess]
    else [].
Proof.
  induction names as [|n names IH]; [reflexivity|].
  cbn [terminate_if_listed]. destruct (String.eqb_spec processName n) as [->|Hne].
  - rewrite bool_decide_eq_true_2 by apply list_elem_of_here. reflexivity.
  - rewrite IH. destruct (bool_decide (processName ∈ names)) eqn:Hin.
    + apply bool_decide_eq_true_1 in Hin.
      rewrite bool_decide_eq_true_2 by (apply list_elem_of_further; exact Hin). reflexivity.
    + apply bool_decide_eq_false_1 in Hin.
      rewrite bool_decide_eq_false_2; [reflexivity|].
      intros [?|?]%elem_of_cons; contradiction.
Qed.

Lemma visit_process_log (env : ProcessEnv) (procID : DWORD) :
  omap process_opened (visit_process env procID)
  = omap process_closed (visit_process env procID) /\
  omap process_terminated (visit_process env procID)
  = option_list (to_terminate env procID) /\
  omap window_closed (visit_process env procID)
  = match to_terminate env procID with
    | Some _ => windows_of env procID
    | None => []
    end.
Proof.
  unfold visit_process, to_terminate.
  destruct (procID =? 0); [repeat split|].
  destruct (pr_OpenProcess env procID) as [h|]; [|repeat split].
  destruct (pr_EnumProcessModules env h); cbn [negb andb]; [|repeat split].
  rewrite terminate_if_listed_elem_of.
  destruct (EnumWindows_close_windows_of env procID) as (Hw & Ho & Hc & Ht).
  destruct (bool_decide _).
  - change (Process_opened procID h :: ?l) with ([Process_opened procID h] ++ l).
    rewrite !omap_app, Ho, Hc, Ht, Hw.
    repeat split; cbn; rewrite ?app_nil_r; reflexivity.
  - repeat split.
Qed.

(** X10: [TerminateProcessesCA] closes every process handle it opens, once
    each and in the order of opening, whichever way the visit of a process
    ends; when [EnumProcesses] fails it returns 1 at once, opening nothing;
    otherwise its result is that of [WcaInitialize], whatever was or was not
    terminated. *)
Theorem TerminateProcessesCA_handles (env : ProcessEnv) :
  omap process_opened (snd (TerminateProcessesCA env))
  = omap process_closed (snd (TerminateProcessesCA env)) /\
  fst (TerminateProcessesCA env)
  = match pr_EnumProcesses env with
    | None => Plain 1
    | Some _ => Finalized (exit_code (pr_WcaInitialize env))
    end /\
  (pr_EnumProcesses env = None -> snd (TerminateProcessesCA env) = []).
Proof.
  unfold TerminateProcessesCA.
  destruct (pr_EnumProcesses env) as [processes|]; [|repeat split].
  cbn [fst snd]. split; [|split; [reflexivity|discriminate]].
  induction processes as [|p ps IH]; [reflexivity|].
  cbn [flat_map]. rewrite !omap_app, IH.
  destruct (visit_process_log env p) as (-> & _). reflexivity.
Qed.

(** X11: the processes [TerminateProcessesCA] terminates are exactly those
    of the enumeration that have a non-zero identifier, could be opened,
    have a readable first module and a base name equal to one of the 27
    names, each once per occurrence and in order; and [WM_CLOSE] goes to
    the windows of exactly these processes and to no other window. *)
Theorem TerminateProcessesCA_terminates (env : ProcessEnv) (processes : list DWORD) :
  pr_EnumProcesses env = Some processes ->
  omap process_terminated (snd (TerminateProcessesCA env))
  = omap (to_terminate env) processes /\
  omap window_closed (snd (TerminateProcessesCA env))
  = flat_map (fun procID => match to_terminate env procID with
                            | Some _ => windows_of env procID
                            | None => []
                            end) processes.
Proof.
  intros Hp. unfold TerminateProcessesCA. rewrite Hp. cbn [snd]. clear Hp.
  induction processes as [|p ps [IH1 IH2]]; [split; reflexivity|].
  cbn [flat_map]. rewrite !omap_app, IH1, IH2.
  destruct (visit_process_log env p) as (_ & -> & ->).
  split; [|reflexivity].
  simpl. destruct (to_terminate env p); reflexivity.
Qed.

Lemma TerminateProcessesCA_terminates_witness :
  pr_EnumProcesses sample_process_env = Some [0; 8; 12; 16; 20] /\
  omap process_terminated (snd (TerminateProcessesCA sample_process_env))
  = omap (to_terminate sample_process_env) [0; 8; 12; 16; 20] /\
  omap window_closed (snd (TerminateProcessesCA sample_process_env))
  = flat_map (fun procID => match to_terminate sample_process_env procID with
                            | Some _ => windows_of sample_process_env procID
                            | None => []
                            end) [0; 8; 12; 16; 20].
Proof.
  split; [reflexivity|].
  apply (TerminateProcessesCA_terminates sample_process_env [0; 8; 12; 16; 20]).
  reflexivity.
Defined.

(** Of five processes only the runner is terminated, after its two windows
    were asked to close; all three opened handles are closed. *)
Example TerminateProcessesCA_sample :
  TerminateProcessesCA sample_process_env
  = (Finalized ERROR_SUCCESS,
     [Process_opened 12 1012; WM_CLOSE_sent 501; WM_CLOSE_sent 503; Sleep 500;
      TerminateProcess 1012; CloseHandle 1012;
      Process_opened 16 1016; CloseHandle 1016;
      Process_opened 20 1020; CloseHandle 1020]).
Proof. reflexivity. Qed.

Lemma SUCCEEDED_static_cast_long (e : Z) :
  is_uint32 e -> SUCCEEDED (static_cast_long e) = bool_decide (e < 2 ^ 31).
Proof.
  intros He. destruct (static_cast_long_stored e He) as (_ & _ & _ & Hlo & Hhi).
  unfold SUCCEEDED. unfold is_uint32 in He.
  destruct (decide (e < 2 ^ 31)) as [Hlt|Hge].
  - rewrite bool_decide_eq_true_2 by exact Hlt. rewrite (Hlo Hlt). apply Z.leb_le. lia.
  - rewrite bool_decide_eq_false_2 by exact Hge. rewrite Hhi by lia. apply Z.leb_gt. lia.
Qed.

(** X12: [InstallVirtualCameraDriverCA] takes the last error code as its
    [HRESULT]: once initialisation and the property have succeeded, it
    reports success exactly when that code is below 2^31, so a plain Win32
    code such as 5 (access denied) counts as success and only codes with the
    top bit set fail; the warning is shown exactly when it reports failure,
    and the driver installer is called exactly when both first steps
    succeeded. *)
Theorem InstallVirtualCameraDriverCA_result (env : DriverEnv) :
  is_uint32 (dr_GetLastError env) ->
  fst (InstallVirtualCameraDriverCA env)
  = Finalized (if SUCCEEDED (dr_WcaInitialize env) && SUCCEEDED (dr_WcaGetProperty env)
                  && bool_decide (dr_GetLastError env < 2 ^ 31)
               then ERROR_SUCCESS else ERROR_INSTALL_FAILURE) /\
  omap message_shown (snd (InstallVirtualCameraDriverCA env))
  = (if SUCCEEDED (dr_WcaInitialize env) && SUCCEEDED (dr_WcaGetProperty env)
        && bool_decide (dr_GetLastError env < 2 ^ 31)
     then []
     else [(INSTALLMESSAGE_WARNING, "Failed to install virtual camera driver")]) /\
  (DiInstallDriverW ∈ snd (InstallVirtualCameraDriverCA env) <->
   SUCCEEDED (dr_WcaInitialize env) && SUCCEEDED (dr_WcaGetProperty env) = true).
Proof.
  intros He. pose proof (SUCCEEDED_static_cast_long _ He) as Hc.
  assert (forall l : list Effect, DiInstallDriverW ∈ [DiInstallDriverW] ++ l) as Hin
    by (intros l; apply list_elem_of_here).
  assert (forall t, ~ DiInstallDriverW ∈ [MsiProcessMessage INSTALLMESSAGE_WARNING t])
    as Hout.
  { intros t H%list_elem_of_In. destruct H as [H|[]]. discriminate H. }
  unfold InstallVirtualCameraDriverCA, exit_code. cbv zeta.
  destruct (SUCCEEDED (dr_WcaInitialize env)) eqn:Hi; cbn [negb andb fst snd].
  - destruct (SUCCEEDED (dr_WcaGetProperty env)) eqn:Hp; cbn [negb andb fst snd].
    + rewrite Hc. destruct (bool_decide _); cbn [negb];
        (split; [reflexivity|split; [reflexivity|split; [reflexivity|intros _; apply Hin]]]).
    + cbn [app]. split; [reflexivity|]. split; [reflexivity|].
      split; [intros H; destruct (Hout _ H)|discriminate].
  - cbn [app]. split; [reflexivity|]. split; [reflexivity|].
    split; [intros H; destruct (Hout _ H)|discriminate].
Qed.

Lemma InstallVirtualCameraDriverCA_result_witness :
  is_uint32 (dr_GetLastError sample_driver_env) /\
  fst (InstallVirtualCameraDriverCA sample_driver_env)
  = Finalized (if SUCCEEDED (dr_WcaInitialize sample_driver_env)
                  && SUCCEEDED (dr_WcaGetProperty sample_driver_env)
                  && bool_decide (dr_GetLastError sample_driver_env < 2 ^ 31)
               then ERROR_SUCCESS else ERROR_INSTALL_FAILURE) /\
  omap message_shown (snd (InstallVirtualCameraDriverCA sample_driver_env))
  = (if SUCCEEDED (dr_WcaInitialize sample_driver_env)
        && SUCCEEDED (dr_WcaGetProperty sample_driver_env)
        && bool_decide (dr_GetLastError sample_driver_env < 2 ^ 31)
     then []
     else [(INSTALLMESSAGE_WARNING, "Failed to install virtual camera driver")]) /\
  (DiInstallDriverW ∈ snd (InstallVirtualCameraDriverCA sample_driver_env) <->
   SUCCEEDED (dr_WcaInitialize sample_driver_env)
   && SUCCEEDED (dr_WcaGetProperty sample_driver_env) = true).
Proof.
  split; [unfold is_uint32, sample_driver_env, ERROR_ACCESS_DENIED; cbn; lia|].
  apply (InstallVirtualCameraDriverCA_result sample_driver_env).
  unfold is_uint32, sample_driver_env, ERROR_ACCESS_DENIED; cbn; lia.
Defined.

(** Access denied is reported as success, without a warning. *)
Example InstallVirtualCameraDriverCA_access_denied :
  InstallVirtualCameraDriverCA sample_driver_env
  = (Finalized ERROR_SUCCESS, [DiInstallDriverW]).
Proof. reflexivity. Qed.

(** X13: once initialisation and the property have succeeded,
    [UninstallVirtualCameraDriverCA] reports failure for one last error
    code only, [ERROR_IN_WOW64]: of the four codes its [switch] singles out,
    access denied, file not found and invalid flags are positive and so
    succeed as [HRESULT]s, as does every code the [switch] lets pass. *)
Theorem UninstallVirtualCameraDriverCA_result (env : DriverEnv) :
  fst (UninstallVirtualCameraDriverCA env)
  = Finalized (if SUCCEEDED (dr_WcaInitialize env) && SUCCEEDED (dr_WcaGetProperty env)
                  && negb (dr_GetLastError env =? ERROR_IN_WOW64)
               then ERROR_SUCCESS else ERROR_INSTALL_FAILURE) /\
  omap message_shown (snd (UninstallVirtualCameraDriverCA env))
  = (if SUCCEEDED (dr_WcaInitialize env) && SUCCEEDED (dr_WcaGetProperty env)
        && negb (dr_GetLastError env =? ERROR_IN_WOW64)
     then []
     else [(INSTALLMESSAGE_WARNING, "Failed to uninstall virtual camera driver")]).
Proof.
  unfold UninstallVirtualCameraDriverCA, exit_code. cbv zeta.
  destruct (SUCCEEDED (dr_WcaInitialize env)) eqn:Hi; cbn [negb andb fst snd];
    [|split; reflexivity].
  destruct (SUCCEEDED (dr_WcaGetProperty env)) eqn:Hp; cbn [negb andb fst snd];
    [|split; reflexivity].
  destruct (Z.eqb_spec (dr_GetLastError env) ERROR_ACCESS_DENIED) as [->|H1];
    [split; reflexivity|].
  destruct (Z.eqb_spec (dr_GetLastError env) ERROR_FILE_NOT_FOUND) as [->|H2];
    [split; reflexivity|].
  destruct (Z.eqb_spec (dr_GetLastError env) ERROR_INVALID_FLAGS) as [->|H3];
    [split; reflexivity|].
  destruct (Z.eqb_spec (dr_GetLastError env) ERROR_IN_WOW64) as [->|H4];
    [split; reflexivity|].
  cbn [orb negb fst snd]. split; reflexivity.
Qed.

(** X14: with a scope property that is not null, [CheckGPOCA] shows the
    error message exactly when initialisation succeeded, the scope is
    [perUser] and the policy value is the enabled one, and then fails the
    installation; otherwise it shows nothing and reports the result of
    initialisation or, after it, that of reading the property. *)
Theorem CheckGPOCA_result (env : GpoEnv) (hr : HRESULT) (scope : string) :
  gp_WcaGetProperty env = (hr, Some scope) ->
  CheckGPOCA env
  = Some (if SUCCEEDED (gp_WcaInitialize env)
             && bool_decide (scope = "perUser")
             && bool_decide (gp_getDisablePerUserInstallationValue env
                             = gp_rule_configured_enabled env)
          then (Finalized ERROR_INSTALL_FAILURE,
                [MsiProcessMessage INSTALLMESSAGE_ERROR
                   "The system administrator has disabled per-user installation."])
          else (Finalized (if SUCCEEDED (gp_WcaInitialize env) && SUCCEEDED hr
                           then ERROR_SUCCESS else ERROR_INSTALL_FAILURE), [])).
Proof.
  intros Hp. unfold CheckGPOCA, exit_code. rewrite Hp.
  destruct (SUCCEEDED (gp_WcaInitialize env)) eqn:Hi; cbn [negb andb];
    [|reflexivity].
  destruct (String.eqb_spec scope "perUser") as [->|Hne].
  - rewrite bool_decide_eq_true_2 by reflexivity. cbn [andb].
    destruct (Z.eqb_spec (gp_getDisablePerUserInstallationValue env)
                (gp_rule_configured_enabled env)) as [He|He].
    + rewrite bool_decide_eq_true_2 by exact He. reflexivity.
    + rewrite bool_decide_eq_false_2 by exact He. reflexivity.
  - rewrite bool_decide_eq_false_2 by exact Hne. reflexivity.
Qed.

Lemma CheckGPOCA_result_witness :
  gp_WcaGetProperty sample_gpo_env = (S_OK, Some "perUser") /\
  CheckGPOCA sample_gpo_env
  = Some (if SUCCEEDED (gp_WcaInitialize sample_gpo_env)
             && bool_decide ("perUser" = "perUser")
             && bool_decide (gp_getDisablePerUserInstallationValue sample_gpo_env
                             = gp_rule_configured_enabled sample_gpo_env)
          then (Finalized ERROR_INSTALL_FAILURE,
                [MsiProcessMessage INSTALLMESSAGE_ERROR
                   "The system administrator has disabled per-user installation."])
          else (Finalized (if SUCCEEDED (gp_WcaInitialize sample_gpo_env) && SUCCEEDED S_OK
                           then ERROR_SUCCESS else ERROR_INSTALL_FAILURE), [])).
Proof.
  split; [reflexivity|].
  apply (CheckGPOCA_result sample_gpo_env S_OK "perUser"). reflexivity.
Defined.

Lemma delete_tasks_log (env : TaskEnv) (indices : list Z) (hr : HRESULT) :
  omap acquired (snd (delete_tasks env indices hr))
  = omap released (snd (delete_tasks env indices hr)) /\
  omap allocated (snd (delete_tasks env indices hr))
  = omap freed (snd (delete_tasks env indices hr)) /\
  omap folder_deleted (snd (delete_tasks env indices hr)) = [] /\
  omap message_shown (snd (delete_tasks env indices hr)) = [] /\
  omap task_deleted (snd (delete_tasks env indices hr))
  = filter (fun i => SUCCEEDED (ts_get_Item env (i + 1))
                     && SUCCEEDED (fst (ts_get_Name env i)) = true) indices.
Proof.
  revert hr. induction indices as [|i indices IH]; intros hr; [repeat split|].
  cbn [delete_tasks].
  destruct (SUCCEEDED (ts_get_Item env (i + 1))) eqn:Hitem.
  - destruct (ts_get_Name env i) as [hrn taskName] eqn:Hname. cbn [fst].
    destruct (SUCCEEDED hrn) eqn:Hn.
    + destruct (IH (ts_DeleteTask env i taskName)) as (IH1 & IH2 & IH3 & IH4 & IH5).
      destruct (delete_tasks env indices (ts_DeleteTask env i taskName)) as [hr' l'].
      cbn [snd] in *.
      rewrite filter_cons_True by (rewrite Hitem, Hname; exact Hn).
      rewrite !omap_app, IH1, IH2, IH3, IH4, IH5.
      destruct (SUCCEEDED (ts_DeleteTask env i taskName)); repeat split.
    + destruct (IH hrn) as (IH1 & IH2 & IH3 & IH4 & IH5).
      destruct (delete_tasks env indices hrn) as [hr' l'].
      cbn [snd] in *.
      rewrite filter_cons_False by (rewrite Hitem, Hname; cbn; rewrite Hn; discriminate).
      rewrite !omap_app, IH1, IH2, IH3, IH4, IH5. repeat split.
  - destruct (IH (ts_get_Item env (i + 1))) as (IH1 & IH2 & IH3 & IH4 & IH5).
    destruct (delete_tasks env indices (ts_get_Item env (i + 1))) as [hr' l'].
    cbn [snd] in *.
    rewrite filter_cons_False by (rewrite Hitem; discriminate).
    rewrite !omap_app, IH1, IH2, IH3, IH4, IH5. repeat split.
Qed.

(** X15: on every path through [RemoveScheduledTasksCA] the COM interfaces
    that were acquired are the ones that are released, each as often as it
    was acquired, and every task name that was allocated is freed. *)
Theorem RemoveScheduledTasksCA_releases (env : TaskEnv) :
  omap acquired (snd (RemoveScheduledTasksCA env))
  ≡ₚ omap released (snd (RemoveScheduledTasksCA env)) /\
  omap allocated (snd (RemoveScheduledTasksCA env))
  = omap freed (snd (RemoveScheduledTasksCA env)).
Proof.
  unfold RemoveScheduledTasksCA. cbv zeta.
  destruct (SUCCEEDED (ts_WcaInitialize env)); cbn [negb]; [|split; reflexivity].
  destruct (SUCCEEDED (ts_CoCreateInstance env)); cbn [negb]; [|split; reflexivity].
  destruct (SUCCEEDED (ts_Connect env)); cbn [negb]; [|split; reflexivity].
  destruct (SUCCEEDED (ts_GetFolder_PowerToys env)); cbn [negb]; [|split; reflexivity].
  destruct (SUCCEEDED (ts_GetTasks env)); cbn [negb]; [|split; reflexivity].
  destruct (ts_get_Count env) as [hrc numTasks].
  destruct (delete_tasks_log env (seqZ 0 numTasks) hrc) as (Ha & Hb & _).
  destruct (delete_tasks env (seqZ 0 numTasks) hrc) as [hrl deleted]. cbn [snd] in Ha, Hb.
  assert (forall l : list ComObject,
            pService :: pTaskFolder :: pTaskCollection :: l
            ≡ₚ l ++ [pService; pTaskFolder; pTaskCollection]) as Hperm.
  { intros l. change (pService :: pTaskFolder :: pTaskCollection :: l)
      with ([pService; pTaskFolder; pTaskCollection] ++ l).
    apply Permutation_app_comm. }
  destruct (SUCCEEDED (ts_GetFolder_root env)); cbn [negb].
  - destruct (SUCCEEDED (ts_DeleteFolder env)); cbn [negb snd];
      rewrite !omap_app, Ha, Hb; cbn; rewrite ?app_nil_r;
      (split; [|reflexivity]);
      (etransitivity; [apply Hperm|]); rewrite <- ?app_assoc; reflexivity.
  - cbn [snd]. rewrite !omap_app, Ha, Hb. cbn. rewrite ?app_nil_r.
    split; [apply Hperm|reflexivity].
Qed.

(** X16: [RemoveScheduledTasksCA] succeeds exactly when initialisation, the
    creation of the task service and the connection succeed and then either
    the PowerToys folder is not found, or listing its tasks, getting the
    root folder and deleting the folder all succeed; what happens to the
    single tasks plays no part in the result; and the warning is shown
    exactly when the result is a failure. *)
Theorem RemoveScheduledTasksCA_result (env : TaskEnv) :
  fst (RemoveScheduledTasksCA env)
  = Finalized
      (if SUCCEEDED (ts_WcaInitialize env) && SUCCEEDED (ts_CoCreateInstance env)
          && SUCCEEDED (ts_Connect env)
          && (negb (SUCCEEDED (ts_GetFolder_PowerToys env))
              || SUCCEEDED (ts_GetTasks env) && SUCCEEDED (ts_GetFolder_root env)
                 && SUCCEEDED (ts_DeleteFolder env))
       then ERROR_SUCCESS else ERROR_INSTALL_FAILURE) /\
  length (omap message_shown (snd (RemoveScheduledTasksCA env)))
  = (if SUCCEEDED (ts_WcaInitialize env) && SUCCEEDED (ts_CoCreateInstance env)
        && SUCCEEDED (ts_Connect env)
        && (negb (SUCCEEDED (ts_GetFolder_PowerToys env))
            || SUCCEEDED (ts_GetTasks env) && SUCCEEDED (ts_GetFolder_root env)
               && SUCCEEDED (ts_DeleteFolder env))
     then 0%nat else 1%nat).
Proof.
  unfold RemoveScheduledTasksCA, exit_code. cbv zeta.
  destruct (SUCCEEDED (ts_WcaInitialize env)); cbn [negb andb orb]; [|split; reflexivity].
  destruct (SUCCEEDED (ts_CoCreateInstance env)); cbn [negb andb orb]; [|split; reflexivity].
  destruct (SUCCEEDED (ts_Connect env)); cbn [negb andb orb]; [|split; reflexivity].
  destruct (SUCCEEDED (ts_GetFolder_PowerToys env)); cbn [negb andb orb];
    [|split; reflexivity].
  destruct (SUCCEEDED (ts_GetTasks env)); cbn [negb andb orb]; [|split; reflexivity].
  destruct (ts_get_Count env) as [hrc numTasks].
  destruct (delete_tasks_log env (seqZ 0 numTasks) hrc) as (_ & _ & _ & Hm & _).
  destruct (delete_tasks env (seqZ 0 numTasks) hrc) as [hrl deleted]. cbn [snd] in Hm.
  destruct (SUCCEEDED (ts_GetFolder_root env)); cbn [negb andb orb].
  - destruct (SUCCEEDED (ts_DeleteFolder env)); cbn [negb fst snd];
      (split; [reflexivity|]); rewrite !omap_app, Hm; reflexivity.
  - cbn [fst snd]. split; [reflexivity|]. rewrite !omap_app, Hm. reflexivity.
Qed.

(** X17: once the tasks of the folder are listed, every index below the
    count is visited, and [DeleteTask] is attempted for each task whose item
    and name could be read, whether or not an earlier task failed to be
    read or deleted; the deletion of the folder is then attempted exactly
    when the root folder could be got, whatever happened to the tasks. *)
Theorem RemoveScheduledTasksCA_visits_all (env : TaskEnv) :
  SUCCEEDED (ts_WcaInitialize env) = true ->
  SUCCEEDED (ts_CoCreateInstance env) = true ->
  SUCCEEDED (ts_Connect env) = true ->
  SUCCEEDED (ts_GetFolder_PowerToys env) = true ->
  SUCCEEDED (ts_GetTasks env) = true ->
  omap task_deleted (snd (RemoveScheduledTasksCA env))
  = filter (fun i => SUCCEEDED (ts_get_Item env (i + 1))
                     && SUCCEEDED (fst (ts_get_Name env i)) = true)
      (seqZ 0 (snd (ts_get_Count env))) /\
  omap folder_deleted (snd (RemoveScheduledTasksCA env))
  = (if SUCCEEDED (ts_GetFolder_root env) then [tt] else []).
Proof.
  intros H1 H2 H3 H4 H5.
  unfold RemoveScheduledTasksCA. cbv zeta. rewrite H1, H2, H3, H4, H5. cbn [negb].
  destruct (ts_get_Count env) as [hrc numTasks]. cbn [snd].
  destruct (delete_tasks_log env (seqZ 0 numTasks) hrc) as (_ & _ & Hf & _ & Ht).
  destruct (delete_tasks env (seqZ 0 numTasks) hrc) as [hrl deleted]. cbn [snd] in Hf, Ht.
  destruct (SUCCEEDED (ts_GetFolder_root env)); cbn [negb].
  - destruct (SUCCEEDED (ts_DeleteFolder env)); cbn [negb snd];
      rewrite !omap_app, Hf, Ht; rewrite !(omap_map_None _ com_released) by reflexivity;
      cbn; rewrite ?app_nil_r; split; reflexivity.
  - cbn [snd]. rewrite !omap_app, Hf, Ht.
    rewrite !(omap_map_None _ com_released) by reflexivity.
    cbn. rewrite ?app_nil_r. split; reflexivity.
Qed.

Lemma RemoveScheduledTasksCA_visits_all_witness :
  (SUCCEEDED (ts_WcaInitialize sample_task_env) = true /\
   SUCCEEDED (ts_CoCreateInstance sample_task_env) = true /\
   SUCCEEDED (ts_Connect sample_task_env) = true /\
   SUCCEEDED (ts_GetFolder_PowerToys sample_task_env) = true /\
   SUCCEEDED (ts_GetTasks sample_task_env) = true) /\
  omap task_deleted (snd (RemoveScheduledTasksCA sample_task_env))
  = filter (fun i => SUCCEEDED (ts_get_Item sample_task_env (i + 1))
                     && SUCCEEDED (fst (ts_get_Name sample_task_env i)) = true)
      (seqZ 0 (snd (ts_get_Count sample_task_env))) /\
  omap folder_deleted (snd (RemoveScheduledTasksCA sample_task_env))
  = (if SUCCEEDED (ts_GetFolder_root sample_task_env) then [tt] else []).
Proof.
  split; [repeat split|].
  apply (RemoveScheduledTasksCA_visits_all sample_task_env); reflexivity.
Defined.

(** Three tasks, of which the second has no name and the third resists:
    the folder is deleted and the action succeeds. *)
Example RemoveScheduledTasksCA_sample :
  fst (RemoveScheduledTasksCA sample_task_env) = Finalized ERROR_SUCCESS /\
  omap task_deleted (snd (RemoveScheduledTasksCA sample_task_env)) = [0; 2] /\
  omap folder_deleted (snd (RemoveScheduledTasksCA sample_task_env)) = [tt].
Proof. repeat split. Qed.

Lemma ExitWithLastError_fails (lastError : DWORD) :
  SUCCEEDED (ExitWithLastError lastError) = false.
Proof.
  unfold ExitWithLastError.
  destruct (SUCCEEDED (HRESULT_FROM_WIN32 lastError)) eqn:H; [reflexivity|exact H].
Qed.

(** A step of [CreateScheduledTaskCA_task]: [checked] when its failure
    leads to [LExit], where [task_exit] closes the case. *)
Ltac task_exit :=
  cbn [fst snd andb negb]; rewrite <- ?app_assoc;
  eexists; split; [reflexivity|]; split; [cbn; solve_Permutation|];
  split; reflexivity.
Ltac checked f env :=
  destruct (SUCCEEDED (f env)); cbn [negb andb]; [|task_exit].
Ltac unchecked f env :=
  destruct (SUCCEEDED (f env)); cbn [negb andb].

(** The part of [CreateScheduledTaskCA] from the task folder on: it extends
    the log, releases what it acquires and the two pointers it is entered
    with, and succeeds exactly when all its checked steps do. *)
Lemma CreateScheduledTaskCA_task_log (env : CreateTaskEnv)
    (wstrTaskName username_domain : string) (l : list Effect) :
  exists extra,
    snd (CreateScheduledTaskCA_task env wstrTaskName username_domain l) = l ++ extra /\
    omap acquired extra ++ [pService; pTaskFolder] ≡ₚ omap released extra /\
    fst (CreateScheduledTaskCA_task env wstrTaskName username_domain l)
    = Finalized (if forallb SUCCEEDED (task_steps env)
                 then ERROR_SUCCESS else ERROR_INSTALL_FAILURE) /\
    length (omap message_shown extra)
    = (if forallb SUCCEEDED (task_steps env) then 0%nat else 1%nat).
Proof.
  unfold CreateScheduledTaskCA_task, CreateScheduledTaskCA_LExit, task_steps, logged,
    exit_code.
  cbv zeta. cbn [forallb].
  checked ct_NewTask env.
  checked ct_get_RegistrationInfo env.
  checked ct_put_Author env.
  checked ct_get_Settings env.
  checked ct_put_StartWhenAvailable env.
  checked ct_put_StopIfGoingOnBatteries env.
  checked ct_put_ExecutionTimeLimit env.
  checked ct_put_DisallowStartIfOnBatteries env.
  checked ct_put_Priority env.
  checked ct_get_Triggers env.
  checked ct_Triggers_Create env.
  checked ct_QueryInterface_ILogonTrigger env.
  unchecked ct_trigger_put_Id env;
  unchecked ct_trigger_put_Delay env;
  (checked ct_trigger_put_UserId env;
   checked ct_get_Actions env;
   checked ct_Actions_Create env;
   checked ct_QueryInterface_IExecAction env;
   checked ct_put_Path env;
   checked ct_get_Principal env;
   unchecked ct_principal_put_Id env;
   unchecked ct_principal_put_UserId env;
   unchecked ct_put_LogonType env;
   (checked ct_put_RunLevel env;
    checked ct_RegisterTaskDefinition env;
    task_exit)).
Qed.

(** An exit of [CreateScheduledTaskCA] before the task folder is held. *)
Ltac early_exit :=
  eexists _, _; split; [reflexivity|];
  rewrite ?ExitWithLastError_fails; cbn; repeat split;
  first [reflexivity | solve_Permutation].

Lemma names_fit_checks (env : CreateTaskEnv) :
  names_fit env = true ->
  (USERNAME_DOMAIN_LEN
   <? Z.of_nat (String.length (snd (ct_GetEnvironmentVariable_USERDOMAIN env))) + 1 + 1)
  = false /\
  (USERNAME_DOMAIN_LEN
   <? Z.of_nat (String.length
                  (String.append (snd (ct_GetEnvironmentVariable_USERDOMAIN env)) "\"))
      + Z.of_nat (String.length (snd (ct_GetEnvironmentVariable_USERNAME env))) + 1)
  = false.
Proof.
  unfold names_fit. intros H%Z.leb_le.
  assert (forall s t, String.length (String.append s t)
                      = (String.length s + String.length t)%nat) as Hlen.
  { intros s t. induction s as [|a s IH]; [reflexivity|].
    change (S (String.length (String.append s t))
            = S (String.length s + String.length t)).
    f_equal. exact IH. }
  rewrite Hlen. cbn [String.length]. split; apply Z.ltb_ge; lia.
Qed.

(** X18: when the user and domain names fit the buffer,
    [CreateScheduledTaskCA] returns, and on every path the COM interfaces
    it has acquired are the ones it has released, except on the paths where
    the PowerToys task folder was missing and has been created: there the
    root folder is acquired and never released. *)
Theorem CreateScheduledTaskCA_releases (env : CreateTaskEnv) :
  names_fit env = true ->
  exists res log,
    CreateScheduledTaskCA env = Some (res, log) /\
    omap acquired log
    ≡ₚ omap released log
       ++ (if reaches_folder env && folder_created env then [pRootFolder] else []).
Proof.
  intros [Hfit1 Hfit2]%names_fit_checks.
  unfold CreateScheduledTaskCA, CreateScheduledTaskCA_LExit, reaches_folder, folder_created.
  cbv zeta.
  destruct (SUCCEEDED (ct_WcaInitialize env)); cbn [negb andb]; [|early_exit].
  destruct (ct_GetEnvironmentVariable_USERNAME env) as [got1 username]. cbn [fst snd] in *.
  destruct (got1 =? 0); cbn [negb andb]; [early_exit|].
  destruct (ct_GetEnvironmentVariable_USERDOMAIN env) as [got2 domain]. cbn [fst snd] in *.
  destruct (got2 =? 0); cbn [negb andb]; [early_exit|].
  rewrite Hfit1, Hfit2.
  destruct (SUCCEEDED (ct_WcaGetProperty env)); cbn [negb andb]; [|early_exit].
  destruct (SUCCEEDED (ct_CoCreateInstance env)); cbn [negb andb]; [|early_exit].
  destruct (SUCCEEDED (ct_Connect env)); cbn [negb andb orb]; [|early_exit].
  destruct (SUCCEEDED (ct_GetFolder_PowerToys env)); cbn [negb andb orb].
  - match goal with
    | |- context [CreateScheduledTaskCA_task env ?n ?u ?l] =>
        destruct (CreateScheduledTaskCA_task_log env n u l) as (extra & Hlog & Hperm & _);
        destruct (CreateScheduledTaskCA_task env n u l) as [res log]
    end.
    cbn [snd] in Hlog. subst log. eexists _, _. split; [reflexivity|].
    rewrite !omap_app. cbn. rewrite app_nil_r, <- Hperm. solve_Permutation.
  - destruct (SUCCEEDED (ct_GetFolder_root env)); cbn [negb andb orb]; [|early_exit].
    destruct (SUCCEEDED (ct_CreateFolder env)); cbn [negb andb orb]; [|early_exit].
    match goal with
    | |- context [CreateScheduledTaskCA_task env ?n ?u ?l] =>
        destruct (CreateScheduledTaskCA_task_log env n u l) as (extra & Hlog & Hperm & _);
        destruct (CreateScheduledTaskCA_task env n u l) as [res log]
    end.
    cbn [snd] in Hlog. subst log. eexists _, _. split; [reflexivity|].
    rewrite !omap_app. cbn. rewrite <- Hperm. solve_Permutation.
Qed.

Lemma CreateScheduledTaskCA_releases_witness :
  names_fit sample_create_env = true /\
  exists res log,
    CreateScheduledTaskCA sample_create_env = Some (res, log) /\
    omap acquired log
    ≡ₚ omap released log
       ++ (if reaches_folder sample_create_env && folder_created sample_create_env
           then [pRootFolder] else []).
Proof.
  split; [reflexivity|].
  apply (CreateScheduledTaskCA_releases sample_create_env). reflexivity.
Defined.

(** X19: when the user and domain names fit, [CreateScheduledTaskCA]
    reports success exactly when initialisation, both environment
    variables, the property, the task service, the connection, the task
    folder (found, or else created under the root folder) and the twenty
    checked steps of building and registering the task all succeed; the
    five calls that are only logged when they fail (the identifier and the
    delay of the trigger, the identifier, user and logon type of the
    principal) play no part; and the warning is shown exactly when the
    result is a failure. *)
Theorem CreateScheduledTaskCA_result (env : CreateTaskEnv) :
  names_fit env = true ->
  exists res log,
    CreateScheduledTaskCA env = Some (res, log) /\
    res = Finalized (if reaches_folder env && forallb SUCCEEDED (task_steps env)
                     then ERROR_SUCCESS else ERROR_INSTALL_FAILURE) /\
    length (omap message_shown log)
    = (if reaches_folder env && forallb SUCCEEDED (task_steps env) then 0%nat else 1%nat).
Proof.
  intros [Hfit1 Hfit2]%names_fit_checks.
  unfold CreateScheduledTaskCA, CreateScheduledTaskCA_LExit, reaches_folder, folder_created,
    exit_code.
  cbv zeta.
  destruct (SUCCEEDED (ct_WcaInitialize env)); cbn [negb andb]; [|early_exit].
  destruct (ct_GetEnvironmentVariable_USERNAME env) as [got1 username]. cbn [fst snd] in *.
  destruct (got1 =? 0); cbn [negb andb]; [early_exit|].
  destruct (ct_GetEnvironmentVariable_USERDOMAIN env) as [got2 domain]. cbn [fst snd] in *.
  destruct (got2 =? 0); cbn [negb andb]; [early_exit|].
  rewrite Hfit1, Hfit2.
  destruct (SUCCEEDED (ct_WcaGetProperty env)); cbn [negb andb]; [|early_exit].
  destruct (SUCCEEDED (ct_CoCreateInstance env)); cbn [negb andb]; [|early_exit].
  destruct (SUCCEEDED (ct_Connect env)); cbn [negb andb orb]; [|early_exit].
  destruct (SUCCEEDED (ct_GetFolder_PowerToys env)); cbn [negb andb orb].
  - match goal with
    | |- context [CreateScheduledTaskCA_task env ?n ?u ?l] =>
        destruct (CreateScheduledTaskCA_task_log env n u l) as (extra & Hlog & _ & Hr & Hm);
        destruct (CreateScheduledTaskCA_task env n u l) as [res log]
    end.
    cbn [fst snd] in Hlog, Hr. subst log res. eexists _, _. split; [reflexivity|].
    split; [reflexivity|]. rewrite !omap_app, !length_app, Hm. reflexivity.
  - destruct (SUCCEEDED (ct_GetFolder_root env)); cbn [negb andb orb]; [|early_exit].
    destruct (SUCCEEDED (ct_CreateFolder env)); cbn [negb andb orb]; [|early_exit].
    match goal with
    | |- context [CreateScheduledTaskCA_task env ?n ?u ?l] =>
        destruct (CreateScheduledTaskCA_task_log env n u l) as (extra & Hlog & _ & Hr & Hm);
        destruct (CreateScheduledTaskCA_task env n u l) as [res log]
    end.
    cbn [fst snd] in Hlog, Hr. subst log res. eexists _, _. split; [reflexivity|].
    split; [reflexivity|]. rewrite !omap_app, !length_app, Hm. reflexivity.
Qed.

Lemma CreateScheduledTaskCA_result_witness :
  names_fit sample_create_env = true /\
  exists res log,
    CreateScheduledTaskCA sample_create_env = Some (res, log) /\
    res = Finalized (if reaches_folder sample_create_env
                        && forallb SUCCEEDED (task_steps sample_create_env)
                     then ERROR_SUCCESS else ERROR_INSTALL_FAILURE) /\
    length (omap message_shown log)
    = (if reaches_folder sample_create_env
          && forallb SUCCEEDED (task_steps sample_create_env)
       then 0%nat else 1%nat).
Proof.
  split; [reflexivity|].
  apply (CreateScheduledTaskCA_result sample_create_env). reflexivity.
Defined.

(** The folder is created, the task is registered for DESKTOP\anna, and the
    root folder is the one interface left unreleased. *)
Example CreateScheduledTaskCA_sample :
  match CreateScheduledTaskCA sample_create_env with
  | Some (res, log) =>
      res = Finalized ERROR_SUCCESS /\
      RegisterTaskDefinition "Autorun for anna" "DESKTOP\anna" ∈ log /\
      com_acquired pRootFolder ∈ log /\
      omap released log
      = [pTrigger; pLogonTrigger; pActionCollection; pAction; pExecAction; pPrincipal;
         pService; pTaskFolder; pTask; pRegInfo; pSettings; pTriggerCollection;
         pRegisteredTask 0]
  | None => False
  end.
Proof.
  vm_compute. repeat split; apply list_elem_of_In; cbn; tauto.
Qed.

(** X20: when the first query of the property reports the length of its
    value and the second, given a buffer of one character more, stores the
    value and its terminator, [getInstallFolder] yields exactly the value,
    the character added for the terminator removed again; and it reports
    failure only for a result code with the top bit set, every positive
    Windows Installer code being a succeeding [HRESULT]. *)
Theorem getInstallFolder_value (env : MsiEnv) (value : list wchar_t) (res : UINT) :
  ms_MsiGetPropertyW_len env = Z.of_nat (length value) ->
  Z.of_nat (length value) + 1 < 2 ^ 32 ->
  ms_MsiGetPropertyW env (Z.of_nat (length value) + 1) = (res, value ++ [0]) ->
  is_uint32 res ->
  exists hr,
    getInstallFolder env = Some (hr, value) /\
    SUCCEEDED hr = bool_decide (res < 2 ^ 31).
Proof.
  intros Hlen Hsmall Hcall Hres. unfold getInstallFolder. cbv zeta.
  rewrite Hlen, Z.mod_small by lia. rewrite Hcall.
  rewrite length_app. cbn [length].
  destruct (Z.ltb_spec (Z.of_nat (length value) + 1) (Z.of_nat (length value + 1)));
    [lia|].
  replace (Z.to_nat (Z.of_nat (length value) + 1) - (length value + 1))%nat with 0%nat
    by lia.
  cbn [repeat]. rewrite app_nil_r, length_app. cbn [length].
  destruct (Nat.eqb_spec (length value + 1) 0); [lia|].
  replace (length value + 1 - 1)%nat with (length value) by lia.
  rewrite take_app_length.
  eexists. split; [reflexivity|]. apply SUCCEEDED_static_cast_long. exact Hres.
Qed.

Lemma getInstallFolder_value_witness :
  (ms_MsiGetPropertyW_len sample_msi_env = Z.of_nat (length [67; 58; 92; 80; 84]) /\
   Z.of_nat (length [67; 58; 92; 80; 84]) + 1 < 2 ^ 32 /\
   ms_MsiGetPropertyW sample_msi_env (Z.of_nat (length [67; 58; 92; 80; 84]) + 1)
   = (0, [67; 58; 92; 80; 84] ++ [0]) /\
   is_uint32 0) /\
  exists hr,
    getInstallFolder sample_msi_env = Some (hr, [67; 58; 92; 80; 84]) /\
    SUCCEEDED hr = bool_decide (0 < 2 ^ 31).
Proof.
  split; [unfold is_uint32; repeat split; cbn; lia|].
  apply (getInstallFolder_value sample_msi_env [67; 58; 92; 80; 84] 0);
    [reflexivity|cbn; lia|reflexivity|unfold is_uint32; lia].
Defined.

Lemma apply_changeSets_log (changeSets : list bool) (i : Z) (failedToApply : bool) :
  fst (apply_changeSets changeSets i failedToApply)
  = failedToApply || negb (forallb id changeSets) /\
  omap changeSet_applied (snd (apply_changeSets changeSets i failedToApply))
  = seqZ i (Z.of_nat (length changeSets)) /\
  omap error_logged (snd (apply_changeSets changeSets i failedToApply))
  = map (fun _ => "Couldn't apply registry changeSet")
      (filter (fun applied => applied = false) changeSets) /\
  Logger_info "All registry changeSets applied successfully"
  ∉ snd (apply_changeSets changeSets i failedToApply).
Proof.
  revert i failedToApply.
  induction changeSets as [|applied cs IH]; intros i failedToApply.
  - cbn. rewrite orb_false_r. repeat split. apply not_elem_of_nil.
  - cbn [apply_changeSets].
    destruct (IH (i + 1) (if applied then failedToApply else true))
      as (IH1 & IH2 & IH3 & IH4).
    destruct (apply_changeSets cs (i + 1) (if applied then failedToApply else true))
      as [failed l].
    cbn [fst snd] in *. subst failed. split; [|split; [|split]].
    + destruct applied, failedToApply; reflexivity.
    + change (changeSet_apply i :: ?t) with ([changeSet_apply i] ++ t).
      rewrite !omap_app, IH2.
      change (length (applied :: cs)) with (S (length cs)).
      rewrite Nat2Z.inj_succ.
      rewrite (seqZ_cons i (Z.succ (Z.of_nat (length cs)))) by lia.
      rewrite Z.pred_succ.
      replace (Z.succ i) with (i + 1) by lia.
      destruct applied; reflexivity.
    + change (changeSet_apply i :: ?t) with ([changeSet_apply i] ++ t).
      rewrite !omap_app, IH3.
      destruct applied.
      * rewrite filter_cons_False by discriminate. reflexivity.
      * rewrite filter_cons_True by reflexivity. reflexivity.
    + intros [H|H]%elem_of_cons; [discriminate H|].
      apply elem_of_app in H as [H|H]; [|exact (IH4 H)].
      destruct applied; [exact (not_elem_of_nil _ H)|].
      apply list_elem_of_singleton in H. discriminate H.
Qed.

(** X21: once initialisation and [getInstallFolder] have succeeded,
    [ApplyModulesRegistryChangeSetsCA] reports success whatever the change
    sets do; every change set is applied, in order, also after one has
    failed; one error is logged per change set that could not be applied,
    and the success message exactly when there was none. *)
Theorem ApplyModulesRegistryChangeSetsCA_applies_all (env : MsiEnv) (hr : HRESULT)
    (installationFolder : list wchar_t) :
  SUCCEEDED (ms_WcaInitialize env) = true ->
  getInstallFolder env = Some (hr, installationFolder) ->
  SUCCEEDED hr = true ->
  exists log,
    ApplyModulesRegistryChangeSetsCA env = Some (Finalized ERROR_SUCCESS, log) /\
    omap changeSet_applied log
    = seqZ 0 (Z.of_nat (length (ms_changeSets env installationFolder))) /\
    omap error_logged log
    = map (fun _ => "Couldn't apply registry changeSet")
        (filter (fun applied => applied = false)
           (ms_changeSets env installationFolder)) /\
    (Logger_info "All registry changeSets applied successfully" ∈ log <->
     forallb id (ms_changeSets env installationFolder) = true).
Proof.
  intros Hi Hf Hs. unfold ApplyModulesRegistryChangeSetsCA, exit_code.
  rewrite Hi, Hf, Hs. cbn [negb].
  destruct (apply_changeSets_log (ms_changeSets env installationFolder) 0 false)
    as (H1 & H2 & H3 & H4).
  destruct (apply_changeSets (ms_changeSets env installationFolder) 0 false) as [failed l].
  cbn [fst snd orb] in *. subst failed.
  eexists. split; [reflexivity|].
  rewrite !omap_app, H2, H3, negb_involutive.
  destruct (forallb id (ms_changeSets env installationFolder)).
  - cbn. rewrite !app_nil_r. repeat split.
    intros _. apply elem_of_app. right. apply list_elem_of_here.
  - cbn. rewrite !app_nil_r. repeat split; try discriminate.
    intros H. destruct (H4 H).
Qed.

Lemma ApplyModulesRegistryChangeSetsCA_applies_all_witness :
  (SUCCEEDED (ms_WcaInitialize sample_msi_env) = true /\
   getInstallFolder sample_msi_env = Some (0, [67; 58; 92; 80; 84]) /\
   SUCCEEDED 0 = true) /\
  exists log,
    ApplyModulesRegistryChangeSetsCA sample_msi_env = Some (Finalized ERROR_SUCCESS, log) /\
    omap changeSet_applied log
    = seqZ 0 (Z.of_nat (length (ms_changeSets sample_msi_env [67; 58; 92; 80; 84]))) /\
    omap error_logged log
    = map (fun _ => "Couldn't apply registry changeSet")
        (filter (fun applied => applied = false)
           (ms_changeSets sample_msi_env [67; 58; 92; 80; 84])) /\
    (Logger_info "All registry changeSets applied successfully" ∈ log <->
     forallb id (ms_changeSets sample_msi_env [67; 58; 92; 80; 84]) = true).
Proof.
  split; [repeat split|].
  apply (ApplyModulesRegistryChangeSetsCA_applies_all sample_msi_env 0 [67; 58; 92; 80; 84]);
    reflexivity.
Defined.
